(** * Options Levels Auto-Update: the two userscripts, embedded and verified

  The repository ships two versions of a Tampermonkey userscript that polls a
  CSV ledger and drives the settings dialog of a TradingView indicator:

  - v1.0, [tradingview_autoupdate.user.js]  (module [V1]);
  - v2.0, the userscript carried in [README.md] (module [V2]).

  Both are asynchronous functions over a DOM they do not own.  JavaScript runs
  each stretch of code between two [await]s to completion, so an invocation of
  [fetchAndUpdate] is modelled as a task with a program counter that names
  the [await] it is suspended at; the environment (network, clock, host page)
  supplies what the task sees when it is resumed.  Everything the script does
  to the outside world is appended to a trace of effects. *)

From Stdlib Require Import String Ascii List Bool Arith NArith ZArith QArith Lia.
From Stdlib Require Import DecimalString DecimalN DecimalPos.
Import ListNotations.

Set Warnings "-register-all".  (* [node] nests through [list]; its induction principle is written by hand below *)

Close Scope Q_scope.
Local Open Scope string_scope.
Local Open Scope list_scope.

(* ================================================================== *)
(** ** JavaScript strings, as the bytes of their UTF-8 encoding *)
(* ================================================================== *)

Module JsString.

(** [hay.includes(needle)] *)
Fixpoint includes (hay needle : string) : bool :=
  if prefix needle hay then true
  else match hay with
       | EmptyString => false
       | String _ hay' => includes hay' needle
       end.

(** Strings are kept as the bytes of their UTF-8 encoding.  White space, as
    [trim] and [parseFloat] understand it (WhiteSpace and LineTerminator), is
    TAB, LF, VT, FF, CR and SPACE in one byte, U+00A0 in two, and U+1680,
    U+2000 to U+200A, U+2028, U+2029, U+202F, U+205F, U+3000 and U+FEFF in
    three. *)
Definition byte_is (a : ascii) (n : nat) : bool := (nat_of_ascii a =? n)%nat.

Definition is_ws (a : ascii) : bool :=
  let n := nat_of_ascii a in
  ((9 <=? n)%nat && (n <=? 13)%nat) || (n =? 32)%nat.

Definition is_ws2 (a b : ascii) : bool := byte_is a 194 && byte_is b 160.

Definition is_ws3 (a b c : ascii) : bool :=
  let n := nat_of_ascii c in
  (byte_is a 225 && byte_is b 154 && byte_is c 128) ||
  (byte_is a 226 && byte_is b 128 &&
     (((128 <=? n)%nat && (n <=? 138)%nat) || (n =? 168)%nat || (n =? 169)%nat || (n =? 175)%nat)) ||
  (byte_is a 226 && byte_is b 129 && byte_is c 159) ||
  (byte_is a 227 && byte_is b 128 && byte_is c 128) ||
  (byte_is a 239 && byte_is b 187 && byte_is c 191).

Fixpoint trimStart (s : string) : string :=
  match s with
  | EmptyString => EmptyString
  | String a s1 =>
      if is_ws a then trimStart s1
      else match s1 with
           | String b s2 =>
               if is_ws2 a b then trimStart s2
               else match s2 with
                    | String c s3 => if is_ws3 a b c then trimStart s3 else s
                    | EmptyString => s
                    end
           | EmptyString => s
           end
  end.

(** [s] is white space from end to end. *)
Definition all_ws (s : string) : bool :=
  match trimStart s with EmptyString => true | _ => false end.

Fixpoint trimEnd (s : string) : string :=
  match s with
  | EmptyString => EmptyString
  | String a s' => if all_ws s then EmptyString else String a (trimEnd s')
  end.

Definition trim (s : string) : string := trimEnd (trimStart s).

(** [s.split(sep)] for a one-character separator: never empty. *)
Fixpoint split (sep : ascii) (s : string) : list string :=
  match s with
  | EmptyString => [EmptyString]
  | String a s' =>
      if Ascii.eqb a sep then EmptyString :: split sep s'
      else match split sep s' with
           | piece :: rest => String a piece :: rest
           | [] => [String a EmptyString]
           end
  end.

(** [l.join(sep)] *)
Fixpoint join (sep : string) (l : list string) : string :=
  match l with
  | [] => EmptyString
  | [x] => x
  | x :: rest => x ++ sep ++ join sep rest
  end.

(** [l.slice(1)] *)
Definition slice1 {A} (l : list A) : list A := tl l.

(** [l[l.length - 1]] and [l.pop()] on a list of strings; [split] never
    returns the empty list, where JavaScript would give [undefined]. *)
Definition last_item (l : list string) : string := last l EmptyString.

Definition lower (a : ascii) : ascii :=
  let n := nat_of_ascii a in
  if ((65 <=? n)%nat && (n <=? 90)%nat) then ascii_of_nat (n + 32) else a.

(** [s.toLowerCase()], on the ASCII letters.  The scripts only ask whether
    the result includes "options", "resistance", "high", "support" or "low";
    of the letters outside ASCII, lowering makes ASCII only of U+0130 (an "i"
    followed by U+0307) and of U+212A (a "k"), which can complete none of
    these words, so the answer is the same. *)
Fixpoint toLowerCase (s : string) : string :=
  match s with
  | EmptyString => EmptyString
  | String a s' => String (lower a) (toLowerCase s')
  end.

(** String(n) for a non-negative integer. *)
Definition of_N (n : N) : string := NilZero.string_of_uint (N.to_uint n).

Definition LF : ascii := ascii_of_nat 10.
Definition LFs : string := String LF EmptyString.
Definition comma : ascii := ","%char.
Definition dquote : string := String (ascii_of_nat 34) EmptyString.

End JsString.
Import JsString.

(* ================================================================== *)
(** ** JavaScript numbers, as far as the scripts use them *)
(* ================================================================== *)

Module JsNumber.

(** A number is NaN, an infinity, the negative zero, or finite.  A finite
    value is the rational a binary64 holds, in lowest terms. *)
Inductive number : Type :=
| NaN
| Infinite (negative : bool)
| NegZero
| Finite (q : Q).

(** [x === y] on numbers *)
Definition strict_eq (x y : number) : bool :=
  match x, y with
  | Finite a, Finite b => Qeq_bool a b
  | NegZero, NegZero => true
  | NegZero, Finite b => Qeq_bool 0 b
  | Finite a, NegZero => Qeq_bool a 0
  | Infinite s, Infinite t => Bool.eqb s t
  | _, _ => false
  end.

(** [x !== y] *)
Definition strict_ne (x y : number) : bool := negb (strict_eq x y).

Definition is_digit (a : ascii) : bool :=
  let n := nat_of_ascii a in ((48 <=? n)%nat && (n <=? 57)%nat).

Definition digit_val (a : ascii) : N := N.of_nat (nat_of_ascii a - 48).

(** The longest run of decimal digits at the head of [s], and what follows. *)
Fixpoint span_digits (s : string) : list ascii * string :=
  match s with
  | String a s' =>
      if is_digit a then let (ds, r) := span_digits s' in (a :: ds, r)
      else ([], s)
  | EmptyString => ([], EmptyString)
  end.

Definition digits_val (ds : list ascii) : N :=
  fold_left (fun acc d => (acc * 10 + digit_val d)%N) ds 0%N.

Definition take_sign (s : string) : bool * string :=
  match s with
  | String "+" r => (false, r)
  | String "-" r => (true, r)
  | _ => (false, s)
  end.

(** ExponentPart: [e] or [E], an optional sign, at least one digit; absent
    or malformed exponents count as 0 (the literal ends before them). *)
Definition exponent (s : string) : Z :=
  match s with
  | String c r =>
      if (Ascii.eqb c "e" || Ascii.eqb c "E")%bool then
        let (neg, r1) := take_sign r in
        match span_digits r1 with
        | ([], _) => 0%Z
        | (ds, _) => let v := Z.of_N (digits_val ds) in if neg then (- v)%Z else v
        end
      else 0%Z
  | EmptyString => 0%Z
  end.

(** mantissa * 10^e as a rational *)
Definition scale (m : N) (e : Z) : Q :=
  if (0 <=? e)%Z then inject_Z (Z.of_N m * 10 ^ e)
  else Qred (Qmake (Z.of_N m) (Z.to_pos (10 ^ (- e)))).

(** floor (log2 (a / b)) *)
Definition ilog2 (a b : positive) : Z :=
  let e := (Z.log2 (Zpos a) - Z.log2 (Zpos b))%Z in
  if (0 <=? e)%Z then (if (Zpos a <? Zpos b * 2 ^ e)%Z then e - 1 else e)%Z
  else (if (Zpos a * 2 ^ (- e) <? Zpos b)%Z then e - 1 else e)%Z.

(** n / d rounded to the nearest integer, ties to the even one *)
Definition round_half_even (n d : Z) : Z :=
  let (k, r) := Z.div_eucl n d in
  match (2 * r ?= d)%Z with
  | Lt => k
  | Gt => (k + 1)%Z
  | Eq => if Z.even k then k else (k + 1)%Z
  end.

Definition zero (neg : bool) : number := if neg then NegZero else Finite 0.

(** The Number value of a literal: the binary64 nearest to (-1)^neg * q for
    q >= 0, ties to even; 53 bits of mantissa, exponents down to -1074
    (subnormals), infinity from 2^1024 on. *)
Definition round64 (neg : bool) (q : Q) : number :=
  match Qnum q with
  | Zpos a =>
      let b := Qden q in
      let ex := Z.max (ilog2 a b - 52) (-1074) in
      let m := if (0 <=? ex)%Z then round_half_even (Zpos a) (Zpos b * 2 ^ ex)
               else round_half_even (Zpos a * 2 ^ (- ex)) (Zpos b) in
      let sm := if neg then (- m)%Z else m in
      if (m =? 0)%Z then zero neg
      else if (0 <=? ex)%Z then
        if (2 ^ 1024 <=? m * 2 ^ ex)%Z then Infinite neg
        else Finite (inject_Z (sm * 2 ^ ex))
      else Finite (Qred (Qmake sm (Z.to_pos (2 ^ (- ex)))))
  | _ => zero neg
  end.

(** [parseFloat(s)]: skip leading white space, read the longest prefix that
    is a StrDecimalLiteral, NaN when there is none. *)
Definition parseFloat (s : string) : number :=
  let (neg, t) := take_sign (trimStart s) in
  if prefix "Infinity" t then Infinite neg
  else
    let (ip, t2) := span_digits t in
    let (fp, t3) := match t2 with
                    | String "." r => span_digits r
                    | _ => ([], t2)
                    end in
    match ip ++ fp with
    | [] => NaN
    | ds => round64 neg (scale (digits_val ds) (exponent t3 - Z.of_nat (length fp)))
    end.

End JsNumber.
Import JsNumber.

(* ================================================================== *)
(** ** The host page: a DOM snapshot and the queries the scripts run *)
(* ================================================================== *)

Module Dom.

Inductive node : Type :=
| Text (data : string)
| Elem (tag : string) (attrs : list (string * string)) (children : list node).

(** An element together with its chain of ancestors, nearest first: what
    [closest] and [parentElement] need. *)
Record loc : Type := Loc { self : node; ancestors : list node }.

Definition at_root (n : node) : loc := Loc n [].

Fixpoint assoc (k : string) (l : list (string * string)) : option string :=
  match l with
  | [] => None
  | (k', v) :: l' => if String.eqb k k' then Some v else assoc k l'
  end.

Definition getAttribute (n : node) (name : string) : option string :=
  match n with
  | Text _ => None
  | Elem _ attrs _ => assoc name attrs
  end.

(** [n.textContent] *)
Fixpoint textContent (n : node) : string :=
  match n with
  | Text s => s
  | Elem _ _ cs => String.concat EmptyString (map textContent cs)
  end.

(** [ta.placeholder]: the attribute, or the empty string. *)
Definition placeholder (n : node) : string :=
  match getAttribute n "placeholder" with Some p => p | None => EmptyString end.

(** The simple selectors the scripts use: [tag], [[a="v"]], [[a*="v"]]. *)
Inductive simple : Type :=
| ByTag (t : string)
| AttrIs (a v : string)
| AttrHas (a v : string).

(** A compound selector is a conjunction, a selector list a disjunction. *)
Definition selector : Type := list (list simple).

(** The attributes whose values an attribute selector compares without
    regard to ASCII case on the elements of an HTML document. *)
Definition case_insensitive_values : list string :=
  ["accept"; "accept-charset"; "align"; "alink"; "axis"; "bgcolor"; "charset";
   "checked"; "clear"; "codetype"; "color"; "compact"; "declare"; "defer"; "dir";
   "direction"; "disabled"; "enctype"; "face"; "frame"; "hreflang"; "http-equiv";
   "lang"; "language"; "link"; "media"; "method"; "multiple"; "nohref"; "noresize";
   "noshade"; "nowrap"; "readonly"; "rel"; "rev"; "rules"; "scope"; "scrolling";
   "selected"; "shape"; "target"; "text"; "type"; "valign"; "valuetype"; "vlink"].

Definition fold_case (a x : string) : string :=
  if existsb (String.eqb a) case_insensitive_values then toLowerCase x else x.

Definition matches1 (n : node) (s : simple) : bool :=
  match n, s with
  | Text _, _ => false
  | Elem t _ _, ByTag t' => String.eqb t t'
  | Elem _ _ _, AttrIs a v =>
      match getAttribute n a with
      | Some x => String.eqb (fold_case a x) (fold_case a v)
      | None => false
      end
  | Elem _ _ _, AttrHas a v =>
      match getAttribute n a with
      | Some x => includes (fold_case a x) (fold_case a v)
      | None => false
      end
  end.

Definition matches (sel : selector) (n : node) : bool :=
  existsb (fun c => forallb (matches1 n) c) sel.

(** The elements of the subtree at [n], in document order, [n] first. *)
Fixpoint subtree (anc : list node) (n : node) : list loc :=
  match n with
  | Text _ => []
  | Elem _ _ cs => Loc n anc :: flat_map (subtree (n :: anc)) cs
  end.

Definition descendants (l : loc) : list loc :=
  tl (subtree (ancestors l) (self l)).

(** [el.querySelectorAll(sel)] and [el.querySelector(sel)] *)
Definition querySelectorAll (l : loc) (sel : selector) : list loc :=
  filter (fun d => matches sel (self d)) (descendants l).

Definition querySelector (l : loc) (sel : selector) : option loc :=
  hd_error (querySelectorAll l sel).

(** [document.querySelectorAll(sel)]: the root element can match too. *)
Definition docQuerySelectorAll (doc : node) (sel : selector) : list loc :=
  filter (fun d => matches sel (self d)) (subtree [] doc).

Definition docQuerySelector (doc : node) (sel : selector) : option loc :=
  hd_error (docQuerySelectorAll doc sel).

Definition getElementById (doc : node) (id : string) : option loc :=
  docQuerySelector doc [[AttrIs "id" id]].

(** [el.closest(sel)] *)
Definition closest (l : loc) (sel : selector) : option node :=
  find (matches sel) (self l :: ancestors l).

Definition parentElement (l : loc) : option node := hd_error (ancestors l).

(** [a || b] on possibly-null elements *)
Definition or_else {A} (a b : option A) : option A :=
  match a with Some _ => a | None => b end.

(** All elements of a document, without their context. *)
Definition elements (doc : node) : list node := map self (subtree [] doc).

End Dom.
Import Dom.

(* ================================================================== *)
(** ** What the scripts exchange with their environment *)
(* ================================================================== *)

Module Host.

(** A thrown or rejected value, as far as the scripts look at it: they read
    [error.message], which is [undefined] on the object [onerror] passes. *)
Record error : Type := Thrown { message : option string }.

(** [new Error(msg)] *)
Definition Error (msg : string) : error := Thrown (Some msg).

(** ['...' + error.message] *)
Definition show_message (e : error) : string :=
  match message e with Some m => m | None => "undefined" end.

(** Pieces of a displayed text whose rendering is the browser's business. *)
Inductive fragment : Type :=
| Str (s : string)
| NumString (x : number)     (* String(x), as assigning to [input.value] does *)
| NumLocale (x : number)     (* x.toLocaleString() *)
| TimeLocale (t : N).        (* new Date(t).toLocaleTimeString() *)

Definition text : Type := list fragment.

(** Everything a script does to the world outside its own variables. *)
Inductive effect : Type :=
| Request (method url : string)                (* GM_xmlhttpRequest *)
| Click (target : node)                        (* el.click() *)
| SetValue (target : node) (value : text)      (* el.value = ... *)
| Dispatch (target : node) (type : string)     (* el.dispatchEvent(new Event(type, {bubbles: true})) *)
| SetText (target : node) (content : text)     (* el.textContent = ... *)
| SetBackground (target : node) (color : string)
| SetClass (target : node) (className : string)
| Notify (title : string) (body : text) (timeout : N)   (* GM_notification *)
| Log (msg : string) (args : text)             (* console.log *)
| LogError (msg : string) (e : error).         (* console.error *)

(** How the request ends: [onload] with a status and a body, or [onerror]. *)
Inductive response : Type :=
| Loaded (status : N) (responseText : string)
| Failed (e : error).

(** What a task finds when it runs: the clock, the page as it is now, the
    present state of elements it still holds from before ([live]), and
    whether the host's object tree throws when the driver queries it. *)
Record wake : Type := Wake {
  now : N;
  document : node;
  live : node -> node;
  fault : option error
}.

(** What resumes a suspended task. *)
Inductive event : Type :=
| Settled (r : response) (w : wake)     (* the promise of [fetchData] settles *)
| Woke (w : wake).                      (* a [sleep] timer fires *)

Definition is_ui (e : effect) : bool :=
  match e with
  | Click _ | SetValue _ _ | Dispatch _ _ => true
  | _ => false
  end.



(** No click, no value written, no event raised on the host page. *)
Definition ui_untouched (tr : list effect) : Prop :=
  forallb (fun e => negb (is_ui e)) tr = true.

End Host.
Import Host.

(* ================================================================== *)
(** ** v1.0: tradingview_autoupdate.user.js *)
(* ================================================================== *)

Module V1.

Record config : Type := {
  csvUrl : string;
  updateIntervalMs : N;
  indicatorName : string;
  showNotifications : bool;
  autoClickApply : bool
}.

Definition CONFIG : config := {|
  csvUrl := "https://raw.githubusercontent.com/mabkkhome-lgtm/deribit-options-data/main/data/btc_levels.csv";
  updateIntervalMs := 15 * 60 * 1000;
  indicatorName := "Options Levels Tracker";
  showNotifications := true;
  autoClickApply := true
|}.

(** [let lastData = ''; let isUpdating = false;] *)
Record client : Type := Client { lastData : string; isUpdating : bool }.

Definition initial : client := Client EmptyString false.

Definition set_lastData (c : client) (d : string) : client := Client d (isUpdating c).
Definition set_isUpdating (c : client) (b : bool) : client := Client (lastData c) b.

(** Where an invocation of [fetchAndUpdate] is suspended. *)
Inductive pc : Type :=
| AwaitFetch                                   (* await fetchData() *)
| AwaitDialog (data : string)                  (* await sleep(500), in updateIndicatorInput *)
| AwaitApply (data : string) (dialog : node)   (* await sleep(300), before the button search *)
| Finished.

Definition with_element (o : option loc) (k : node -> list effect) : list effect :=
  match o with Some l => k (self l) | None => [] end.

(** [updateStatus(text, isError)] *)
Definition updateStatus (w : wake) (txt : string) (isError : bool) : list effect :=
  with_element (getElementById (document w) "status-dot")
    (fun dot => [SetBackground dot (if isError then "#f44336" else "#4caf50")]) ++
  with_element (getElementById (document w) "status-text")
    (fun statusText => [SetText statusText [Str txt]]) ++
  with_element (getElementById (document w) "status-details")
    (fun details => [SetText details [Str "Last update: "; TimeLocale (now w)]]).

(** The request [fetchData] sends. *)
Definition fetch_request (w : wake) : effect :=
  Request "GET" (csvUrl CONFIG ++ "?t=" ++ of_N (now w)).

(** How the promise of [fetchData] settles. *)
Definition fetchData (r : response) : string + error :=
  match r with
  | Loaded status responseText =>
      if (status =? 200)%N then
        let lines := split LF (trim responseText) in
        let dataLines := join LFs (slice1 lines) in
        inl dataLines
      else inr (Error ("Failed to fetch: " ++ of_N status))
  | Failed e => inr e
  end.

(** First loop of [findIndicatorSettings]: the legend. *)
Fixpoint legend_loop (legends : list loc) : option (list effect) :=
  match legends with
  | [] => None
  | legend :: rest =>
      match querySelector legend [[AttrHas "class" "title"]] with
      | Some titleSpan =>
          if includes (textContent (self titleSpan)) (indicatorName CONFIG) then
            match querySelector legend [[AttrIs "data-name" "legend-settings-action"]] with
            | Some settingsBtn => Some [Click (self settingsBtn)]
            | None => legend_loop rest
            end
          else legend_loop rest
      | None => legend_loop rest
      end
  end.

(** Second loop: the indicator list. *)
Fixpoint item_loop (items : list loc) : option (list effect) :=
  match items with
  | [] => None
  | item :: rest =>
      if includes (textContent (self item)) (indicatorName CONFIG) then
        match querySelector item [[AttrHas "class" "button"]] with
        | Some settingsBtn => Some [Click (self settingsBtn)]
        | None => item_loop rest
        end
      else item_loop rest
  end.

(** [findIndicatorSettings()] *)
Definition findIndicatorSettings (doc : node) : bool * list effect :=
  match legend_loop (docQuerySelectorAll doc [[AttrIs "data-name" "legend-source-item"]]) with
  | Some tr => (true, tr)
  | None =>
      match item_loop (docQuerySelectorAll doc [[AttrHas "class" "legendSourceItem"]]) with
      | Some tr => (true, tr)
      | None => (false, [])
      end
  end.

(** The dialog [updateIndicatorInput] works on: the last properties dialog,
    or else the first element whose class contains [dialog-]. *)
Definition find_dialog (doc : node) : option loc :=
  or_else
    (last (map Some (docQuerySelectorAll doc [[AttrIs "data-dialog-name" "indicator-properties-dialog"]])) None)
    (docQuerySelector doc [[AttrHas "class" "dialog-"]]).

(** The test inside the textarea loop. *)
Definition labelled (ta : loc) : bool :=
  match or_else (closest ta [[AttrHas "class" "cell"]]) (parentElement ta) with
  | Some parent =>
      includes (textContent parent) "PASTE DATA" ||
      includes (textContent parent) "data" ||
      includes (placeholder (self ta)) "data"
  | None => false
  end.

(** The textarea loop and the fallback to [textareas[0]]. *)
Definition targetTextarea (textareas : list loc) : option loc :=
  or_else (find labelled textareas) (hd_error textareas).

(** The button loop after [sleep(300)]. *)
Fixpoint button_loop (buttons : list loc) : option (list effect) :=
  match buttons with
  | [] => None
  | btn :: rest =>
      let t := textContent (self btn) in
      if includes t "OK" || includes t "Apply" || includes t "Defaults" then
        if includes t "OK" then
          Some [Click (self btn); Log "Options Levels: Settings applied" []]
        else button_loop rest
      else button_loop rest
  end.

(** Where [updateIndicatorInput] stands at the end of a stretch of its body:
    it has returned, or it sleeps before the button search, holding the
    dialog. *)
Inductive progress : Type :=
| Returned (updated : bool)
| Sleeping (dialog : node).

(** [updateIndicatorInput(data)] from the end of [sleep(500)] to [sleep(300)]
    or to its [return]. *)
Definition updateIndicatorInput_dialog (w : wake) (data : string) : progress * list effect :=
  match find_dialog (document w) with
  | None => (Returned false, [Log "Options Levels: Dialog not found" []])
  | Some dialog =>
      match targetTextarea (querySelectorAll dialog [[ByTag "textarea"]]) with
      | Some ta =>
          let written := [SetValue (self ta) [Str data];
                          Dispatch (self ta) "input";
                          Dispatch (self ta) "change";
                          Log "Options Levels: Data updated in textarea" []] in
          if autoClickApply CONFIG then (Sleeping (self dialog), written)
          else (Returned true, written)
      | None => (Returned false, [Log "Options Levels: Textarea not found in dialog" []])
      end
  end.

(** [updateIndicatorInput] from the end of [sleep(300)] to its [return]. *)
Definition updateIndicatorInput_apply (dialog : node) : bool * list effect :=
  match button_loop (querySelectorAll (at_root dialog) [[ByTag "button"]]) with
  | Some tr => (true, tr)
  | None =>
      match querySelector (at_root dialog) [[AttrIs "data-name" "submit-button"]] with
      | Some submitBtn => (true, [Click (self submitBtn)])
      | None => (true, [])
      end
  end.

(** [updateIndicatorInput(data)] as a whole: what it returns and does, given
    what it finds after each of its two sleeps. *)
Definition updateIndicatorInput (data : string) (w500 w300 : wake) : bool * list effect :=
  match updateIndicatorInput_dialog w500 data with
  | (Returned updated, tr) => (updated, tr)
  | (Sleeping dialog, tr) =>
      let (updated, tr') := updateIndicatorInput_apply (live w300 dialog) in
      (updated, tr ++ tr')
  end.

(** The rest of [fetchAndUpdate] once [updateIndicatorInput] has returned. *)
Definition after_update (c : client) (w : wake) (data : string) (updated : bool)
  : client * pc * list effect :=
  (set_isUpdating c false, Finished,
   if updated then
     updateStatus w "Options Levels: Updated ✓" false ++
     (if showNotifications CONFIG then
        [Notify "Options Levels Updated"
           [Str ("New data loaded: " ++ substring 0 50 (last_item (split LF data)))] 3000]
      else [])
   else updateStatus w "Update failed - manual paste needed" true).

(** The [catch] block and the assignment after it. *)
Definition on_error (c : client) (w : wake) (e : error) : client * pc * list effect :=
  (set_isUpdating c false, Finished,
   LogError "Options Levels Error:" e :: updateStatus w ("Error: " ++ show_message e) true).

Definition add_trace (tr : list effect) (r : client * pc * list effect)
  : client * pc * list effect :=
  let '(c, p, tr') := r in (c, p, tr ++ tr').

(** [fetchAndUpdate] while [updateIndicatorInput] runs its first stretch:
    suspended with it, or going on with what it returned. *)
Definition dialog_step (c : client) (w : wake) (data : string) : client * pc * list effect :=
  match updateIndicatorInput_dialog w data with
  | (Returned updated, tr) => add_trace tr (after_update c w data updated)
  | (Sleeping dialog, tr) => (c, AwaitApply data dialog, tr)
  end.

(** The changed branch of [fetchAndUpdate]: remember the data, then try the
    page. *)
Definition propagate (c : client) (w : wake) (data : string) : client * pc * list effect :=
  let c := set_lastData c data in
  match fault w with
  | Some e => on_error c w e
  | None =>
      match findIndicatorSettings (document w) with
      | (true, tr) => (c, AwaitDialog data, tr)
      | (false, tr) =>
          (set_isUpdating c false, Finished,
           tr ++ updateStatus w "Indicator not found on chart" true ++
           [Log ("Options Levels: Add the " ++ dquote ++ "Options Levels Tracker" ++ dquote ++
                 " indicator to your chart first") []])
      end
  end.

(** [fetchAndUpdate] from the resolution of [fetchData] on. *)
Definition fetched_step (c : client) (w : wake) (data : string) : client * pc * list effect :=
  if String.eqb data (lastData c) then
    (set_isUpdating c false, Finished, updateStatus w "Options Levels: No changes" false)
  else propagate c w data.

(** A call of [fetchAndUpdate()], up to its first suspension. *)
Definition invoke (c : client) (w : wake) : client * pc * list effect :=
  if isUpdating c then (c, Finished, [])
  else (set_isUpdating c true, AwaitFetch,
        updateStatus w "Updating..." false ++ [fetch_request w]).

(** A suspended invocation continues.  An event that is not the one the task
    waits for cannot reach it and changes nothing. *)
Definition resume (c : client) (p : pc) (ev : event) : client * pc * list effect :=
  match p, ev with
  | AwaitFetch, Settled r w =>
      match fetchData r with
      | inl data => fetched_step c w data
      | inr e => on_error c w e
      end
  | AwaitDialog data, Woke w =>
      match fault w with
      | Some e => on_error c w e
      | None => dialog_step c w data
      end
  | AwaitApply data dialog, Woke w =>
      match fault w with
      | Some e => on_error c w e
      | None =>
          let (updated, tr) := updateIndicatorInput_apply (live w dialog) in
          add_trace tr (after_update c w data updated)
      end
  | _, _ => (c, p, [])
  end.

(** One whole cycle: what the environment supplies at each suspension. *)
Record script : Type := Script {
  at_start : wake;
  reply : response;
  at_reply : wake;
  at_dialog : wake;
  at_apply : wake
}.

Definition continue (r : client * pc * list effect) (ev : event) : client * pc * list effect :=
  let '(c, p, tr) := r in add_trace tr (resume c p ev).

(** [fetchAndUpdate()] run to completion. *)
Definition fetchAndUpdate (c : client) (s : script) : client * pc * list effect :=
  continue (continue (continue (invoke c (at_start s))
    (Settled (reply s) (at_reply s))) (Woke (at_dialog s))) (Woke (at_apply s)).

End V1.

(* ================================================================== *)
(** ** v2.0: the userscript in README.md *)
(* ================================================================== *)

Module V2.

Record config : Type := {
  dataUrl : string;
  updateIntervalMs : N;
  indicatorName : string;
  showNotifications : bool
}.

Definition CONFIG : config := {|
  dataUrl := "https://raw.githubusercontent.com/mabkkhome-lgtm/deribit-options-data/main/data/btc_levels.csv";
  updateIntervalMs := 5 * 60 * 1000;
  indicatorName := "Options Levels";
  showNotifications := true
|}.

(** The object [fetchData] resolves with. *)
Module data.
Record t : Type := Make { date : string; resistance : number; support : number }.
End data.

(** [let state = { resistance: 0, support: 0, lastUpdate: null, isUpdating: false }] *)
Module state.
Record t : Type := Make {
  resistance : number;
  support : number;
  lastUpdate : option N;
  isUpdating : bool
}.
End state.

Definition client : Type := state.t.

Definition initial : client := state.Make (Finite 0) (Finite 0) None false.

Definition set_isUpdating (c : client) (b : bool) : client :=
  state.Make (state.resistance c) (state.support c) (state.lastUpdate c) b.

(** The three assignments of the changed branch. *)
Definition store (c : client) (d : data.t) (t : N) : client :=
  state.Make (data.resistance d) (data.support d) (Some t) (state.isUpdating c).

(** Where an invocation of [fetchAndUpdate] is suspended.  [rest] holds the
    legend items the [for] loop of [updateIndicatorSettings] has not visited. *)
Inductive pc : Type :=
| AwaitFetch                                               (* await fetchData() *)
| AwaitDialog (d : data.t) (rest : list node)              (* await sleep(600) *)
| AwaitOk (d : data.t) (dialog : node) (rest : list node)  (* await sleep(200) *)
| Finished.

Definition with_element (o : option loc) (k : node -> list effect) : list effect :=
  match o with Some l => k (self l) | None => [] end.

(** [setStatus(text, isError = false)] *)
Definition setStatus (w : wake) (txt : string) (isError : bool) : list effect :=
  with_element (getElementById (document w) "ol-status")
    (fun statusEl => [SetText statusEl [Str txt];
                      SetClass statusEl ("ol-status " ++ (if isError then "error" else EmptyString))]).

(** [updateStatusPanel()] *)
Definition updateStatusPanel (c : client) (w : wake) : list effect :=
  with_element (getElementById (document w) "ol-resistance")
    (fun resEl => [SetText resEl [Str "$"; NumLocale (state.resistance c)]]) ++
  with_element (getElementById (document w) "ol-support")
    (fun supEl => [SetText supEl [Str "$"; NumLocale (state.support c)]]) ++
  with_element (getElementById (document w) "ol-status")
    (fun statusEl => [SetText statusEl [Str "Updated: "; TimeLocale (now w)];
                      SetClass statusEl "ol-status success"]).

(** The request [fetchData] sends. *)
Definition fetch_request (w : wake) : effect :=
  Request "GET" (dataUrl CONFIG ++ "?t=" ++ of_N (now w)).

(** How the promise of [fetchData] settles. *)
Definition fetchData (r : response) : data.t + error :=
  match r with
  | Loaded status responseText =>
      if (status =? 200)%N then
        let lines := split LF (trim responseText) in
        if (1 <? length lines)%nat then
          let lastLine := last_item lines in
          let parts := split comma lastLine in
          if (3 <=? length parts)%nat then
            inl (data.Make (nth 0 parts EmptyString)
                           (parseFloat (nth 1 parts EmptyString))
                           (parseFloat (nth 2 parts EmptyString)))
          else inr (Error "Invalid data format")
        else inr (Error "No data")
      else inr (Error ("HTTP " ++ of_N status))
  | Failed e => inr e
  end.

(** The [for] loop of [updateIndicatorSettings] up to the click that precedes
    [sleep(600)]: the click, and the items still to visit. *)
Fixpoint legend_loop (items : list node) : option (list effect * list node) :=
  match items with
  | [] => None
  | item :: rest =>
      match querySelector (at_root item) [[AttrHas "class" "title"]] with
      | Some title =>
          if includes (toLowerCase (textContent (self title))) "options" then
            match querySelector (at_root item) [[AttrIs "data-name" "legend-settings-action"]] with
            | Some settingsBtn => Some ([Click (self settingsBtn)], rest)
            | None => legend_loop rest
            end
          else legend_loop rest
      | None => legend_loop rest
      end
  end.

(** [row ? row.textContent.toLowerCase() : ''] *)
Definition input_label (input : loc) : string :=
  match or_else (closest input [[AttrHas "class" "cell"]]) (parentElement input) with
  | Some row => toLowerCase (textContent row)
  | None => EmptyString
  end.

(** [setInputValue(input, value)] *)
Definition setInputValue (input : node) (value : number) : list effect :=
  [SetValue input [NumString value]; Dispatch input "input"; Dispatch input "change"].

(** The two tests on a label. *)
Definition names_resistance (label : string) : bool :=
  includes label "resistance" || includes label "high".

Definition names_support (label : string) : bool :=
  includes label "support" || includes label "low".

(** The body of the loop over the dialog's inputs. *)
Definition fill_input (resistance support : number) (input : loc) : list effect :=
  let label := input_label input in
  if names_resistance label then setInputValue (self input) resistance
  else if names_support label then setInputValue (self input) support
  else [].

Definition fill_inputs (resistance support : number) (inputs : list loc) : list effect :=
  flat_map (fill_input resistance support) inputs.

Definition input_selector : selector :=
  [[ByTag "input"; AttrIs "type" "text"]; [ByTag "input"; AttrIs "type" "number"]].

(** The rest of [fetchAndUpdate] once [updateIndicatorSettings] has returned. *)
Definition after_update (c : client) (d : data.t) (updated : bool)
  : client * pc * list effect :=
  (set_isUpdating c false, Finished,
   (if showNotifications CONFIG && updated then
      [Notify "Options Levels Updated"
         [Str "R: $"; NumLocale (data.resistance d); Str " | S: $"; NumLocale (data.support d)]
         3000]
    else []) ++
   [Log "Options Levels updated:"
      [Str (data.date d); NumString (data.resistance d); NumString (data.support d)]]).

(** The [catch] block and the assignment after it. *)
Definition on_error (c : client) (w : wake) (e : error) : client * pc * list effect :=
  (set_isUpdating c false, Finished,
   LogError "Options Levels error:" e :: setStatus w ("Error: " ++ show_message e) true).

Definition add_trace (tr : list effect) (r : client * pc * list effect)
  : client * pc * list effect :=
  let '(c, p, tr') := r in (c, p, tr ++ tr').

(** Where [updateIndicatorSettings] stands at the end of a stretch of its
    body: it has returned, or it sleeps, holding the legend items it has not
    visited yet and, the second time, the dialog. *)
Inductive progress : Type :=
| Returned (updated : bool)
| SleepingForDialog (rest : list node)
| SleepingForOk (dialog : node) (rest : list node).

(** [updateIndicatorSettings]: the [for] loop goes on over [items]; it
    sleeps after a click, or runs out and the function returns [false]. *)
Definition updateIndicatorSettings_search (items : list node) : progress * list effect :=
  match legend_loop items with
  | Some (tr, rest) => (SleepingForDialog rest, tr)
  | None => (Returned false, [])
  end.

(** [updateIndicatorSettings(resistance, support)] after [sleep(600)]: the
    dialog and its inputs. *)
Definition updateIndicatorSettings_dialog
  (w : wake) (resistance support : number) (rest : list node) : progress * list effect :=
  match docQuerySelector (document w) [[AttrIs "data-dialog-name" "indicator-properties-dialog"]] with
  | Some dialog =>
      (SleepingForOk (self dialog) rest,
       fill_inputs resistance support (querySelectorAll dialog input_selector))
  | None => updateIndicatorSettings_search rest
  end.

(** [updateIndicatorSettings] after [sleep(200)]: the OK button. *)
Definition updateIndicatorSettings_ok (dialog : node) (rest : list node)
  : progress * list effect :=
  match querySelector (at_root dialog) [[AttrIs "data-name" "submit-button"]] with
  | Some okBtn => (Returned true, [Click (self okBtn)])
  | None => updateIndicatorSettings_search rest
  end.

(** [fetchAndUpdate] while [updateIndicatorSettings] runs a stretch:
    suspended with it, or going on with what it returned. *)
Definition driven (c : client) (d : data.t) (r : progress * list effect)
  : client * pc * list effect :=
  match r with
  | (Returned updated, tr) => add_trace tr (after_update c d updated)
  | (SleepingForDialog rest, tr) => (c, AwaitDialog d rest, tr)
  | (SleepingForOk dialog rest, tr) => (c, AwaitOk d dialog rest, tr)
  end.

Definition search (c : client) (d : data.t) (items : list node) : client * pc * list effect :=
  driven c d (updateIndicatorSettings_search items).

Definition dialog_step (c : client) (w : wake) (d : data.t) (rest : list node)
  : client * pc * list effect :=
  driven c d (updateIndicatorSettings_dialog w (data.resistance d) (data.support d) rest).

Definition ok_step (c : client) (d : data.t) (dialog : node) (rest : list node)
  : client * pc * list effect :=
  driven c d (updateIndicatorSettings_ok dialog rest).

(** [data.resistance !== state.resistance || data.support !== state.support] *)
Definition changed (d : data.t) (c : client) : bool :=
  strict_ne (data.resistance d) (state.resistance c) ||
  strict_ne (data.support d) (state.support c).

(** The changed branch of [fetchAndUpdate]: store the levels, show them on
    the panel, then try the page. *)
Definition propagate (c : client) (w : wake) (d : data.t) : client * pc * list effect :=
  let c := store c d (now w) in
  add_trace (updateStatusPanel c w)
    match fault w with
    | Some e => on_error c w e
    | None =>
        search c d
          (map self (docQuerySelectorAll (document w) [[AttrIs "data-name" "legend-source-item"]]))
    end.

(** [fetchAndUpdate] from the resolution of [fetchData] on. *)
Definition fetched_step (c : client) (w : wake) (d : data.t) : client * pc * list effect :=
  if changed d c then propagate c w d
  else (set_isUpdating c false, Finished, setStatus w "No changes" false).

(** A call of [fetchAndUpdate()], up to its first suspension. *)
Definition invoke (c : client) (w : wake) : client * pc * list effect :=
  if state.isUpdating c then (c, Finished, [])
  else (set_isUpdating c true, AwaitFetch,
        setStatus w "Updating..." false ++ [fetch_request w]).

(** A suspended invocation continues; the elements it still holds are read
    as they are now.  An event the task does not wait for changes nothing. *)
Definition resume (c : client) (p : pc) (ev : event) : client * pc * list effect :=
  match p, ev with
  | AwaitFetch, Settled r w =>
      match fetchData r with
      | inl d => fetched_step c w d
      | inr e => on_error c w e
      end
  | AwaitDialog d rest, Woke w =>
      match fault w with
      | Some e => on_error c w e
      | None => dialog_step c w d (map (live w) rest)
      end
  | AwaitOk d dialog rest, Woke w =>
      match fault w with
      | Some e => on_error c w e
      | None => ok_step c d (live w dialog) (map (live w) rest)
      end
  | _, _ => (c, p, [])
  end.

Definition continue (r : client * pc * list effect) (ev : event) : client * pc * list effect :=
  let '(c, p, tr) := r in add_trace tr (resume c p ev).

(** [fetchAndUpdate()] with the events the environment delivers to it. *)
Definition fetchAndUpdate (c : client) (w : wake) (evs : list event) : client * pc * list effect :=
  fold_left continue evs (invoke c w).

End V2.

(* ================================================================== *)
(** ** Tasks sharing one client: the event loop *)
(* ================================================================== *)

(** Both versions have the same shape: a guard in the shared state, a call
    that runs to its first [await], and resumptions.  The event loop runs one
    such stretch at a time, to completion. *)
Section EventLoop.

Variables client pc : Type.
Variable busy : client -> bool.
Variable finished : pc -> bool.
Variable invoke : client -> wake -> client * pc * list effect.
Variable resume : client -> pc -> event -> client * pc * list effect.

Record system : Type := System {
  shared : client;
  tasks : list pc;
  trace : list effect
}.

Inductive action : Type :=
| Call (w : wake)                   (* the timer or a click calls fetchAndUpdate() *)
| Deliver (i : nat) (ev : event).   (* task [i] is resumed *)

Fixpoint set_nth (l : list pc) (i : nat) (p : pc) : list pc :=
  match l, i with
  | [], _ => []
  | _ :: l', O => p :: l'
  | x :: l', S i' => x :: set_nth l' i' p
  end.

Definition act (s : system) (a : action) : system :=
  match a with
  | Call w =>
      let '(c, p, tr) := invoke (shared s) w in
      System c (tasks s ++ [p]) (trace s ++ tr)
  | Deliver i ev =>
      match nth_error (tasks s) i with
      | Some p =>
          let '(c, p', tr) := resume (shared s) p ev in
          System c (set_nth (tasks s) i p') (trace s ++ tr)
      | None => s
      end
  end.

Definition run (s : system) (acts : list action) : system := fold_left act acts s.

Definition pending (p : pc) : nat := if finished p then 0 else 1.

(** The invocations that have started and not yet returned. *)
Definition in_flight (l : list pc) : nat := list_sum (map pending l).

(** The guard is set exactly while one invocation is in flight. *)
Definition guarded (s : system) : Prop :=
  in_flight (tasks s) = if busy (shared s) then 1 else 0.

End EventLoop.

Arguments System {client pc}.
Arguments shared {client pc}.
Arguments tasks {client pc}.
Arguments trace {client pc}.
Arguments set_nth {pc}.
Arguments act {client pc}.
Arguments run {client pc}.
Arguments pending {pc}.
Arguments in_flight {pc}.
Arguments guarded {client pc}.

Definition v1_finished (p : V1.pc) : bool :=
  match p with V1.Finished => true | _ => false end.

Definition v2_finished (p : V2.pc) : bool :=
  match p with V2.Finished => true | _ => false end.

(** How many suspensions an invocation still has before it, at most (in
    v2.0 the number is known once the reply is in: it depends on the page). *)
Definition v1_rank (p : V1.pc) : nat :=
  match p with
  | V1.AwaitFetch => 3
  | V1.AwaitDialog _ => 2
  | V1.AwaitApply _ _ => 1
  | V1.Finished => 0
  end.

Definition v2_rank (p : V2.pc) : nat :=
  match p with
  | V2.AwaitFetch => 1
  | V2.AwaitDialog _ rest => 2 * length rest + 2
  | V2.AwaitOk _ _ rest => 2 * length rest + 1
  | V2.Finished => 0
  end.

(** A client and a program counter in which the guard is set exactly when
    the task has not returned. *)
Definition v1_settled (r : V1.client * V1.pc * list effect) : Prop :=
  V1.isUpdating (fst (fst r)) = negb (v1_finished (snd (fst r))).

Definition v2_settled (r : V2.client * V2.pc * list effect) : Prop :=
  V2.state.isUpdating (fst (fst r)) = negb (v2_finished (snd (fst r))).







(** The event loop of a page running v1.0, and of one running v2.0. *)
Definition v1_run := run V1.invoke V1.resume.
Definition v2_run := run V2.invoke V2.resume.

(* ================================================================== *)
(** ** Sample pages and ledgers *)
(* ================================================================== *)

Module Sample.

(** The ledger of the README, and the same ledger one day later with the
    same walls. *)
Definition header : string := "date,high,low,buyerGamma,sellerGamma".
Definition day1 : string := "18/12/2024,98500,95200,99000,94500".
Definition day2 : string := "19/12/2024,99200,95800,99800,95000".
Definition day2_same_walls : string := "19/12/2024,98500,95200,99800,95000".

Definition ledger (lines : list string) : string := join LFs lines ++ LFs.

Definition ledger1 : string := ledger [header; day1].
Definition ledger2 : string := ledger [header; day1; day2].
Definition ledger2_revised : string := ledger [header; "18/12/2024,98000,95000,99000,94500"; day2].
Definition ledger_same_walls : string := ledger [header; day1; day2_same_walls].

(** What [createStatusIndicator] of v1.0 adds to the page. *)
Definition status_dot : node := Elem "span" [("id", "status-dot")] [].
Definition status_text : node := Elem "span" [("id", "status-text")] [Text "Options Levels: Active"].
Definition status_details : node := Elem "div" [("id", "status-details")] [].
Definition status_indicator : node :=
  Elem "div" [("id", "options-levels-status")]
    [Elem "div" [] [status_dot; status_text]; status_details].

(** What [createStatusPanel] of v2.0 adds. *)
Definition ol_resistance : node :=
  Elem "span" [("class", "ol-value ol-green"); ("id", "ol-resistance")] [Text "--"].
Definition ol_support : node :=
  Elem "span" [("class", "ol-value ol-red"); ("id", "ol-support")] [Text "--"].
Definition ol_status : node :=
  Elem "div" [("class", "ol-status"); ("id", "ol-status")] [Text "Loading..."].
Definition status_panel : node :=
  Elem "div" [("id", "options-levels-panel")]
    [Elem "div" [("class", "ol-header")]
       [Elem "span" [("class", "ol-title")] [Text "Options Levels"];
        Elem "button" [("class", "ol-refresh")] []];
     Elem "div" [("class", "ol-content")]
       [Elem "div" [("class", "ol-row")] [ol_resistance];
        Elem "div" [("class", "ol-row")] [ol_support];
        ol_status]].

(** A legend entry of the chart, with its settings action. *)
Definition settings_button : node :=
  Elem "button" [("data-name", "legend-settings-action")] [].
Definition legend (name : string) : node :=
  Elem "div" [("data-name", "legend-source-item"); ("class", "item-l31H9iuA")]
    [Elem "div" [("class", "title-l31H9iuA")] [Text name]; settings_button].

(** The settings dialog of the v1.0 indicator: one textarea for pasted data. *)
Definition data_textarea : node := Elem "textarea" [] [].
Definition submit_button : node :=
  Elem "button" [("data-name", "submit-button")] [Text "Ok"].
Definition paste_dialog (footer : list node) : node :=
  Elem "div" [("data-dialog-name", "indicator-properties-dialog")]
    ([Elem "div" [("class", "cell-tBgV1m0B")] [Text "PASTE DATA"; data_textarea]] ++ footer).

(** The settings dialog of the v2.0 indicator: labelled inputs. *)
Definition number_input : node := Elem "input" [("type", "number")] [].
Definition text_input : node := Elem "input" [("type", "text")] [].
Definition row (label : string) (input : node) : node :=
  Elem "div" [("class", "cell-tBgV1m0B")] [Text label; input].
Definition levels_dialog (rows footer : list node) : node :=
  Elem "div" [("data-dialog-name", "indicator-properties-dialog")] (rows ++ footer).

Definition page (content : list node) : node :=
  Elem "html" [] [Elem "body" [] (content ++ [status_indicator; status_panel])].

Definition wake_at (t : N) (doc : node) : wake := Wake t doc (fun n => n) None.

(** The chart shows another indicator only. *)
Definition page_without_indicator : node := page [legend "Vol 20"].
(** The chart shows the tracker; its dialog is closed, open, or open
    without any confirm button. *)
Definition page_with_tracker : node := page [legend "Options Levels Tracker"].
Definition page_dialog_open : node :=
  page [legend "Options Levels Tracker"; paste_dialog [submit_button]].
Definition page_dialog_bare : node :=
  page [legend "Options Levels Tracker"; paste_dialog []].
(** The chart shows an unrelated indicator whose title mentions options. *)
Definition page_other_options : node := page [legend "Put Options Volume"].
Definition page_levels_open : node :=
  page [legend "Options Levels";
        levels_dialog [row "Resistance" number_input; row "Support" number_input] [submit_button]].
Definition page_unlabelled_open : node :=
  page [legend "Options Levels"; levels_dialog [row "Length" text_input] [submit_button]].

(** A dialog with two textareas, the second of which is the data field;
    a dialog whose first input is not a level. *)
Definition notes_textarea : node := Elem "textarea" [("placeholder", "Notes")] [].
Definition two_field_dialog : node :=
  Elem "div" [("data-dialog-name", "indicator-properties-dialog")]
    [Elem "div" [("class", "cell-tBgV1m0B")] [Text "Comment"; notes_textarea];
     Elem "div" [("class", "cell-tBgV1m0B")] [Text "PASTE DATA"; data_textarea]].
Definition page_two_fields : node :=
  page [legend "Options Levels Tracker"; two_field_dialog].
Definition mixed_dialog : node :=
  levels_dialog [row "Length" text_input; row "Resistance" number_input;
                 row "Support" number_input] [submit_button].
Definition page_mixed_open : node := page [legend "Options Levels"; mixed_dialog].

(** v1.0 cycles. *)
Definition cycle (text : string) (before after : node) : V1.script :=
  V1.Script (wake_at 1000 before) (Loaded 200 text) (wake_at 1200 before)
            (wake_at 1700 after) (wake_at 2000 after).

End Sample.

(* ================================================================== *)
(** ** Counting what a cycle does to the page *)
(* ================================================================== *)

Definition is_click (e : effect) : bool :=
  match e with Click _ => true | _ => false end.

(** The clicks, value writes and events raised in [tr]; the clicks alone. *)
Definition ui_count (tr : list effect) : nat := length (filter is_ui tr).
Definition click_count (tr : list effect) : nat := length (filter is_click tr).

(** What an invocation of v1.0 can still do to the page: one click on the
    settings action, one value and two events on the textarea, one click on
    a confirm button. *)
Definition v1_budget (p : V1.pc) : nat :=
  match p with
  | V1.AwaitFetch => 5
  | V1.AwaitDialog _ => 4
  | V1.AwaitApply _ _ => 1
  | V1.Finished => 0
  end.

(** The clicks an invocation of v2.0 can still make once the reply is in:
    one on the submit button of the dialog it may have open, and two for each
    legend item left. *)
Definition v2_click_budget (p : V2.pc) : nat :=
  match p with
  | V2.AwaitFetch => 0
  | V2.AwaitDialog _ rest => 2 * length rest + 1
  | V2.AwaitOk _ _ rest => 2 * length rest + 1
  | V2.Finished => 0
  end.

(* ================================================================== *)
(** ** Building the status display *)
(* ================================================================== *)

(** The scripts add their own elements to the page before the first poll.
    A handler set on an element ([onclick], [addEventListener]) is no part of
    the tree: the clicks it answers are the calls of the event loop. *)
Module Build.

Definition tag_is (t : string) (n : node) : bool :=
  match n with
  | Elem t' _ _ => String.eqb t' t
  | Text _ => false
  end.

(** [parent.appendChild(child)] *)
Definition appendChild (parent child : node) : node :=
  match parent with
  | Elem t a cs => Elem t a (cs ++ [child])
  | Text _ => parent
  end.

(** [child] appended to the first of [cs] that satisfies [p]. *)
Fixpoint append_to_first (p : node -> bool) (cs : list node) (child : node)
  : option (list node) :=
  match cs with
  | [] => None
  | c :: cs' =>
      if p c then Some (appendChild c child :: cs')
      else option_map (cons c) (append_to_first p cs' child)
  end.

(** [document.body] is the first child of the [html] root that is a [body]
    or a [frameset]; [document.head] the first that is a [head]. *)
Definition is_body (n : node) : bool := tag_is "body" n || tag_is "frameset" n.
Definition is_head (n : node) : bool := tag_is "head" n.

Definition append_under (p : node -> bool) (doc child : node) : option node :=
  match doc with
  | Elem t a cs =>
      if String.eqb t "html" then option_map (Elem t a) (append_to_first p cs child)
      else None
  | Text _ => None
  end.

(** [document.body.appendChild(child)] and [document.head.appendChild(child)];
    [None] where [document.body] or [document.head] is null and the call
    throws. *)
Definition body_appendChild (doc child : node) : option node := append_under is_body doc child.
Definition head_appendChild (doc child : node) : option node := append_under is_head doc child.

Definition has_id (id : string) (n : node) : bool := matches [[AttrIs "id" id]] n.

(** [l] without the first element, in document order, that has the id:
    an element of [l] itself, or one that [inside] finds below it. *)
Section RemoveAmong.
Variable id : string.
Variable inside : node -> option node.

Fixpoint remove_among (l : list node) : option (list node) :=
  match l with
  | [] => None
  | c :: l' =>
      if has_id id c then Some l'
      else match inside c with
           | Some c' => Some (c' :: l')
           | None => option_map (cons c) (remove_among l')
           end
  end.

End RemoveAmong.

(** The tree without the first element below its root, in document order,
    that has the id: what [document.getElementById(id).remove()] leaves when
    that element is not the root.  [None] when no element below the root has
    the id. *)
Fixpoint remove_by_id (id : string) (n : node) : option node :=
  match n with
  | Text _ => None
  | Elem t a cs => option_map (Elem t a) (remove_among id (remove_by_id id) cs)
  end.

Fixpoint spaces (n : nat) : string :=
  match n with
  | O => EmptyString
  | S n' => String " " (spaces n')
  end.

(** The white space between two tags of a template: a line feed and the
    indentation of the next line. *)
Definition gap (n : nat) : node := Text (String LF (spaces n)).

End Build.

(** v1.0 *)
Module V1Build.
Import Build.

Definition status_dot : node :=
  Elem "span"
    [("id", "status-dot");
     ("style", "width: 8px; height: 8px; background: #4caf50; border-radius: 50%;")] [].

Definition status_text : node :=
  Elem "span" [("id", "status-text")] [Text "Options Levels: Active"].

Definition status_details : node :=
  Elem "div"
    [("id", "status-details"); ("style", "font-size: 10px; color: #888; margin-top: 4px;")] [].

(** What the parser makes of the template assigned to [innerHTML]. *)
Definition innerHTML : list node :=
  [gap 12;
   Elem "div" [("style", "display: flex; align-items: center; gap: 8px;")]
     [gap 16; status_dot; gap 16; status_text; gap 12];
   gap 12;
   status_details;
   gap 8].

(** The indicator.  [style] is what the browser makes of the text assigned to
    [style.cssText]; the scripts never read it. *)
Definition indicator (style : string) : node :=
  Elem "div" [("id", "options-levels-status"); ("style", style)] innerHTML.

(** [createStatusIndicator()]: the page with the indicator in it. *)
Definition createStatusIndicator (style : string) (doc : node) : option node :=
  body_appendChild doc (indicator style).

End V1Build.

(** v2.0 *)
Module V2Build.
Import Build.

Definition ol_resistance : node :=
  Elem "span" [("class", "ol-value ol-green"); ("id", "ol-resistance")] [Text "--"].

Definition ol_support : node :=
  Elem "span" [("class", "ol-value ol-red"); ("id", "ol-support")] [Text "--"].

Definition ol_status : node :=
  Elem "div" [("class", "ol-status"); ("id", "ol-status")] [Text "Loading..."].

(** What the parser makes of the template assigned to [innerHTML]. *)
Definition innerHTML : list node :=
  [gap 12;
   Elem "div" [("class", "ol-header")]
     [gap 16;
      Elem "span" [("class", "ol-title")] [Text "📊 Options Levels"];
      gap 16;
      Elem "button" [("class", "ol-refresh"); ("title", "Refresh Now")] [Text "↻"];
      gap 12];
   gap 12;
   Elem "div" [("class", "ol-content")]
     [gap 16;
      Elem "div" [("class", "ol-row")]
        [gap 20; Elem "span" [("class", "ol-label")] [Text "Resistance:"];
         gap 20; ol_resistance; gap 16];
      gap 16;
      Elem "div" [("class", "ol-row")]
        [gap 20; Elem "span" [("class", "ol-label")] [Text "Support:"];
         gap 20; ol_support; gap 16];
      gap 16;
      ol_status;
      gap 12];
   gap 8].

Definition panel : node := Elem "div" [("id", "options-levels-panel")] innerHTML.

(** The text assigned to [style.textContent]. *)
Definition css : string := "
            #options-levels-panel {
                position: fixed;
                bottom: 80px;
                right: 20px;
                background: rgba(30, 34, 45, 0.95);
                border: 1px solid #363a45;
                border-radius: 8px;
                padding: 0;
                z-index: 9999;
                font-family: -apple-system, BlinkMacSystemFont, 'Trebuchet MS', sans-serif;
                font-size: 13px;
                color: #d1d4dc;
                min-width: 180px;
                box-shadow: 0 4px 12px rgba(0,0,0,0.3);
                user-select: none;
            }
            .ol-header {
                display: flex;
                justify-content: space-between;
                align-items: center;
                padding: 8px 12px;
                background: rgba(41, 98, 255, 0.15);
                border-radius: 8px 8px 0 0;
                border-bottom: 1px solid #363a45;
            }
            .ol-title {
                font-weight: 600;
                font-size: 12px;
            }
            .ol-refresh {
                background: none;
                border: none;
                color: #787b86;
                cursor: pointer;
                font-size: 16px;
                padding: 2px 6px;
                border-radius: 3px;
            }
            .ol-refresh:hover {
                background: rgba(255,255,255,0.1);
                color: #d1d4dc;
            }
            .ol-content {
                padding: 10px 12px;
            }
            .ol-row {
                display: flex;
                justify-content: space-between;
                margin-bottom: 6px;
            }
            .ol-label {
                color: #787b86;
            }
            .ol-value {
                font-weight: 600;
                font-family: 'Monaco', 'Menlo', monospace;
            }
            .ol-green { color: #26a69a; }
            .ol-red { color: #ef5350; }
            .ol-status {
                font-size: 10px;
                color: #787b86;
                text-align: center;
                margin-top: 6px;
                padding-top: 6px;
                border-top: 1px solid #363a45;
            }
            .ol-status.success { color: #26a69a; }
            .ol-status.error { color: #ef5350; }
        ".

Definition style : node := Elem "style" [] [Text css].

(** [createStatusPanel()]: the page without the panel it may have held and
    with a new one; [None] where the function throws. *)
Definition createStatusPanel (doc : node) : option node :=
  match
    match getElementById doc "options-levels-panel" with
    | Some existing =>
        if has_id "options-levels-panel" doc then None
        else remove_by_id "options-levels-panel" doc
    | None => Some doc
    end
  with
  | Some doc1 =>
      match head_appendChild doc1 style with
      | Some doc2 => body_appendChild doc2 panel
      | None => None
      end
  | None => None
  end.

End V2Build.

(** The elements of [n] that have the id. *)
Definition count_id (id : string) (n : node) : nat :=
  length (filter (Build.has_id id) (elements n)).

(** What a selector can see of an element: its tag and its attributes. *)
Definition shell (n : node) : option (string * list (string * string)) :=
  match n with
  | Elem t a _ => Some (t, a)
  | Text _ => None
  end.

(* ================================================================== *)
(** * Properties *)
(* ================================================================== *)

(** ** The event loop keeps the guard and the tasks in step *)

Section EventLoopFacts.

Variables client pc : Type.
Variable busy : client -> bool.
Variable finished : pc -> bool.
Variable invoke : client -> wake -> client * pc * list effect.
Variable resume : client -> pc -> event -> client * pc * list effect.

Hypothesis invoke_busy :
  forall c w, busy c = true -> exists p, invoke c w = (c, p, []) /\ finished p = true.
Hypothesis invoke_idle :
  forall c w, busy c = false ->
    busy (fst (fst (invoke c w))) = negb (finished (snd (fst (invoke c w)))).
Hypothesis resume_guard :
  forall c p ev, busy c = true -> finished p = false ->
    busy (fst (fst (resume c p ev))) = negb (finished (snd (fst (resume c p ev)))).
Hypothesis resume_finished :
  forall c p ev, finished p = true -> resume c p ev = (c, p, []).

Lemma in_flight_app l p : in_flight finished (l ++ [p]) = in_flight finished l + pending finished p.
Proof.
  unfold in_flight.
  rewrite map_app, list_sum_app. simpl. lia.
Qed.

Lemma in_flight_set_nth l : forall i p p',
  nth_error l i = Some p ->
  in_flight finished (set_nth l i p') + pending finished p = in_flight finished l + pending finished p'.
Proof.
  unfold in_flight.
  induction l as [|x l IH]; intros [|i] p p' H; simpl in *; try discriminate.
  - injection H as ->. lia.
  - specialize (IH _ _ p' H). lia.
Qed.

Lemma in_flight_ge l : forall i p,
  nth_error l i = Some p -> pending finished p <= in_flight finished l.
Proof.
  unfold in_flight.
  induction l as [|x l IH]; intros [|i] p H; simpl in *; try discriminate.
  - injection H as ->. lia.
  - specialize (IH _ _ H). lia.
Qed.

Lemma act_guarded s a :
  guarded busy finished s -> guarded busy finished (act invoke resume s a).
Proof.
  unfold guarded. intros G. destruct a as [w | i ev]; simpl.
  - destruct (busy (shared s)) eqn:B.
    + destruct (invoke_busy _ w B) as (p & -> & F). simpl.
      rewrite in_flight_app, G, B. unfold pending. rewrite F. reflexivity.
    + pose proof (invoke_idle _ w B) as I.
      destruct (invoke (shared s) w) as [[c p] tr]. simpl in *.
      rewrite in_flight_app, G, I. unfold pending.
      destruct (finished p); reflexivity.
  - destruct (nth_error (tasks s) i) as [p|] eqn:N; [|exact G].
    destruct (finished p) eqn:F.
    + rewrite (resume_finished _ _ ev F). simpl.
      pose proof (in_flight_set_nth _ _ _ p N) as E. lia.
    + assert (B : busy (shared s) = true).
      { pose proof (in_flight_ge _ _ _ N) as L. unfold pending in L.
        rewrite F in L. destruct (busy (shared s)); [reflexivity | lia]. }
      pose proof (resume_guard _ _ ev B F) as R.
      destruct (resume (shared s) p ev) as [[c p'] tr]. simpl in *.
      pose proof (in_flight_set_nth _ _ _ p' N) as E.
      rewrite B in G. rewrite R. unfold pending in *. rewrite F in E.
      destruct (finished p'); simpl; lia.
Qed.

Lemma run_guarded acts : forall s,
  guarded busy finished s -> guarded busy finished (run invoke resume s acts).
Proof.
  induction acts as [|a acts IH]; intros s G; simpl; [exact G|].
  apply IH, act_guarded, G.
Qed.

Lemma run_in_flight_le_1 c tr acts :
  busy c = false -> in_flight finished (tasks (run invoke resume (System c [] tr) acts)) <= 1.
Proof.
  intros B.
  assert (G : guarded busy finished (System c [] tr)) by (unfold guarded; simpl; rewrite B; reflexivity).
  apply (run_guarded acts) in G. unfold guarded in G.
  destruct (busy (shared _)); lia.
Qed.

End EventLoopFacts.

(** ** Step lemmas shared by the claims *)

Ltac break_match :=
  match goal with
  | |- context [match ?x with _ => _ end] => destruct x eqn:?
  end.

Ltac break_match_in H :=
  match type of H with
  | context [match ?x with _ => _ end] => destruct x eqn:?
  end.

Lemma V1_add_trace_client tr r : fst (fst (V1.add_trace tr r)) = fst (fst r).
Proof. destruct r as [[c p] tr']. reflexivity. Qed.

Lemma V1_add_trace_pc tr r : snd (fst (V1.add_trace tr r)) = snd (fst r).
Proof. destruct r as [[c p] tr']. reflexivity. Qed.

Lemma V1_add_trace_trace tr r : snd (V1.add_trace tr r) = tr ++ snd r.
Proof. destruct r as [[c p] tr']. reflexivity. Qed.

Lemma V2_add_trace_client tr r : fst (fst (V2.add_trace tr r)) = fst (fst r).
Proof. destruct r as [[c p] tr']. reflexivity. Qed.

Lemma V2_add_trace_pc tr r : snd (fst (V2.add_trace tr r)) = snd (fst r).
Proof. destruct r as [[c p] tr']. reflexivity. Qed.

Lemma V2_add_trace_trace tr r : snd (V2.add_trace tr r) = tr ++ snd r.
Proof. destruct r as [[c p] tr']. reflexivity. Qed.

Ltac v1_unfold :=
  unfold V1.resume, V1.fetched_step, V1.propagate, V1.dialog_step,
    V1.updateIndicatorInput_dialog, V1.on_error, V1.after_update;
  repeat rewrite ?V1_add_trace_client, ?V1_add_trace_pc, ?V1_add_trace_trace.

Ltac v2_unfold :=
  unfold V2.resume, V2.fetched_step, V2.propagate, V2.dialog_step, V2.ok_step, V2.search,
    V2.driven, V2.updateIndicatorSettings_dialog, V2.updateIndicatorSettings_ok,
    V2.updateIndicatorSettings_search,
    V2.on_error, V2.after_update;
  repeat rewrite ?V2_add_trace_client, ?V2_add_trace_pc, ?V2_add_trace_trace.

Ltac step_cases tac :=
  repeat (first
    [ rewrite V1_add_trace_client | rewrite V1_add_trace_pc | rewrite V1_add_trace_trace
    | rewrite V2_add_trace_client | rewrite V2_add_trace_pc | rewrite V2_add_trace_trace
    | break_match ]; simpl; try tac).

Lemma V1_invoke_busy c w :
  V1.isUpdating c = true -> V1.invoke c w = (c, V1.Finished, []).
Proof. unfold V1.invoke. intros ->. reflexivity. Qed.

Lemma V1_invoke_idle c w :
  V1.isUpdating c = false ->
  V1.invoke c w =
    (V1.set_isUpdating c true, V1.AwaitFetch,
     V1.updateStatus w "Updating..." false ++ [V1.fetch_request w]).
Proof. unfold V1.invoke. intros ->. reflexivity. Qed.

Lemma V1_resume_finished c ev : V1.resume c V1.Finished ev = (c, V1.Finished, []).
Proof. destruct ev; reflexivity. Qed.

(** While a task is in flight the guard is set, and a step clears it exactly
    when the task returns. *)
Lemma V1_resume_guard c p ev :
  V1.isUpdating c = true -> v1_finished p = false ->
  V1.isUpdating (fst (fst (V1.resume c p ev))) =
  negb (v1_finished (snd (fst (V1.resume c p ev)))).
Proof.
  intros B F. v1_unfold.
  destruct p, ev; try discriminate; simpl; try assumption;
    step_cases ltac:(first [assumption | reflexivity]).
Qed.

(** Each awaited event takes the task strictly closer to its return. *)
Lemma V1_settled_rank c r w :
  v1_rank (snd (fst (V1.resume c V1.AwaitFetch (Settled r w)))) <= 2.
Proof.
  v1_unfold. simpl. step_cases lia.
Qed.

Lemma V1_woke_rank c p w :
  v1_rank (snd (fst (V1.resume c p (Woke w)))) <= Nat.pred (v1_rank p) \/ p = V1.AwaitFetch.
Proof.
  v1_unfold. destruct p; simpl; auto; left; step_cases lia.
Qed.

Lemma V1_continue_rank_woke r w :
  v1_rank (snd (fst r)) <= 2 ->
  v1_rank (snd (fst (V1.continue r (Woke w)))) <= Nat.pred (v1_rank (snd (fst r))).
Proof.
  destruct r as [[c p] tr]. unfold V1.continue. simpl. intros L.
  destruct (V1_woke_rank c p w) as [H | ->]; [| simpl in L; lia].
  destruct (V1.resume c p (Woke w)) as [[c' p'] tr']. exact H.
Qed.

(** Given its three events, an invocation of v1.0 has returned. *)
Lemma V1_fetchAndUpdate_finished c s :
  snd (fst (V1.fetchAndUpdate c s)) = V1.Finished.
Proof.
  unfold V1.fetchAndUpdate.
  set (r0 := V1.invoke c (V1.at_start s)).
  set (r1 := V1.continue r0 (Settled (V1.reply s) (V1.at_reply s))).
  assert (L1 : v1_rank (snd (fst r1)) <= 2).
  { subst r1. destruct r0 as [[c0 p0] tr0]. unfold V1.continue.
    destruct p0.
    - pose proof (V1_settled_rank c0 (V1.reply s) (V1.at_reply s)) as H.
      destruct (V1.resume _ _ _) as [[c' p'] tr']. exact H.
    - simpl. lia.
    - simpl. lia.
    - simpl. lia. }
  pose proof (V1_continue_rank_woke r1 (V1.at_dialog s) L1) as L2.
  set (r2 := V1.continue r1 (Woke (V1.at_dialog s))) in *.
  assert (L2' : v1_rank (snd (fst r2)) <= 2) by lia.
  pose proof (V1_continue_rank_woke r2 (V1.at_apply s) L2') as L3.
  set (r3 := V1.continue r2 (Woke (V1.at_apply s))) in *.
  destruct (snd (fst r3)); simpl in *; try lia. reflexivity.
Qed.

Lemma V1_continue_settled r ev : v1_settled r -> v1_settled (V1.continue r ev).
Proof.
  destruct r as [[c p] tr]. unfold v1_settled, V1.continue. simpl. intros S.
  destruct (v1_finished p) eqn:F.
  - destruct p; try discriminate. rewrite V1_resume_finished. simpl. exact S.
  - pose proof (V1_resume_guard c p ev S F) as G.
    destruct (V1.resume c p ev) as [[c' p'] tr']. exact G.
Qed.

Lemma V1_fetchAndUpdate_guard c s :
  V1.isUpdating c = false ->
  V1.isUpdating (fst (fst (V1.fetchAndUpdate c s))) = false.
Proof.
  intros B.
  assert (S : v1_settled (V1.fetchAndUpdate c s)).
  { unfold V1.fetchAndUpdate. do 3 apply V1_continue_settled.
    rewrite (V1_invoke_idle _ _ B). reflexivity. }
  unfold v1_settled in S. rewrite V1_fetchAndUpdate_finished in S. exact S.
Qed.

Lemma V2_invoke_busy c w :
  V2.state.isUpdating c = true -> V2.invoke c w = (c, V2.Finished, []).
Proof. unfold V2.invoke. intros ->. reflexivity. Qed.

Lemma V2_invoke_idle c w :
  V2.state.isUpdating c = false ->
  V2.invoke c w =
    (V2.set_isUpdating c true, V2.AwaitFetch,
     V2.setStatus w "Updating..." false ++ [V2.fetch_request w]).
Proof. unfold V2.invoke. intros ->. reflexivity. Qed.

Lemma V2_resume_finished c ev : V2.resume c V2.Finished ev = (c, V2.Finished, []).
Proof. destruct ev; reflexivity. Qed.

Lemma V2_resume_guard c p ev :
  V2.state.isUpdating c = true -> v2_finished p = false ->
  V2.state.isUpdating (fst (fst (V2.resume c p ev))) =
  negb (v2_finished (snd (fst (V2.resume c p ev)))).
Proof.
  intros B F. v2_unfold.
  destruct p, ev; try discriminate; simpl; try assumption;
    step_cases ltac:(first [assumption | reflexivity]).
Qed.

Lemma V2_resume_not_fetch c p ev :
  snd (fst (V2.resume c p ev)) = V2.AwaitFetch -> p = V2.AwaitFetch.
Proof.
  v2_unfold. destruct p, ev; simpl; try discriminate; try reflexivity;
    step_cases ltac:(discriminate).
Qed.

Lemma V2_settled_not_fetch c r w :
  snd (fst (V2.resume c V2.AwaitFetch (Settled r w))) <> V2.AwaitFetch.
Proof.
  v2_unfold. simpl. step_cases ltac:(discriminate).
Qed.

Lemma V2_continue_settled r ev : v2_settled r -> v2_settled (V2.continue r ev).
Proof.
  destruct r as [[c p] tr]. unfold v2_settled, V2.continue. simpl. intros S.
  destruct (v2_finished p) eqn:F.
  - destruct p; try discriminate. rewrite V2_resume_finished. simpl. exact S.
  - pose proof (V2_resume_guard c p ev S F) as G.
    destruct (V2.resume c p ev) as [[c' p'] tr']. exact G.
Qed.

Lemma V2_run_settled evs : forall r, v2_settled r -> v2_settled (fold_left V2.continue evs r).
Proof.
  induction evs as [|ev evs IH]; intros r S; simpl; [exact S|].
  apply IH, V2_continue_settled, S.
Qed.

(** Whenever an invocation of v2.0 has returned, the guard is clear. *)
Lemma V2_fetchAndUpdate_guard c w evs :
  V2.state.isUpdating c = false ->
  snd (fst (V2.fetchAndUpdate c w evs)) = V2.Finished ->
  V2.state.isUpdating (fst (fst (V2.fetchAndUpdate c w evs))) = false.
Proof.
  intros B F.
  assert (S : v2_settled (V2.fetchAndUpdate c w evs)).
  { unfold V2.fetchAndUpdate. apply V2_run_settled.
    rewrite (V2_invoke_idle _ _ B). reflexivity. }
  unfold v2_settled in S. rewrite F in S. exact S.
Qed.

(** The loop of [updateIndicatorSettings] only moves forward. *)
Lemma V2_legend_loop_rest items : forall tr rest,
  V2.legend_loop items = Some (tr, rest) -> length rest < length items.
Proof.
  induction items as [|item items IH]; intros tr rest H; simpl in H; [discriminate|].
  repeat (break_match_in H); try (apply IH in H; simpl; lia);
    injection H as <- <-; simpl; lia.
Qed.

Lemma V2_search_rank c d items :
  v2_rank (snd (fst (V2.search c d items))) <= 2 * length items.
Proof.
  unfold V2.search, V2.driven, V2.updateIndicatorSettings_search, V2.after_update.
  destruct (V2.legend_loop items) as [[tr rest]|] eqn:L; simpl; [|lia].
  apply V2_legend_loop_rest in L. lia.
Qed.

Lemma V2_settled_rank c r w :
  v2_rank (snd (fst (V2.resume c V2.AwaitFetch (Settled r w)))) <=
  2 * length (docQuerySelectorAll (document w) [[AttrIs "data-name" "legend-source-item"]]).
Proof.
  unfold V2.resume, V2.fetched_step, V2.propagate, V2.on_error.
  destruct (V2.fetchData r) as [d|e]; simpl; [|lia].
  destruct (V2.changed d c); simpl; [|lia].
  rewrite V2_add_trace_pc.
  destruct (fault w); simpl; [lia|].
  match goal with
  | |- context [V2.search ?c ?d ?l] =>
      pose proof (V2_search_rank c d l) as H; destruct (V2.search c d l) as [[c' p'] tr']
  end.
  simpl in *. rewrite length_map in H. exact H.
Qed.

Lemma V2_woke_rank c p w :
  p <> V2.AwaitFetch ->
  v2_rank (snd (fst (V2.resume c p (Woke w)))) <= Nat.pred (v2_rank p).
Proof.
  intros NF. destruct p as [|d rest|d dialog rest|]; simpl; try congruence; try lia.
  - destruct (fault w); simpl; [lia|].
    unfold V2.dialog_step, V2.updateIndicatorSettings_dialog.
    destruct (docQuerySelector _ _); [simpl; rewrite length_map; lia|].
    pose proof (V2_search_rank c d (map (live w) rest)) as H.
    rewrite length_map in H. unfold V2.search in H. lia.
  - destruct (fault w); simpl; [lia|].
    unfold V2.ok_step, V2.updateIndicatorSettings_ok.
    destruct (querySelector _ _); [simpl; lia|].
    pose proof (V2_search_rank c d (map (live w) rest)) as H.
    rewrite length_map in H. unfold V2.search in H. lia.
Qed.

Lemma V2_wakes_rank ws : forall r,
  snd (fst r) <> V2.AwaitFetch ->
  v2_rank (snd (fst (fold_left V2.continue (map Woke ws) r))) <=
  v2_rank (snd (fst r)) - length ws.
Proof.
  induction ws as [|w ws IH]; intros [[c p] tr] NF; simpl in *; [lia|].
  pose proof (V2_woke_rank c p w NF) as H.
  assert (NF' : snd (fst (V2.add_trace tr (V2.resume c p (Woke w)))) <> V2.AwaitFetch).
  { rewrite V2_add_trace_pc. intros E. apply V2_resume_not_fetch in E. contradiction. }
  specialize (IH _ NF').
  destruct (V2.resume c p (Woke w)) as [[c' p'] tr']. simpl in *. lia.
Qed.

(** Given the reply and two timer wake-ups per legend item on the page, an
    invocation of v2.0 has returned. *)
Lemma V2_fetchAndUpdate_finished c w r w1 ws :
  2 * length (docQuerySelectorAll (document w1) [[AttrIs "data-name" "legend-source-item"]])
    <= length ws ->
  snd (fst (V2.fetchAndUpdate c w (Settled r w1 :: map Woke ws))) = V2.Finished.
Proof.
  intros L. unfold V2.fetchAndUpdate, V2.invoke. simpl.
  destruct (V2.state.isUpdating c).
  - simpl. clear. induction ws as [|w' ws IH]; simpl; [reflexivity | exact IH].
  - simpl.
    pose proof (V2_settled_rank (V2.set_isUpdating c true) r w1) as H.
    simpl in H.
    match goal with
    | |- context [V2.add_trace ?t ?x] =>
        assert (NF : snd (fst (V2.add_trace t x)) <> V2.AwaitFetch);
        [| pose proof (V2_wakes_rank ws (V2.add_trace t x) NF) as W;
           assert (E : snd (fst (V2.add_trace t x)) = snd (fst x))
             by (destruct x as [[? ?] ?]; reflexivity) ]
    end.
    { rewrite V2_add_trace_pc. apply V2_settled_not_fetch. }
    rewrite E in W.
    destruct (snd (fst (fold_left _ _ _))) eqn:P; simpl in *; try lia. reflexivity.
Qed.

(** ** The guard *)

(** C2. An invocation of [fetchAndUpdate] that starts with [isUpdating]
    false has [isUpdating] false again when it has returned, whichever way it
    took: no change, success, a failed propagation, a rejected fetch or a
    throwing driver.  v1.0 returns once its three awaited events have come;
    v2.0 returns after the reply and at most two timer wake-ups per legend
    item, and whenever it has returned the guard is clear. *)
Theorem C2_guard_cleared_on_every_exit
  (c1 : V1.client) (s : V1.script)
  (c2 : V2.client) (w : wake) (r : response) (w1 : wake) (ws : list wake) (evs : list event) :
  V1.isUpdating c1 = false ->
  V2.state.isUpdating c2 = false ->
  2 * length (docQuerySelectorAll (document w1) [[AttrIs "data-name" "legend-source-item"]])
    <= length ws ->
  (snd (fst (V1.fetchAndUpdate c1 s)) = V1.Finished /\
   V1.isUpdating (fst (fst (V1.fetchAndUpdate c1 s))) = false) /\
  (snd (fst (V2.fetchAndUpdate c2 w (Settled r w1 :: map Woke ws))) = V2.Finished /\
   V2.state.isUpdating (fst (fst (V2.fetchAndUpdate c2 w (Settled r w1 :: map Woke ws)))) = false) /\
  (snd (fst (V2.fetchAndUpdate c2 w evs)) = V2.Finished ->
   V2.state.isUpdating (fst (fst (V2.fetchAndUpdate c2 w evs))) = false).
Proof.
  intros B1 B2 L. repeat split.
  - apply V1_fetchAndUpdate_finished.
  - apply V1_fetchAndUpdate_guard, B1.
  - apply V2_fetchAndUpdate_finished, L.
  - apply V2_fetchAndUpdate_guard; [exact B2 | apply V2_fetchAndUpdate_finished, L].
  - apply V2_fetchAndUpdate_guard, B2.
Qed.

Lemma C2_witness :
  let s := Sample.cycle Sample.ledger1 Sample.page_with_tracker Sample.page_dialog_open in
  let w := Sample.wake_at 1000 Sample.page_levels_open in
  let r := Loaded 404 "Not Found" in
  let evs := Settled r w :: map Woke [w; w] in
  (snd (fst (V1.fetchAndUpdate V1.initial s)) = V1.Finished /\
   V1.isUpdating (fst (fst (V1.fetchAndUpdate V1.initial s))) = false) /\
  (snd (fst (V2.fetchAndUpdate V2.initial w evs)) = V2.Finished /\
   V2.state.isUpdating (fst (fst (V2.fetchAndUpdate V2.initial w evs))) = false) /\
  (snd (fst (V2.fetchAndUpdate V2.initial w [])) = V2.Finished ->
   V2.state.isUpdating (fst (fst (V2.fetchAndUpdate V2.initial w []))) = false).
Proof.
  intros s w r evs.
  apply (C2_guard_cleared_on_every_exit V1.initial s V2.initial w r w [w; w] []).
  - reflexivity.
  - reflexivity.
  - vm_compute. lia.
Defined.

(** C3. A call of [fetchAndUpdate] made while [isUpdating] is true returns at
    once: it sends no request, touches nothing and leaves the client as it
    was.  Hence, however calls and resumptions interleave on a page that was
    idle, at most one invocation is in flight at any time. *)
Theorem C3_guarded_call_is_a_noop
  (b1 i1 : V1.client) (b2 i2 : V2.client) (w : wake) (tr : list effect) (acts : list action) :
  V1.isUpdating b1 = true -> V2.state.isUpdating b2 = true ->
  V1.isUpdating i1 = false -> V2.state.isUpdating i2 = false ->
  V1.invoke b1 w = (b1, V1.Finished, []) /\
  V2.invoke b2 w = (b2, V2.Finished, []) /\
  in_flight v1_finished (tasks (v1_run (System i1 [] tr) acts)) <= 1 /\
  in_flight v2_finished (tasks (v2_run (System i2 [] tr) acts)) <= 1.
Proof.
  intros B1 B2 I1 I2. repeat split.
  - apply V1_invoke_busy, B1.
  - apply V2_invoke_busy, B2.
  - apply (run_in_flight_le_1 _ _ V1.isUpdating); try assumption.
    + intros c w' B. exists V1.Finished. split; [apply V1_invoke_busy, B | reflexivity].
    + intros c w' B. rewrite (V1_invoke_idle _ _ B). reflexivity.
    + apply V1_resume_guard.
    + intros c p ev F. destruct p; try discriminate. apply V1_resume_finished.
  - apply (run_in_flight_le_1 _ _ V2.state.isUpdating); try assumption.
    + intros c w' B. exists V2.Finished. split; [apply V2_invoke_busy, B | reflexivity].
    + intros c w' B. rewrite (V2_invoke_idle _ _ B). reflexivity.
    + apply V2_resume_guard.
    + intros c p ev F. destruct p; try discriminate. apply V2_resume_finished.
Qed.

Lemma C3_witness :
  let w := Sample.wake_at 1000 Sample.page_with_tracker in
  let b1 := V1.Client EmptyString true in
  let b2 := V2.set_isUpdating V2.initial true in
  let acts := [Call w; Call w; Deliver 0 (Settled (Loaded 200 Sample.ledger1) w); Call w] in
  V1.invoke b1 w = (b1, V1.Finished, []) /\
  V2.invoke b2 w = (b2, V2.Finished, []) /\
  in_flight v1_finished (tasks (v1_run (System V1.initial [] []) acts)) <= 1 /\
  in_flight v2_finished (tasks (v2_run (System V2.initial [] []) acts)) <= 1.
Proof.
  intros w b1 b2 acts.
  apply (C3_guarded_call_is_a_noop b1 V1.initial b2 V2.initial w [] acts); reflexivity.
Defined.

(** ** What is remembered as applied *)

Lemma V1_resume_not_fetch c p ev :
  snd (fst (V1.resume c p ev)) = V1.AwaitFetch -> p = V1.AwaitFetch.
Proof.
  v1_unfold. destruct p, ev; simpl; try discriminate; try reflexivity;
    step_cases ltac:(discriminate).
Qed.

Lemma V1_settled_not_fetch c r w :
  snd (fst (V1.resume c V1.AwaitFetch (Settled r w))) <> V1.AwaitFetch.
Proof.
  v1_unfold. simpl. step_cases ltac:(discriminate).
Qed.

(** Only the step that receives the reply assigns [lastData]. *)
Lemma V1_resume_lastData c p ev :
  p <> V1.AwaitFetch ->
  V1.lastData (fst (fst (V1.resume c p ev))) = V1.lastData c.
Proof.
  intros NF. v1_unfold.
  destruct p, ev; simpl; try congruence; step_cases ltac:(reflexivity).
Qed.

Lemma V1_continue_lastData r ev :
  snd (fst r) <> V1.AwaitFetch ->
  V1.lastData (fst (fst (V1.continue r ev))) = V1.lastData (fst (fst r)) /\
  snd (fst (V1.continue r ev)) <> V1.AwaitFetch.
Proof.
  destruct r as [[c p] tr]. unfold V1.continue. simpl. intros NF.
  rewrite V1_add_trace_client, V1_add_trace_pc. split.
  - apply V1_resume_lastData, NF.
  - intros E. apply V1_resume_not_fetch in E. contradiction.
Qed.

(** The reply step, when the data differ, stores them whatever follows. *)
Lemma V1_fetched_lastData c w data :
  data <> V1.lastData c ->
  V1.lastData (fst (fst (V1.fetched_step c w data))) = data.
Proof.
  intros D. unfold V1.fetched_step, V1.propagate.
  destruct (String.eqb_spec data (V1.lastData c)) as [E|_]; [contradiction|].
  unfold V1.on_error. step_cases ltac:(reflexivity).
Qed.

(** A cycle that fetches exactly what [lastData] holds reports no change. *)
Lemma V1_unchanged_cycle c s :
  V1.isUpdating c = false ->
  V1.fetchData (V1.reply s) = inl (V1.lastData c) ->
  V1.fetchAndUpdate c s =
    (c, V1.Finished,
     V1.updateStatus (V1.at_start s) "Updating..." false ++
     [V1.fetch_request (V1.at_start s)] ++
     V1.updateStatus (V1.at_reply s) "Options Levels: No changes" false).
Proof.
  intros B F. unfold V1.fetchAndUpdate. rewrite (V1_invoke_idle _ _ B).
  unfold V1.continue at 3. unfold V1.resume at 1. rewrite F.
  unfold V1.fetched_step. simpl V1.lastData. rewrite String.eqb_refl.
  destruct c as [d b]. simpl in B. subst b. simpl.
  rewrite !app_nil_r, <- !app_assoc. reflexivity.
Qed.

(** v2.0: only the reply step assigns [state.resistance] and [state.support]. *)
Lemma V2_resume_levels c p ev :
  p <> V2.AwaitFetch ->
  V2.state.resistance (fst (fst (V2.resume c p ev))) = V2.state.resistance c /\
  V2.state.support (fst (fst (V2.resume c p ev))) = V2.state.support c.
Proof.
  intros NF. v2_unfold.
  destruct p, ev; simpl; try congruence; step_cases ltac:(split; reflexivity);
    try (split; reflexivity).
Qed.

Lemma V2_run_levels evs : forall r,
  snd (fst r) <> V2.AwaitFetch ->
  V2.state.resistance (fst (fst (fold_left V2.continue evs r))) =
    V2.state.resistance (fst (fst r)) /\
  V2.state.support (fst (fst (fold_left V2.continue evs r))) =
    V2.state.support (fst (fst r)).
Proof.
  induction evs as [|ev evs IH]; intros [[c p] tr] NF; simpl in *; [split; reflexivity|].
  destruct (V2_resume_levels c p ev NF) as [R S].
  assert (NF' : snd (fst (V2.add_trace tr (V2.resume c p ev))) <> V2.AwaitFetch).
  { rewrite V2_add_trace_pc. intros E. apply V2_resume_not_fetch in E. contradiction. }
  destruct (IH _ NF') as [R' S'].
  rewrite V2_add_trace_client in R', S'. rewrite R', S', R, S. split; reflexivity.
Qed.

Lemma V2_fetched_levels c w d :
  V2.changed d c = true ->
  V2.state.resistance (fst (fst (V2.fetched_step c w d))) = V2.data.resistance d /\
  V2.state.support (fst (fst (V2.fetched_step c w d))) = V2.data.support d.
Proof.
  intros C. unfold V2.fetched_step, V2.propagate. rewrite C.
  rewrite V2_add_trace_client.
  unfold V2.on_error, V2.search, V2.driven, V2.updateIndicatorSettings_search, V2.after_update.
  step_cases ltac:(split; reflexivity).
Qed.

(** C1, as the code has it.  A cycle that fetches a record differing from
    what the client remembers overwrites the memory ([lastData] in v1.0,
    [state.resistance] and [state.support] in v2.0) before it tries the page,
    and the memory stays overwritten whatever the page does.  In v1.0 the next
    cycle that fetches the same data therefore reports no change and does not
    go near the page. *)
Theorem C1_memory_overwritten_before_propagation
  (c1 : V1.client) (s s' : V1.script) (data : string)
  (c2 : V2.client) (w w1 : wake) (r : response) (d : V2.data.t) (evs : list event) :
  V1.isUpdating c1 = false ->
  V1.fetchData (V1.reply s) = inl data ->
  data <> V1.lastData c1 ->
  V1.fetchData (V1.reply s') = inl data ->
  V2.state.isUpdating c2 = false ->
  V2.fetchData r = inl d ->
  V2.changed d c2 = true ->
  let c1' := fst (fst (V1.fetchAndUpdate c1 s)) in
  let c2' := fst (fst (V2.fetchAndUpdate c2 w (Settled r w1 :: evs))) in
  V1.lastData c1' = data /\
  V1.fetchAndUpdate c1' s' =
    (c1', V1.Finished,
     V1.updateStatus (V1.at_start s') "Updating..." false ++
     [V1.fetch_request (V1.at_start s')] ++
     V1.updateStatus (V1.at_reply s') "Options Levels: No changes" false) /\
  V2.state.resistance c2' = V2.data.resistance d /\
  V2.state.support c2' = V2.data.support d.
Proof.
  intros B1 F1 D1 F1' B2 F2 C2 c1' c2'.
  assert (L : V1.lastData c1' = data).
  { subst c1'. unfold V1.fetchAndUpdate. rewrite (V1_invoke_idle _ _ B1).
    set (r1 := V1.continue _ (Settled _ _)).
    assert (H1 : V1.lastData (fst (fst r1)) = data /\ snd (fst r1) <> V1.AwaitFetch).
    { subst r1. unfold V1.continue, V1.resume. rewrite F1.
      rewrite V1_add_trace_client, V1_add_trace_pc. split.
      - apply V1_fetched_lastData. exact D1.
      - pose proof (V1_settled_not_fetch (V1.set_isUpdating c1 true) (V1.reply s) (V1.at_reply s)) as N.
        unfold V1.resume in N. rewrite F1 in N. exact N. }
    destruct H1 as [H1 N1].
    destruct (V1_continue_lastData r1 (Woke (V1.at_dialog s)) N1) as [H2 N2].
    destruct (V1_continue_lastData _ (Woke (V1.at_apply s)) N2) as [H3 _].
    congruence. }
  split; [exact L|]. split.
  - apply V1_unchanged_cycle.
    + apply V1_fetchAndUpdate_guard, B1.
    + rewrite L. exact F1'.
  - subst c2'. unfold V2.fetchAndUpdate. rewrite (V2_invoke_idle _ _ B2). cbn [fold_left].
    set (x := V2.continue _ (Settled r w1)).
    assert (X : fst (fst x) = fst (fst (V2.fetched_step (V2.set_isUpdating c2 true) w1 d)) /\
                snd (fst x) <> V2.AwaitFetch).
    { subst x. unfold V2.continue, V2.resume. rewrite F2.
      rewrite V2_add_trace_client, V2_add_trace_pc. split; [reflexivity|].
      pose proof (V2_settled_not_fetch (V2.set_isUpdating c2 true) r w1) as N.
      unfold V2.resume in N. rewrite F2 in N. exact N. }
    destruct X as [X N]. destruct (V2_run_levels evs x N) as [R S].
    rewrite R, S, X. apply V2_fetched_levels. exact C2.
Qed.

Lemma C1_witness :
  let s := Sample.cycle Sample.ledger1 Sample.page_without_indicator Sample.page_without_indicator in
  let w := Sample.wake_at 1000 Sample.page_without_indicator in
  let d := V2.data.Make "18/12/2024" (Finite (inject_Z 98500)) (Finite (inject_Z 95200)) in
  let c1' := fst (fst (V1.fetchAndUpdate V1.initial s)) in
  let c2' := fst (fst (V2.fetchAndUpdate V2.initial w [Settled (Loaded 200 Sample.ledger1) w])) in
  V1.lastData c1' = Sample.day1 /\
  V1.fetchAndUpdate c1' s =
    (c1', V1.Finished,
     V1.updateStatus (V1.at_start s) "Updating..." false ++
     [V1.fetch_request (V1.at_start s)] ++
     V1.updateStatus (V1.at_reply s) "Options Levels: No changes" false) /\
  V2.state.resistance c2' = V2.data.resistance d /\
  V2.state.support c2' = V2.data.support d.
Proof.
  intros s w d.
  apply (C1_memory_overwritten_before_propagation
           V1.initial s s Sample.day1 V2.initial w w (Loaded 200 Sample.ledger1) d []).
  - reflexivity.
  - reflexivity.
  - discriminate.
  - reflexivity.
  - reflexivity.
  - reflexivity.
  - reflexivity.
Defined.

(** C1 as the specification words it fails: the indicator is not on the
    chart, the propagation fails, and [lastData] has changed all the same. *)
Lemma C1_counterexample :
  let s := Sample.cycle Sample.ledger1 Sample.page_without_indicator Sample.page_without_indicator in
  V1.findIndicatorSettings (document (V1.at_reply s)) = (false, []) /\
  V1.lastData (fst (fst (V1.fetchAndUpdate V1.initial s))) <> V1.lastData V1.initial.
Proof.
  split; [reflexivity | discriminate].
Qed.

(** ** What leaves the page alone *)

Lemma ui_untouched_app tr1 tr2 :
  ui_untouched tr1 -> ui_untouched tr2 -> ui_untouched (tr1 ++ tr2).
Proof.
  unfold ui_untouched. intros H1 H2. rewrite forallb_app, H1, H2. reflexivity.
Qed.

Lemma V1_updateStatus_ui w txt isError : ui_untouched (V1.updateStatus w txt isError).
Proof.
  unfold V1.updateStatus, V1.with_element.
  repeat apply ui_untouched_app;
    destruct (getElementById _ _); reflexivity.
Qed.

Lemma V2_setStatus_ui w txt isError : ui_untouched (V2.setStatus w txt isError).
Proof.
  unfold V2.setStatus, V2.with_element. destruct (getElementById _ _); reflexivity.
Qed.

(** ** The page: what a query can return *)

Lemma node_ind' (P : node -> Prop) :
  (forall s, P (Text s)) ->
  (forall t a cs, Forall P cs -> P (Elem t a cs)) ->
  forall n, P n.
Proof.
  intros HT HE. fix IH 1. intros [s | t a cs]; [apply HT | apply HE].
  induction cs as [|c cs IHcs]; constructor; [apply IH | exact IHcs].
Qed.

(** Which elements a subtree has does not depend on where it hangs. *)
Lemma subtree_selfs n : forall anc anc',
  map self (subtree anc n) = map self (subtree anc' n).
Proof.
  induction n as [s | t a cs IH] using node_ind'; intros anc anc'; simpl; [reflexivity|].
  f_equal. generalize (Elem t a cs :: anc) (Elem t a cs :: anc'). intros up up'.
  induction IH as [|c cs Hc _ IHcs]; simpl; [reflexivity|].
  rewrite !map_app. f_equal; [apply Hc | apply IHcs].
Qed.

Lemma elements_Elem t a cs :
  elements (Elem t a cs) = Elem t a cs :: flat_map elements cs.
Proof.
  unfold elements. simpl. f_equal. generalize [Elem t a cs]. intros up.
  induction cs as [|c cs IH]; simpl; [reflexivity|].
  rewrite map_app, IH. f_equal. apply subtree_selfs.
Qed.

Lemma elements_trans n : forall m k,
  In m (elements n) -> In k (elements m) -> In k (elements n).
Proof.
  induction n as [s | t a cs IH] using node_ind'; intros m k Hm Hk.
  - destruct Hm.
  - rewrite elements_Elem in *. destruct Hm as [<- | Hm].
    + rewrite elements_Elem in Hk. exact Hk.
    + right. apply in_flat_map in Hm. destruct Hm as (c & Hc & Hm).
      apply in_flat_map. exists c. split; [exact Hc|].
      rewrite Forall_forall in IH. apply (IH c Hc m k Hm Hk).
Qed.

Lemma subtree_elements anc n l : In l (subtree anc n) -> In (self l) (elements n).
Proof.
  intros H. unfold elements. rewrite (subtree_selfs n [] anc). apply in_map, H.
Qed.

Lemma descendants_elements l d : In d (descendants l) -> In (self d) (elements (self l)).
Proof.
  unfold descendants. intros H. apply (subtree_elements (ancestors l)).
  destruct (subtree (ancestors l) (self l)); [destruct H | right; exact H].
Qed.

Lemma querySelectorAll_elements l sel d :
  In d (querySelectorAll l sel) -> In (self d) (elements (self l)).
Proof.
  unfold querySelectorAll. intros H. apply filter_In in H. apply descendants_elements, H.
Qed.

Lemma querySelector_elements l sel d :
  querySelector l sel = Some d -> In (self d) (elements (self l)).
Proof.
  unfold querySelector. intros H. apply (querySelectorAll_elements l sel).
  destruct (querySelectorAll l sel); [discriminate|]. injection H as ->. left. reflexivity.
Qed.

Lemma docQuerySelectorAll_elements doc sel d :
  In d (docQuerySelectorAll doc sel) -> In (self d) (elements doc).
Proof.
  unfold docQuerySelectorAll. intros H. apply filter_In in H.
  apply (subtree_elements []), H.
Qed.

(** ** Locating the indicator *)

(** In v1.0 the search goes by the configured name: on a page none of whose
    elements shows it, [findIndicatorSettings] finds nothing and clicks
    nothing. *)
Lemma V1_locate_needs_configured_name doc :
  (forall e, In e (elements doc) ->
             includes (textContent e) (V1.indicatorName V1.CONFIG) = false) ->
  V1.findIndicatorSettings doc = (false, []).
Proof.
  intros H. unfold V1.findIndicatorSettings.
  assert (L : forall legends,
             (forall l, In l legends -> In (self l) (elements doc)) ->
             V1.legend_loop legends = None).
  { induction legends as [|legend rest IH]; intros Hin; [reflexivity|].
    simpl. destruct (querySelector legend _) as [titleSpan|] eqn:Q.
    - rewrite H; [apply IH; intros; apply Hin; right; assumption|].
      apply (elements_trans doc (self legend)).
      + apply Hin. left. reflexivity.
      + apply (querySelector_elements _ _ _ Q).
    - apply IH. intros. apply Hin. right. assumption. }
  assert (I : forall items,
             (forall l, In l items -> In (self l) (elements doc)) ->
             V1.item_loop items = None).
  { induction items as [|item rest IH]; intros Hin; [reflexivity|].
    simpl. rewrite H; [apply IH; intros; apply Hin; right; assumption|].
    apply Hin. left. reflexivity. }
  rewrite L, I; [reflexivity | |]; intros l Hl; apply (docQuerySelectorAll_elements _ _ _ Hl).
Qed.

Lemma V1_locate_witness : V1.findIndicatorSettings Sample.page_without_indicator = (false, []).
Proof.
  apply V1_locate_needs_configured_name.
  intros e He. vm_compute in He.
  repeat (destruct He as [<- | He]; [reflexivity|]). destruct He.
Defined.

(** C6, v2.0 at a page the claim covers.  The only legend entry is titled
    "Put Options Volume"; nothing in it shows the configured name
    [CONFIG.indicatorName] ("Options Levels").  The search of v2.0 tests for
    the fixed word "options" instead, takes the entry for its indicator and
    clicks its settings button. *)
Lemma C6_v2_clicks_without_configured_name :
  let w := Sample.wake_at 1200 Sample.page_other_options in
  let d := V2.data.Make "18/12/2024" (Finite (inject_Z 98500)) (Finite (inject_Z 95200)) in
  map self (docQuerySelectorAll (document w) [[AttrIs "data-name" "legend-source-item"]]) =
    [Sample.legend "Put Options Volume"] /\
  (forall e, In e (elements (Sample.legend "Put Options Volume")) ->
             includes (textContent e) (V2.indicatorName V2.CONFIG) = false) /\
  V2.updateIndicatorSettings_search [Sample.legend "Put Options Volume"] =
    (V2.SleepingForDialog [], [Click Sample.settings_button]) /\
  V2.propagate V2.initial w d =
    (V2.store V2.initial d 1200, V2.AwaitDialog d [],
     V2.updateStatusPanel (V2.store V2.initial d 1200) w ++ [Click Sample.settings_button]).
Proof.
  repeat split.
  intros e He. vm_compute in He.
  repeat (destruct He as [<- | He]; [reflexivity|]). destruct He.
Qed.

(** ** The commit step *)

(** v1.0 never reports a failed commit: whatever the dialog looks like after
    [sleep(300)], [updateIndicatorInput] returns [true]. *)
Lemma V1_updateIndicatorInput_apply_true dialog : fst (V1.updateIndicatorInput_apply dialog) = true.
Proof.
  unfold V1.updateIndicatorInput_apply. step_cases ltac:(reflexivity).
Qed.

(** v2.0 returns [true] only from the branch that clicks the submit button. *)
Lemma V2_search_not_true items tr :
  V2.updateIndicatorSettings_search items <> (V2.Returned true, tr).
Proof.
  unfold V2.updateIndicatorSettings_search.
  destruct (V2.legend_loop items) as [[tr' rest]|]; discriminate.
Qed.

Lemma V2_dialog_not_true w r s rest tr :
  V2.updateIndicatorSettings_dialog w r s rest <> (V2.Returned true, tr).
Proof.
  unfold V2.updateIndicatorSettings_dialog.
  destruct (docQuerySelector _ _); [discriminate | apply V2_search_not_true].
Qed.

Lemma V2_ok_true_after_click dialog rest tr :
  V2.updateIndicatorSettings_ok dialog rest = (V2.Returned true, tr) ->
  exists okBtn,
    querySelector (at_root dialog) [[AttrIs "data-name" "submit-button"]] = Some okBtn /\
    tr = [Click (self okBtn)].
Proof.
  unfold V2.updateIndicatorSettings_ok.
  destruct (querySelector _ _) as [okBtn|].
  - intros E. injection E as <-. exists okBtn. split; reflexivity.
  - intros E. apply V2_search_not_true in E. destruct E.
Qed.

(** C5, v1.0 at a dialog the claim covers.  The data textarea is found and
    written, so the attempt reaches the commit step; the dialog has neither a
    button labelled OK nor a submit button.  Nothing is clicked in the
    dialog, [updateIndicatorInput] returns [true], and the cycle reports
    "Updated". *)
Lemma C5_v1_success_without_confirm :
  let s := Sample.cycle Sample.ledger1 Sample.page_with_tracker Sample.page_dialog_bare in
  let tr := snd (V1.fetchAndUpdate V1.initial s) in
  V1.updateIndicatorInput Sample.day1 (V1.at_dialog s) (V1.at_apply s) =
    (true,
     [SetValue Sample.data_textarea [Str Sample.day1];
      Dispatch Sample.data_textarea "input";
      Dispatch Sample.data_textarea "change";
      Log "Options Levels: Data updated in textarea" []]) /\
  filter is_ui tr =
    [Click Sample.settings_button;
     SetValue Sample.data_textarea [Str Sample.day1];
     Dispatch Sample.data_textarea "input";
     Dispatch Sample.data_textarea "change"] /\
  In (SetText Sample.status_text [Str "Options Levels: Updated ✓"]) tr /\
  In (Notify "Options Levels Updated" [Str ("New data loaded: " ++ Sample.day1)] 3000) tr.
Proof.
  repeat split; vm_compute; tauto.
Qed.

(** ** Polling the ledger *)

Lemma of_N_inj a b : of_N a = of_N b -> a = b.
Proof.
  unfold of_N. intros E.
  assert (NN : forall n, N.to_uint n <> Decimal.Nil).
  { intros [|p]; [discriminate | apply DecimalPos.Unsigned.to_uint_nonnil]. }
  apply DecimalN.Unsigned.to_uint_inj.
  pose proof (NilZero.usu _ (NN a)) as Ua. pose proof (NilZero.usu _ (NN b)) as Ub.
  rewrite E in Ua. congruence.
Qed.

(** Two polls at different times never ask for the same URL. *)
Lemma V1_fetch_request_fresh w w' :
  now w <> now w' -> V1.fetch_request w <> V1.fetch_request w'.
Proof.
  unfold V1.fetch_request. intros D E. injection E as E.
  apply of_N_inj in E. contradiction.
Qed.

Lemma V2_fetch_request_fresh w w' :
  now w <> now w' -> V2.fetch_request w <> V2.fetch_request w'.
Proof.
  unfold V2.fetch_request. intros D E. injection E as E.
  apply of_N_inj in E. contradiction.
Qed.

(** C7, as the code has it.  Every call that passes the guard requests the
    ledger URL followed by [?t=] and the clock, so that two polls at
    different times never request the same URL.  v2.0 derives its record from
    the last line alone (of a body with at least two lines); v1.0 takes as
    its data all the lines after the header. *)
Theorem C7_poll_and_current_record
  (c1 : V1.client) (c2 : V2.client) (w w' : wake) (t t' : string) :
  V1.isUpdating c1 = false ->
  V2.state.isUpdating c2 = false ->
  now w <> now w' ->
  1 < length (split LF (trim t)) ->
  1 < length (split LF (trim t')) ->
  last_item (split LF (trim t)) = last_item (split LF (trim t')) ->
  In (Request "GET" (V1.csvUrl V1.CONFIG ++ "?t=" ++ of_N (now w))) (snd (V1.invoke c1 w)) /\
  In (Request "GET" (V2.dataUrl V2.CONFIG ++ "?t=" ++ of_N (now w))) (snd (V2.invoke c2 w)) /\
  V1.fetch_request w <> V1.fetch_request w' /\
  V2.fetch_request w <> V2.fetch_request w' /\
  V2.fetchData (Loaded 200 t) = V2.fetchData (Loaded 200 t') /\
  V1.fetchData (Loaded 200 t) = inl (join LFs (tl (split LF (trim t)))).
Proof.
  intros B1 B2 D L L' E.
  split; [|split; [|split; [|split; [|split]]]].
  - rewrite (V1_invoke_idle _ _ B1). cbn [snd]. apply in_or_app. right. left. reflexivity.
  - rewrite (V2_invoke_idle _ _ B2). cbn [snd]. apply in_or_app. right. left. reflexivity.
  - apply V1_fetch_request_fresh, D.
  - apply V2_fetch_request_fresh, D.
  - unfold V2.fetchData. change (200 =? 200)%N with true. cbv iota.
    apply Nat.ltb_lt in L, L'. rewrite L, L', E. reflexivity.
  - reflexivity.
Qed.

Lemma C7_witness :
  let w := Sample.wake_at 1000 Sample.page_with_tracker in
  let w' := Sample.wake_at 301000 Sample.page_with_tracker in
  In (Request "GET" (V1.csvUrl V1.CONFIG ++ "?t=1000")) (snd (V1.invoke V1.initial w)) /\
  In (Request "GET" (V2.dataUrl V2.CONFIG ++ "?t=1000")) (snd (V2.invoke V2.initial w)) /\
  V1.fetch_request w <> V1.fetch_request w' /\
  V2.fetch_request w <> V2.fetch_request w' /\
  V2.fetchData (Loaded 200 Sample.ledger2) = V2.fetchData (Loaded 200 Sample.ledger2_revised) /\
  V1.fetchData (Loaded 200 Sample.ledger2) =
    inl (join LFs (tl (split LF (trim Sample.ledger2)))).
Proof.
  intros w w'.
  apply (C7_poll_and_current_record V1.initial V2.initial w w'
           Sample.ledger2 Sample.ledger2_revised).
  - reflexivity.
  - reflexivity.
  - discriminate.
  - vm_compute. lia.
  - vm_compute. lia.
  - vm_compute. reflexivity.
Defined.

(** C7 as the specification words it fails in v1.0: two ledgers with the
    same last line and a different earlier line give different data. *)
Lemma C7_counterexample :
  last_item (split LF (trim Sample.ledger2)) =
  last_item (split LF (trim Sample.ledger2_revised)) /\
  V1.fetchData (Loaded 200 Sample.ledger2) =
    inl (Sample.day1 ++ LFs ++ Sample.day2)%string /\
  V1.fetchData (Loaded 200 Sample.ledger2) <> V1.fetchData (Loaded 200 Sample.ledger2_revised).
Proof.
  split; [vm_compute; reflexivity | split; [vm_compute; reflexivity | vm_compute; discriminate]].
Qed.

(** ** The driver and the status display *)








(** ** Levels that do not parse *)



Lemma strict_ne_NaN_r x : strict_ne x NaN = true.
Proof. destruct x; reflexivity. Qed.



(* ================================================================== *)
(** * Further properties of the two scripts *)
(* ================================================================== *)

(** ** Lines and fields *)

Lemma split_not_nil sep s : split sep s <> [].
Proof.
  destruct s as [|a s]; simpl; [discriminate|].
  destruct (Ascii.eqb a sep); [discriminate|].
  destruct (split sep s); discriminate.
Qed.

(** Joining what [split] gave restores the string. *)
Lemma join_split sep s : join (String sep EmptyString) (split sep s) = s.
Proof.
  induction s as [|a s IH]; [reflexivity|].
  simpl. destruct (Ascii.eqb_spec a sep) as [->|N].
  - pose proof (split_not_nil sep s) as NN.
    destruct (split sep s) as [|x rest]; [contradiction|].
    change (join (String sep EmptyString) (EmptyString :: x :: rest))
      with (String sep (join (String sep EmptyString) (x :: rest))).
    rewrite IH. reflexivity.
  - pose proof (split_not_nil sep s) as NN.
    destruct (split sep s) as [|x rest]; [contradiction|].
    destruct rest as [|y rest]; simpl in *; rewrite <- IH; reflexivity.
Qed.

(** No piece of a split holds the separator. *)
Lemma split_pieces_clean sep s :
  Forall (fun x => ~ In sep (list_ascii_of_string x)) (split sep s).
Proof.
  induction s as [|a s IH]; simpl.
  - constructor; [intros [] | constructor].
  - destruct (Ascii.eqb_spec a sep) as [->|N].
    + constructor; [intros [] | exact IH].
    + destruct (split sep s) as [|x rest]; [constructor; [|constructor]|].
      * simpl. intros [E | []]. congruence.
      * inversion IH as [|? ? Hx Hrest]; subst. constructor; [|exact Hrest].
        simpl. intros [E | I]; [congruence | exact (Hx I)].
Qed.

Lemma split_clean sep x :
  ~ In sep (list_ascii_of_string x) -> split sep x = [x].
Proof.
  induction x as [|a x IH]; simpl; intros H; [reflexivity|].
  destruct (Ascii.eqb_spec a sep) as [->|N]; [exfalso; apply H; left; reflexivity|].
  rewrite IH; [reflexivity | intros I; apply H; right; exact I].
Qed.

Lemma split_append sep x z :
  ~ In sep (list_ascii_of_string x) ->
  split sep (x ++ String sep z)%string = x :: split sep z.
Proof.
  induction x as [|a x IH]; simpl; intros H.
  - rewrite Ascii.eqb_refl. reflexivity.
  - destruct (Ascii.eqb_spec a sep) as [->|N]; [exfalso; apply H; left; reflexivity|].
    rewrite IH; [reflexivity | intros I; apply H; right; exact I].
Qed.

(** Splitting what [join] made of clean pieces restores the pieces. *)
Lemma split_join sep l :
  l <> [] ->
  Forall (fun x => ~ In sep (list_ascii_of_string x)) l ->
  split sep (join (String sep EmptyString) l) = l.
Proof.
  induction l as [|x l IH]; intros NN F; [contradiction|].
  inversion F as [|? ? Hx Hl]; subst.
  destruct l as [|y l]; [apply split_clean, Hx|].
  change (join (String sep EmptyString) (x :: y :: l))
    with (x ++ String sep (join (String sep EmptyString) (y :: l)))%string.
  rewrite split_append by exact Hx. rewrite IH; [reflexivity | discriminate | exact Hl].
Qed.

Lemma last_tl (l : list string) :
  1 < length l -> last_item (tl l) = last_item l.
Proof.
  unfold last_item. destruct l as [|x [|y l]]; simpl; intros H; try lia. reflexivity.
Qed.

(** ** Numbers written in digits *)

Lemma span_digits_all s :
  forallb is_digit (list_ascii_of_string s) = true ->
  span_digits s = (list_ascii_of_string s, EmptyString).
Proof.
  induction s as [|a s IH]; simpl; intros H; [reflexivity|].
  apply andb_true_iff in H. destruct H as [D R]. rewrite D, (IH R). reflexivity.
Qed.

Lemma digit_starts_literal a r :
  is_digit a = true ->
  trimStart (String a r) = String a r /\
  take_sign (String a r) = (false, String a r) /\
  prefix "Infinity" (String a r) = false.
Proof.
  intros D. destruct a as [[] [] [] [] [] [] [] []]; try discriminate D;
    (split; [destruct r as [|b [|c r]]; reflexivity | split; reflexivity]).
Qed.

Lemma round_half_even_1 n : round_half_even n 1 = n.
Proof.
  unfold round_half_even.
  pose proof (Z.div_1_r n) as D. pose proof (Z.mod_1_r n) as M.
  unfold Z.div, Z.modulo in D, M.
  destruct (Z.div_eucl n 1) as [k r]. simpl in D, M. subst. reflexivity.
Qed.

Lemma Qred_inject_Z n : Qred (inject_Z n) = inject_Z n.
Proof.
  unfold Qred, inject_Z. cbn [Qnum Qden].
  pose proof (Z.ggcd_gcd n 1) as G. pose proof (Z.ggcd_correct_divisors n 1) as C.
  destruct (Z.ggcd n 1) as [g [aa bb]]. cbn [fst snd] in *.
  rewrite Z.gcd_1_r in G. subst g. destruct C as [C1 C2].
  rewrite Z.mul_1_l in C1, C2. subst. reflexivity.
Qed.

(** A non-negative integer below 2^53 is a binary64: rounding leaves it. *)
Lemma round64_small n :
  (0 <= n < 2 ^ 53)%Z -> round64 false (inject_Z n) = Finite (inject_Z n).
Proof.
  intros [L U]. destruct n as [|a|a]; [reflexivity | | lia].
  unfold round64. cbn [inject_Z Qnum Qden].
  assert (E : ilog2 a 1 = Z.log2 (Zpos a)).
  { unfold ilog2. change (Z.log2 1) with 0%Z. rewrite Z.sub_0_r.
    pose proof (Z.log2_nonneg (Zpos a)) as NN.
    pose proof (Z.log2_spec (Zpos a) ltac:(lia)) as [S1 S2].
    destruct (Z.leb_spec 0 (Z.log2 (Z.pos a))); [|lia].
    destruct (Z.ltb_spec (Zpos a) (1 * 2 ^ Z.log2 (Z.pos a))); [lia | reflexivity]. }
  rewrite E.
  assert (LB : (0 <= Z.log2 (Zpos a) < 53)%Z).
  { split; [apply Z.log2_nonneg|]. apply Z.log2_lt_pow2; lia. }
  set (l := Z.log2 (Zpos a)) in *.
  rewrite Z.max_l by lia.
  destruct (Z.leb_spec 0 (l - 52)) as [H|H].
  - assert (H0 : l = 52%Z) by lia. rewrite H0.
    change (52 - 52)%Z with 0%Z. change (1 * 2 ^ 0)%Z with 1%Z.
    rewrite round_half_even_1.
    change (Z.pos a =? 0)%Z with false. cbv iota.
    destruct (Z.leb_spec (2 ^ 1024) (Z.pos a * 2 ^ 0)) as [O|O].
    + exfalso. rewrite Z.pow_0_r, Z.mul_1_r in O.
      assert ((2 ^ 53 < 2 ^ 1024)%Z) by (apply Z.pow_lt_mono_r; lia). lia.
    + rewrite Z.pow_0_r, Z.mul_1_r. reflexivity.
  - rewrite round_half_even_1.
    assert (P : (0 < 2 ^ (- (l - 52)))%Z) by (apply Z.pow_pos_nonneg; lia).
    destruct (Z.eqb_spec (Z.pos a * 2 ^ (- (l - 52))) 0) as [Z0|_]; [lia|].
    f_equal. rewrite <- (Qred_inject_Z (Zpos a)). apply Qred_complete.
    unfold Qeq. cbn [Qnum Qden inject_Z]. rewrite Z2Pos.id by exact P. lia.
Qed.

(** A string of decimal digits parses to the number it spells, as long as
    that number is below 2^53. *)
Lemma parseFloat_digits s :
  s <> EmptyString ->
  forallb is_digit (list_ascii_of_string s) = true ->
  (digits_val (list_ascii_of_string s) < 2 ^ 53)%N ->
  parseFloat s = Finite (inject_Z (Z.of_N (digits_val (list_ascii_of_string s)))).
Proof.
  intros NE D B. destruct s as [|a r]; [contradiction|].
  pose proof (span_digits_all _ D) as SP.
  simpl in D. apply andb_true_iff in D. destruct D as [Da Dr].
  destruct (digit_starts_literal a r Da) as (T & S & I).
  unfold parseFloat. rewrite T, S, I, SP.
  cbn [list_ascii_of_string app length]. rewrite app_nil_r.
  unfold exponent, scale. simpl (0 <=? 0 - Z.of_nat 0)%Z. cbv iota.
  simpl (10 ^ (0 - Z.of_nat 0))%Z. rewrite Z.mul_1_r.
  apply round64_small. split; [apply N2Z.is_nonneg|].
  change (2 ^ 53)%Z with (Z.of_N (2 ^ 53)). apply N2Z.inj_lt, B.
Qed.

Lemma string_of_uint_digits d :
  forallb is_digit (list_ascii_of_string (NilEmpty.string_of_uint d)) = true.
Proof.
  induction d; simpl; try rewrite IHd; reflexivity.
Qed.

Lemma digits_val_of_uint d : forall acc,
  fold_left (fun acc c => (acc * 10 + digit_val c)%N)
    (list_ascii_of_string (NilEmpty.string_of_uint d)) acc =
  (acc * 10 ^ DecimalPos.Unsigned.usize d +
   DecimalPos.Unsigned.of_lu (Decimal.rev d))%N.
Proof.
  induction d; intros acc;
    [ simpl; lia | .. ];
    cbn [NilEmpty.string_of_uint list_ascii_of_string fold_left DecimalPos.Unsigned.usize];
    rewrite IHd; unfold Decimal.rev at 2; cbn [Decimal.revapp];
    rewrite DecimalPos.Unsigned.of_lu_revapp; rewrite N.pow_succ_r';
    generalize (10 ^ DecimalPos.Unsigned.usize d)%N
               (DecimalPos.Unsigned.of_lu (Decimal.rev d)); intros p v;
    repeat match goal with
    | |- context [digit_val ?c] =>
        let x := eval vm_compute in (digit_val c) in change (digit_val c) with x
    | |- context [DecimalPos.Unsigned.of_lu ?u] =>
        let x := eval vm_compute in (DecimalPos.Unsigned.of_lu u) in
        change (DecimalPos.Unsigned.of_lu u) with x
    end; ring.
Qed.

Lemma of_N_digits n : forallb is_digit (list_ascii_of_string (of_N n)) = true.
Proof.
  unfold of_N. destruct (N.to_uint n) eqn:E; try apply (string_of_uint_digits (_ u)).
  reflexivity.
Qed.

Lemma digits_val_of_N n : digits_val (list_ascii_of_string (of_N n)) = n.
Proof.
  unfold of_N.
  assert (NN : N.to_uint n <> Decimal.Nil).
  { destruct n; [discriminate | apply DecimalPos.Unsigned.to_uint_nonnil]. }
  assert (E : NilZero.string_of_uint (N.to_uint n) = NilEmpty.string_of_uint (N.to_uint n)).
  { destruct (N.to_uint n); [contradiction | reflexivity ..]. }
  rewrite E. unfold digits_val. rewrite digits_val_of_uint. simpl (0 * _)%N. rewrite N.add_0_l.
  rewrite <- DecimalPos.Unsigned.of_uint_alt.
  change (Pos.of_uint (N.to_uint n)) with (N.of_uint (N.to_uint n)).
  apply DecimalN.Unsigned.of_to.
Qed.

(** [parseFloat] reads back a non-negative integer below 2^53 as [String]
    writes it. *)
Lemma parseFloat_of_N n :
  (n < 2 ^ 53)%N -> parseFloat (of_N n) = Finite (inject_Z (Z.of_N n)).
Proof.
  intros B. rewrite <- (digits_val_of_N n) at 2. apply parseFloat_digits.
  - unfold of_N. destruct (N.to_uint n); discriminate.
  - apply of_N_digits.
  - rewrite digits_val_of_N. exact B.
Qed.

Lemma digits_clean s ch :
  forallb is_digit (list_ascii_of_string s) = true ->
  is_digit ch = false ->
  ~ In ch (list_ascii_of_string s).
Proof.
  intros D N I. rewrite forallb_forall in D. specialize (D _ I). congruence.
Qed.

Lemma chars_app a b :
  list_ascii_of_string (a ++ b)%string = list_ascii_of_string a ++ list_ascii_of_string b.
Proof.
  induction a as [|ch a IH]; simpl; [reflexivity | rewrite IH; reflexivity].
Qed.

Lemma clean_app c a b :
  ~ In c (list_ascii_of_string a) -> ~ In c (list_ascii_of_string b) ->
  ~ In c (list_ascii_of_string (a ++ b)%string).
Proof.
  intros A B. rewrite chars_app, in_app_iff. tauto.
Qed.

Lemma clean_cons c ch s :
  ch <> c -> ~ In c (list_ascii_of_string s) -> ~ In c (list_ascii_of_string (String ch s)).
Proof.
  intros N S [E | I]; [exact (N E) | exact (S I)].
Qed.

Lemma append_empty_r s : (s ++ EmptyString)%string = s.
Proof.
  induction s as [|ch s IH]; simpl; [reflexivity | rewrite IH; reflexivity].
Qed.

Lemma split_app_sep sep h z :
  split sep (h ++ String sep z)%string = split sep h ++ split sep z.
Proof.
  induction h as [|a h IH]; simpl.
  - rewrite Ascii.eqb_refl. reflexivity.
  - destruct (Ascii.eqb a sep); [rewrite IH; reflexivity|].
    rewrite IH. pose proof (split_not_nil sep h) as NN.
    destruct (split sep h); [contradiction | reflexivity].
Qed.

Lemma last_item_app l x : last_item (l ++ [x]) = x.
Proof. unfold last_item. apply last_last. Qed.

(** ** Reading the ledger *)

(** X1.  A ledger whose last line is a date, two levels written as integers
    below 2^53 (which a binary64 holds exactly) and possibly further fields is
    read back by v2.0 as exactly that date and those two levels, whatever
    lines come before. *)
Theorem V2_fetchData_reads_back
  (txt before date rest : string) (r s : N) :
  (r < 2 ^ 53)%N -> (s < 2 ^ 53)%N ->
  trim txt = (before ++ String LF (date ++ String comma (of_N r ++ String comma (of_N s ++ rest))))%string ->
  ~ In LF (list_ascii_of_string date) ->
  ~ In comma (list_ascii_of_string date) ->
  rest = EmptyString \/
  (exists more, rest = String comma more /\ ~ In LF (list_ascii_of_string more)) ->
  V2.fetchData (Loaded 200 txt) =
    inl (V2.data.Make date (Finite (inject_Z (Z.of_N r))) (Finite (inject_Z (Z.of_N s)))).
Proof.
  intros BR BS T DL DC R.
  set (line := (date ++ String comma (of_N r ++ String comma (of_N s ++ rest)))%string) in *.
  assert (CL : ~ In LF (list_ascii_of_string line)).
  { subst line. apply clean_app; [exact DL|]. apply clean_cons; [discriminate|].
    apply clean_app; [apply (digits_clean _ LF (of_N_digits r)); reflexivity|].
    apply clean_cons; [discriminate|].
    apply clean_app; [apply (digits_clean _ LF (of_N_digits s)); reflexivity|].
    destruct R as [-> | (more & -> & M)]; [intros []|].
    apply clean_cons; [discriminate | exact M]. }
  assert (P : exists more,
             split comma line = date :: of_N r :: of_N s :: more).
  { subst line. rewrite split_append by exact DC.
    rewrite split_append
      by (apply (digits_clean _ comma (of_N_digits r)); reflexivity).
    destruct R as [-> | (more & -> & M)].
    - rewrite append_empty_r. rewrite split_clean
        by (apply (digits_clean _ comma (of_N_digits s)); reflexivity).
      exists []. reflexivity.
    - rewrite split_append
        by (apply (digits_clean _ comma (of_N_digits s)); reflexivity).
      eexists. reflexivity. }
  destruct P as (more & P).
  unfold V2.fetchData. change (200 =? 200)%N with true. cbv iota.
  rewrite T, split_app_sep, (split_clean LF line CL).
  rewrite last_item_app, length_app, P.
  pose proof (split_not_nil LF before) as NN.
  destruct (split LF before) as [|b0 bs]; [contradiction|].
  replace (1 <? length (b0 :: bs) + length [line])%nat with true
    by (symmetry; apply Nat.ltb_lt; simpl; lia).
  cbn [length Nat.leb nth].
  rewrite (parseFloat_of_N r BR), (parseFloat_of_N s BS). reflexivity.
Qed.

Lemma V2_fetchData_reads_back_witness :
  V2.fetchData (Loaded 200 Sample.ledger2) =
    inl (V2.data.Make "19/12/2024" (Finite (inject_Z 99200)) (Finite (inject_Z 95800))).
Proof.
  apply (V2_fetchData_reads_back Sample.ledger2
           (Sample.header ++ LFs ++ Sample.day1) "19/12/2024" ",99800,95000" 99200 95800).
  - reflexivity.
  - reflexivity.
  - vm_compute. reflexivity.
  - vm_compute. intuition discriminate.
  - vm_compute. intuition discriminate.
  - right. exists "99800,95000". split; [reflexivity|].
    vm_compute. intuition discriminate.
Defined.

(** X2.  The notification of v1.0 previews the latest record: the last line
    of the data it has fetched from a ledger with at least two lines is the
    last line of that ledger, and the notification shows its first 50
    characters. *)
Theorem V1_notification_shows_latest_line
  (c : V1.client) (w : wake) (txt data : string) :
  1 < length (split LF (trim txt)) ->
  V1.fetchData (Loaded 200 txt) = inl data ->
  last_item (split LF data) = last_item (split LF (trim txt)) /\
  In (Notify "Options Levels Updated"
        [Str ("New data loaded: " ++ substring 0 50 (last_item (split LF (trim txt))))] 3000)
     (snd (V1.after_update c w data true)).
Proof.
  intros L F. unfold V1.fetchData in F. change (200 =? 200)%N with true in F.
  cbv iota in F. injection F as <-.
  assert (E : last_item (split LF (join LFs (slice1 (split LF (trim txt))))) =
              last_item (split LF (trim txt))).
  { unfold slice1, LFs. rewrite split_join.
    - apply last_tl, L.
    - destruct (split LF (trim txt)) as [|x [|y l]]; simpl in *; try lia. discriminate.
    - pose proof (split_pieces_clean LF (trim txt)) as C.
      destruct (split LF (trim txt)) as [|x l]; [constructor|].
      inversion C; assumption. }
  split; [exact E|].
  unfold V1.after_update. cbn [snd]. apply in_or_app. right.
  rewrite E. left. reflexivity.
Qed.

Lemma V1_notification_shows_latest_line_witness :
  last_item (split LF (Sample.day1 ++ LFs ++ Sample.day2)) =
    last_item (split LF (trim Sample.ledger2)) /\
  In (Notify "Options Levels Updated"
        [Str ("New data loaded: " ++ substring 0 50 (last_item (split LF (trim Sample.ledger2))))]
        3000)
     (snd (V1.after_update V1.initial (Sample.wake_at 2000 Sample.page_dialog_open)
             (Sample.day1 ++ LFs ++ Sample.day2) true)).
Proof.
  apply (V1_notification_shows_latest_line V1.initial
           (Sample.wake_at 2000 Sample.page_dialog_open) Sample.ledger2).
  - vm_compute. lia.
  - vm_compute. reflexivity.
Defined.

Lemma V2_finished_stays evs : forall c tr,
  fold_left V2.continue evs (c, V2.Finished, tr) = (c, V2.Finished, tr).
Proof.
  induction evs as [|ev evs IH]; intros c tr; [reflexivity|].
  cbn [fold_left]. unfold V2.continue at 2. rewrite V2_resume_finished.
  cbn [V2.add_trace]. rewrite app_nil_r. apply IH.
Qed.

(** X3.  When v2.0 can make nothing of the reply, it says which way: a
    status other than 200 is "HTTP" and the status, a body of a single line
    "No data", a last line with fewer than three fields "Invalid data
    format"; in every other case [fetchData] resolves. *)
Theorem V2_fetchData_rejections (status : N) (txt : string) :
  let lines := split LF (trim txt) in
  let parts := split comma (last_item lines) in
  (status <> 200%N ->
   V2.fetchData (Loaded status txt) = inr (Error ("HTTP " ++ of_N status))) /\
  (status = 200%N -> length lines = 1 ->
   V2.fetchData (Loaded status txt) = inr (Error "No data")) /\
  (status = 200%N -> 1 < length lines -> length parts < 3 ->
   V2.fetchData (Loaded status txt) = inr (Error "Invalid data format")) /\
  ((exists d, V2.fetchData (Loaded status txt) = inl d) <->
   status = 200%N /\ 1 < length lines /\ 3 <= length parts).
Proof.
  intros lines parts. unfold V2.fetchData. fold lines. fold parts.
  split; [|split; [|split]].
  - intros N. apply N.eqb_neq in N. rewrite N. reflexivity.
  - intros -> L. change (200 =? 200)%N with true. cbv iota. rewrite L. reflexivity.
  - intros -> L P. change (200 =? 200)%N with true. cbv iota.
    apply Nat.ltb_lt in L. rewrite L.
    replace (3 <=? length parts)%nat with false
      by (symmetry; apply Nat.leb_gt; exact P).
    reflexivity.
  - split.
    + intros (d & E). destruct (N.eqb_spec status 200) as [->|]; [|discriminate].
      destruct (Nat.ltb_spec 1 (length lines)); [|discriminate].
      destruct (Nat.leb_spec 3 (length parts)); [|discriminate].
      repeat split; assumption.
    + intros (-> & L & P). change (200 =? 200)%N with true. cbv iota.
      apply Nat.ltb_lt in L. apply Nat.leb_le in P. rewrite L, P. eexists. reflexivity.
Qed.

Lemma V2_fetchData_rejections_witness :
  V2.fetchData (Loaded 404 "Not Found") = inr (Error "HTTP 404") /\
  V2.fetchData (Loaded 200 Sample.header) = inr (Error "No data") /\
  V2.fetchData (Loaded 200 (Sample.header ++ LFs ++ "18/12/2024,98500")) =
    inr (Error "Invalid data format").
Proof.
  split; [|split].
  - apply (V2_fetchData_rejections 404 "Not Found"). discriminate.
  - apply (V2_fetchData_rejections 200 Sample.header); reflexivity.
  - apply (V2_fetchData_rejections 200 (Sample.header ++ LFs ++ "18/12/2024,98500"));
      [reflexivity | vm_compute; lia | vm_compute; lia].
Defined.

(** ** A fetch that fails *)

(** X4.  v1.0: when the fetch is rejected (a status other than 200, or a
    network error), the cycle shows the error and does nothing else: the
    client is as it was, with [lastData] kept for the next poll, and the page
    is not touched. *)
Theorem V1_rejected_fetch_changes_nothing (c : V1.client) (s : V1.script) (e : error) :
  V1.isUpdating c = false ->
  V1.fetchData (V1.reply s) = inr e ->
  V1.fetchAndUpdate c s =
    (c, V1.Finished,
     V1.updateStatus (V1.at_start s) "Updating..." false ++
     [V1.fetch_request (V1.at_start s)] ++
     LogError "Options Levels Error:" e ::
     V1.updateStatus (V1.at_reply s) ("Error: " ++ show_message e) true) /\
  ui_untouched (snd (V1.fetchAndUpdate c s)) /\
  (forall status txt, status <> 200%N ->
     V1.fetchData (Loaded status txt) = inr (Error ("Failed to fetch: " ++ of_N status))).
Proof.
  intros B F.
  assert (E : V1.fetchAndUpdate c s =
    (c, V1.Finished,
     V1.updateStatus (V1.at_start s) "Updating..." false ++
     [V1.fetch_request (V1.at_start s)] ++
     LogError "Options Levels Error:" e ::
     V1.updateStatus (V1.at_reply s) ("Error: " ++ show_message e) true)).
  { unfold V1.fetchAndUpdate. rewrite (V1_invoke_idle _ _ B).
    unfold V1.continue at 3. unfold V1.resume at 1. rewrite F.
    unfold V1.on_error. destruct c as [d b]. simpl in B. subst b. simpl.
    rewrite !app_nil_r, <- !app_assoc. reflexivity. }
  split; [exact E|]. split.
  - rewrite E. cbn [snd].
    apply ui_untouched_app; [apply V1_updateStatus_ui|].
    apply (ui_untouched_app [_]); [reflexivity|].
    apply (ui_untouched_app [_]); [reflexivity | apply V1_updateStatus_ui].
  - intros status txt N. unfold V1.fetchData. apply N.eqb_neq in N. rewrite N. reflexivity.
Qed.

Lemma V1_rejected_fetch_witness :
  let s := V1.Script (Sample.wake_at 1000 Sample.page_with_tracker) (Loaded 503 "busy")
             (Sample.wake_at 1200 Sample.page_with_tracker)
             (Sample.wake_at 1700 Sample.page_with_tracker)
             (Sample.wake_at 2000 Sample.page_with_tracker) in
  let c := V1.Client Sample.day1 false in
  fst (fst (V1.fetchAndUpdate c s)) = c /\
  ui_untouched (snd (V1.fetchAndUpdate c s)).
Proof.
  intros s c.
  destruct (V1_rejected_fetch_changes_nothing c s (Error "Failed to fetch: 503")
              eq_refl eq_refl) as (E & U & _).
  split; [rewrite E; reflexivity | exact U].
Defined.

(** X5.  v2.0: when the fetch is rejected (a status other than 200, a body
    without data, a malformed last line, or a network error), the cycle shows
    the error and does nothing else, whatever events follow: the stored levels
    stay, and the page is not touched. *)
Theorem V2_rejected_fetch_changes_nothing
  (c : V2.client) (w w1 : wake) (r : response) (e : error) (evs : list event) :
  V2.state.isUpdating c = false ->
  V2.fetchData r = inr e ->
  V2.fetchAndUpdate c w (Settled r w1 :: evs) =
    (c, V2.Finished,
     V2.setStatus w "Updating..." false ++ [V2.fetch_request w] ++
     LogError "Options Levels error:" e :: V2.setStatus w1 ("Error: " ++ show_message e) true) /\
  ui_untouched (snd (V2.fetchAndUpdate c w (Settled r w1 :: evs))).
Proof.
  intros B F.
  assert (E : V2.fetchAndUpdate c w (Settled r w1 :: evs) =
    (c, V2.Finished,
     V2.setStatus w "Updating..." false ++ [V2.fetch_request w] ++
     LogError "Options Levels error:" e :: V2.setStatus w1 ("Error: " ++ show_message e) true)).
  { unfold V2.fetchAndUpdate. rewrite (V2_invoke_idle _ _ B). cbn [fold_left].
    unfold V2.continue at 2. unfold V2.resume. rewrite F.
    unfold V2.on_error. cbn [V2.add_trace]. rewrite V2_finished_stays.
    destruct c as [rs sp lu b]. simpl in B. subst b. unfold V2.set_isUpdating. simpl.
    rewrite <- !app_assoc. reflexivity. }
  split; [exact E|].
  rewrite E. cbn [snd].
  apply ui_untouched_app; [apply V2_setStatus_ui|].
  apply (ui_untouched_app [_]); [reflexivity|].
  apply (ui_untouched_app [_]); [reflexivity | apply V2_setStatus_ui].
Qed.

Lemma V2_rejected_fetch_witness :
  let w := Sample.wake_at 1000 Sample.page_levels_open in
  let c := V2.state.Make (Finite (inject_Z 98500)) (Finite (inject_Z 95200)) (Some 7%N) false in
  let run := V2.fetchAndUpdate c w [Settled (Loaded 200 Sample.header) w; Woke w] in
  fst (fst run) = c /\ ui_untouched (snd run).
Proof.
  intros w c run.
  destruct (V2_rejected_fetch_changes_nothing c w w (Loaded 200 Sample.header)
              (Error "No data") [Woke w] eq_refl eq_refl) as (E & U).
  split; [unfold run; rewrite E; reflexivity | exact U].
Defined.

(** X6.  v1.0 on a fresh page: a ledger that holds nothing after its header
    line (or nothing at all) gives the empty data, which is what [lastData]
    starts as, so the first poll reports "No changes" and does not try the
    page. *)
Theorem V1_empty_ledger_is_no_change (s : V1.script) (txt : string) :
  V1.reply s = Loaded 200 txt ->
  length (split LF (trim txt)) = 1 ->
  V1.fetchData (V1.reply s) = inl EmptyString /\
  V1.fetchAndUpdate V1.initial s =
    (V1.initial, V1.Finished,
     V1.updateStatus (V1.at_start s) "Updating..." false ++
     [V1.fetch_request (V1.at_start s)] ++
     V1.updateStatus (V1.at_reply s) "Options Levels: No changes" false).
Proof.
  intros R L.
  assert (F : V1.fetchData (V1.reply s) = inl EmptyString).
  { rewrite R. unfold V1.fetchData. change (200 =? 200)%N with true. cbv iota.
    destruct (split LF (trim txt)) as [|x [|y l]]; simpl in L; try discriminate.
    reflexivity. }
  split; [exact F|]. apply V1_unchanged_cycle; [reflexivity | exact F].
Qed.

Lemma V1_empty_ledger_witness :
  let s := Sample.cycle (Sample.header ++ LFs) Sample.page_with_tracker Sample.page_with_tracker in
  V1.fetchData (V1.reply s) = inl EmptyString /\
  V1.fetchAndUpdate V1.initial s =
    (V1.initial, V1.Finished,
     V1.updateStatus (V1.at_start s) "Updating..." false ++
     [V1.fetch_request (V1.at_start s)] ++
     V1.updateStatus (V1.at_reply s) "Options Levels: No changes" false).
Proof.
  intros s. apply (V1_empty_ledger_is_no_change s (Sample.header ++ LFs)); reflexivity.
Defined.

(** ** What the drivers click and write *)

Lemma subtree_self_elem anc n l :
  In l (subtree anc n) -> In (self l) (elements (self l)).
Proof.
  revert anc. induction n as [s | t a cs IH] using node_ind'; intros anc H; [destruct H|].
  simpl in H. destruct H as [<- | H].
  - cbn [self]. rewrite elements_Elem. left. reflexivity.
  - apply in_flat_map in H. destruct H as (c & Hc & H).
    rewrite Forall_forall in IH. apply (IH c Hc _ H).
Qed.

Lemma docQuerySelectorAll_self_elem doc sel l :
  In l (docQuerySelectorAll doc sel) -> In (self l) (elements (self l)).
Proof.
  unfold docQuerySelectorAll. intros H. apply filter_In in H.
  apply (subtree_self_elem [] doc), H.
Qed.

Lemma querySelectorAll_matches l sel d :
  In d (querySelectorAll l sel) -> matches sel (self d) = true.
Proof.
  unfold querySelectorAll. intros H. apply filter_In in H. apply H.
Qed.

Lemma V1_legend_loop_sound legends tr :
  V1.legend_loop legends = Some tr ->
  exists legend titleSpan settingsBtn,
    In legend legends /\
    querySelector legend [[AttrHas "class" "title"]] = Some titleSpan /\
    includes (textContent (self titleSpan)) (V1.indicatorName V1.CONFIG) = true /\
    querySelector legend [[AttrIs "data-name" "legend-settings-action"]] = Some settingsBtn /\
    tr = [Click (self settingsBtn)].
Proof.
  induction legends as [|legend rest IH]; cbn [V1.legend_loop]; [discriminate|].
  intros H.
  assert (R : V1.legend_loop rest = Some tr ->
              exists legend0 titleSpan settingsBtn,
                In legend0 (legend :: rest) /\
                querySelector legend0 [[AttrHas "class" "title"]] = Some titleSpan /\
                includes (textContent (self titleSpan)) (V1.indicatorName V1.CONFIG) = true /\
                querySelector legend0 [[AttrIs "data-name" "legend-settings-action"]]
                  = Some settingsBtn /\
                tr = [Click (self settingsBtn)]).
  { intros H'. destruct (IH H') as (l0 & t0 & b0 & I & Q).
    exists l0, t0, b0. split; [right; exact I | exact Q]. }
  destruct (querySelector legend [[AttrHas "class" "title"]]) as [titleSpan|] eqn:QT;
    [|exact (R H)].
  destruct (includes (textContent (self titleSpan)) (V1.indicatorName V1.CONFIG)) eqn:INC;
    [|exact (R H)].
  destruct (querySelector legend [[AttrIs "data-name" "legend-settings-action"]])
    as [settingsBtn|] eqn:QB; [|exact (R H)].
  injection H as <-. exists legend, titleSpan, settingsBtn.
  repeat split; try assumption. left. reflexivity.
Qed.

Lemma V1_item_loop_sound items tr :
  V1.item_loop items = Some tr ->
  exists item settingsBtn,
    In item items /\
    includes (textContent (self item)) (V1.indicatorName V1.CONFIG) = true /\
    querySelector item [[AttrHas "class" "button"]] = Some settingsBtn /\
    tr = [Click (self settingsBtn)].
Proof.
  induction items as [|item rest IH]; cbn [V1.item_loop]; [discriminate|].
  intros H.
  assert (R : V1.item_loop rest = Some tr ->
              exists item0 settingsBtn,
                In item0 (item :: rest) /\
                includes (textContent (self item0)) (V1.indicatorName V1.CONFIG) = true /\
                querySelector item0 [[AttrHas "class" "button"]] = Some settingsBtn /\
                tr = [Click (self settingsBtn)]).
  { intros H'. destruct (IH H') as (i0 & b0 & I & Q).
    exists i0, b0. split; [right; exact I | exact Q]. }
  destruct (includes (textContent (self item)) (V1.indicatorName V1.CONFIG)) eqn:INC;
    [|exact (R H)].
  destruct (querySelector item [[AttrHas "class" "button"]]) as [settingsBtn|] eqn:QB;
    [|exact (R H)].
  injection H as <-. exists item, settingsBtn.
  repeat split; try assumption. left. reflexivity.
Qed.

(** X7.  [findIndicatorSettings] of v1.0 clicks at most one element, and
    only when it returns [true]; what it clicks then lies inside an element
    of the page that also holds a label showing the configured indicator
    name. *)
Theorem V1_locate_clicks_inside_named_entry (doc : node) :
  match V1.findIndicatorSettings doc with
  | (false, tr) => tr = []
  | (true, tr) =>
      exists holder label settingsBtn,
        tr = [Click settingsBtn] /\
        In holder (elements doc) /\
        In label (elements holder) /\
        includes (textContent label) (V1.indicatorName V1.CONFIG) = true /\
        In settingsBtn (elements holder)
  end.
Proof.
  unfold V1.findIndicatorSettings.
  destruct (V1.legend_loop _) as [tr|] eqn:L.
  - apply V1_legend_loop_sound in L.
    destruct L as (legend & titleSpan & settingsBtn & I & QT & INC & QB & ->).
    exists (self legend), (self titleSpan), (self settingsBtn).
    repeat split; try assumption.
    + apply (docQuerySelectorAll_elements _ _ _ I).
    + apply (querySelector_elements _ _ _ QT).
    + apply (querySelector_elements _ _ _ QB).
  - destruct (V1.item_loop _) as [tr|] eqn:I; [|reflexivity].
    apply V1_item_loop_sound in I.
    destruct I as (item & settingsBtn & I & INC & QB & ->).
    exists (self item), (self item), (self settingsBtn).
    repeat split; try assumption.
    + apply (docQuerySelectorAll_elements _ _ _ I).
    + apply (docQuerySelectorAll_self_elem _ _ _ I).
    + apply (querySelector_elements _ _ _ QB).
Qed.

(** X8.  The search of v2.0 over the legend items either runs out without a
    click and returns [false], or clicks exactly one settings button and
    sleeps: the button lies in a legend item whose title, in lower case,
    contains "options", every item before it was passed over, and only the
    items after it are left to visit. *)
Theorem V2_search_clicks_inside_options_entry (items : list node) :
  match V2.updateIndicatorSettings_search items with
  | (V2.Returned updated, tr) => updated = false /\ tr = []
  | (V2.SleepingForDialog rest, tr) =>
      exists passed item title settingsBtn,
        items = passed ++ item :: rest /\
        tr = [Click (self settingsBtn)] /\
        querySelector (at_root item) [[AttrHas "class" "title"]] = Some title /\
        includes (toLowerCase (textContent (self title))) "options" = true /\
        In (self settingsBtn) (elements item)
  | (V2.SleepingForOk _ _, _) => False
  end.
Proof.
  unfold V2.updateIndicatorSettings_search.
  destruct (V2.legend_loop items) as [[tr rest]|] eqn:L; [|split; reflexivity].
  revert L. induction items as [|item items IH]; simpl; [discriminate|].
  intros L.
  assert (R : V2.legend_loop items = Some (tr, rest) ->
              exists passed item0 title settingsBtn,
                item :: items = passed ++ item0 :: rest /\
                tr = [Click (self settingsBtn)] /\
                querySelector (at_root item0) [[AttrHas "class" "title"]] = Some title /\
                includes (toLowerCase (textContent (self title))) "options" = true /\
                In (self settingsBtn) (elements item0)).
  { intros L'. destruct (IH L') as (passed & i0 & t0 & b0 & -> & Q).
    exists (item :: passed), i0, t0, b0. split; [reflexivity | exact Q]. }
  destruct (querySelector (at_root item) [[AttrHas "class" "title"]]) as [title|] eqn:QT;
    [|exact (R L)].
  destruct (includes (toLowerCase (textContent (self title))) "options") eqn:INC;
    [|exact (R L)].
  destruct (querySelector (at_root item) [[AttrIs "data-name" "legend-settings-action"]])
    as [settingsBtn|] eqn:QB; [|exact (R L)].
  injection L as <- <-. exists [], item, title, settingsBtn.
  repeat split; try assumption.
  apply (querySelector_elements _ _ _ QB).
Qed.

Lemma V1_targetTextarea_in textareas ta :
  V1.targetTextarea textareas = Some ta -> In ta textareas.
Proof.
  unfold V1.targetTextarea, or_else.
  destruct (find V1.labelled textareas) as [t|] eqn:F.
  - intros E. injection E as <-. apply (find_some _ _ F).
  - destruct textareas as [|t rest]; [discriminate|].
    intros E. injection E as <-. left. reflexivity.
Qed.

(** X9.  [updateIndicatorInput] of v1.0 either returns [false], and has then
    touched nothing on the page, or has written the fetched data into one
    textarea of the dialog it found and raised [input] and then [change] on
    it, before anything else it does. *)
Theorem V1_updateIndicatorInput_writes_or_leaves (data : string) (w500 w300 : wake) :
  match V1.updateIndicatorInput data w500 w300 with
  | (false, tr) => ui_untouched tr
  | (true, tr) =>
      exists dialog ta rest,
        V1.find_dialog (document w500) = Some dialog /\
        In ta (querySelectorAll dialog [[ByTag "textarea"]]) /\
        tr = SetValue (self ta) [Str data] :: Dispatch (self ta) "input" ::
             Dispatch (self ta) "change" :: rest
  end.
Proof.
  unfold V1.updateIndicatorInput, V1.updateIndicatorInput_dialog.
  destruct (V1.find_dialog (document w500)) as [dialog|]; [|reflexivity].
  destruct (V1.targetTextarea _) as [ta|] eqn:T; [|reflexivity].
  apply V1_targetTextarea_in in T.
  destruct (V1.autoClickApply V1.CONFIG).
  - pose proof (V1_updateIndicatorInput_apply_true (live w300 (self dialog))) as A.
    destruct (V1.updateIndicatorInput_apply _) as [updated tr']. simpl in A. subst updated.
    exists dialog, ta. eexists. split; [reflexivity | split; [exact T | reflexivity]].
  - exists dialog, ta. eexists. split; [reflexivity | split; [exact T | reflexivity]].
Qed.

Lemma V1_button_loop_is_find buttons :
  V1.button_loop buttons =
  option_map
    (fun btn => [Click (self btn); Log "Options Levels: Settings applied" []])
    (find (fun btn => includes (textContent (self btn)) "OK") buttons).
Proof.
  induction buttons as [|btn rest IH]; [reflexivity|].
  cbn [V1.button_loop find]. rewrite IH.
  destruct (includes (textContent (self btn)) "OK"); [|destruct (_ || _); reflexivity].
  rewrite orb_true_l. reflexivity.
Qed.

(** X10.  The confirm step of v1.0: the first button of the dialog whose
    text contains "OK" is clicked, or else, when no button does, the submit
    button if there is one.  The tests for "Apply" and "Defaults" in the
    loop never decide anything: no button is clicked for containing them. *)
Theorem V1_confirm_clicks_ok_or_submit (dialog : node) :
  V1.updateIndicatorInput_apply dialog =
  match find (fun btn => includes (textContent (self btn)) "OK")
          (querySelectorAll (at_root dialog) [[ByTag "button"]]) with
  | Some btn => (true, [Click (self btn); Log "Options Levels: Settings applied" []])
  | None =>
      match querySelector (at_root dialog) [[AttrIs "data-name" "submit-button"]] with
      | Some submitBtn => (true, [Click (self submitBtn)])
      | None => (true, [])
      end
  end.
Proof.
  unfold V1.updateIndicatorInput_apply. rewrite V1_button_loop_is_find.
  destruct (find _ _); reflexivity.
Qed.

(** ** How much a cycle can do to the page *)

Lemma ui_count_app tr1 tr2 : ui_count (tr1 ++ tr2) = ui_count tr1 + ui_count tr2.
Proof. unfold ui_count. rewrite filter_app, length_app. reflexivity. Qed.

Lemma ui_untouched_count tr : ui_untouched tr -> ui_count tr = 0.
Proof.
  unfold ui_untouched, ui_count. induction tr as [|e tr IH]; [reflexivity|].
  simpl. destruct (is_ui e); simpl; [discriminate | exact IH].
Qed.

Lemma V1_updateStatus_count w txt isError : ui_count (V1.updateStatus w txt isError) = 0.
Proof. apply ui_untouched_count, V1_updateStatus_ui. Qed.

Lemma V1_on_error_count c w e : ui_count (snd (V1.on_error c w e)) = 0.
Proof.
  unfold V1.on_error. cbn [snd]. change (LogError ?m e :: ?l) with ([LogError m e] ++ l).
  rewrite ui_count_app, V1_updateStatus_count. reflexivity.
Qed.

Lemma V1_after_update_count c w data updated :
  ui_count (snd (V1.after_update c w data updated)) = 0.
Proof.
  unfold V1.after_update. cbn [snd]. destruct updated.
  - rewrite ui_count_app, V1_updateStatus_count.
    destruct (V1.showNotifications V1.CONFIG); reflexivity.
  - apply V1_updateStatus_count.
Qed.

Lemma V1_locate_count doc : ui_count (snd (V1.findIndicatorSettings doc)) <= 1.
Proof.
  pose proof (V1_locate_clicks_inside_named_entry doc) as H.
  destruct (V1.findIndicatorSettings doc) as [[|] tr]; cbn [snd].
  - destruct H as (? & ? & ? & -> & _). unfold ui_count. simpl. lia.
  - subst tr. unfold ui_count. simpl. lia.
Qed.

Lemma V1_apply_count dialog : ui_count (snd (V1.updateIndicatorInput_apply dialog)) <= 1.
Proof.
  rewrite V1_confirm_clicks_ok_or_submit.
  destruct (find _ _); [unfold ui_count; simpl; lia|].
  destruct (querySelector _ _); unfold ui_count; simpl; lia.
Qed.

(** Each stretch of v1.0 spends from the budget what it does to the page. *)
Lemma V1_resume_budget c p ev :
  ui_count (snd (V1.resume c p ev)) + v1_budget (snd (fst (V1.resume c p ev))) <= v1_budget p.
Proof.
  destruct p as [|data|data dialog|], ev as [r w|w]; unfold V1.resume; cbv iota beta;
    try (cbn [fst snd v1_budget ui_count filter length]; lia).
  - destruct (V1.fetchData r) as [data|e];
      [|rewrite V1_on_error_count; unfold V1.on_error; simpl; lia].
    unfold V1.fetched_step, V1.propagate.
    destruct (String.eqb _ _); [cbn [fst snd v1_budget]; rewrite V1_updateStatus_count; lia|].
    destruct (fault w); [rewrite V1_on_error_count; unfold V1.on_error; simpl; lia|].
    pose proof (V1_locate_count (document w)) as L.
    destruct (V1.findIndicatorSettings _) as [[|] tr]; cbn [fst snd v1_budget] in *; [lia|].
    rewrite !ui_count_app, V1_updateStatus_count. unfold ui_count at 2. simpl. lia.
  - destruct (fault w); [rewrite V1_on_error_count; unfold V1.on_error; simpl; lia|].
    unfold V1.dialog_step, V1.updateIndicatorInput_dialog.
    destruct (V1.find_dialog _);
      [|rewrite V1_add_trace_trace, V1_add_trace_pc, ui_count_app, V1_after_update_count;
        unfold ui_count; simpl; lia].
    destruct (V1.targetTextarea _);
      [|rewrite V1_add_trace_trace, V1_add_trace_pc, ui_count_app, V1_after_update_count;
        unfold ui_count; simpl; lia].
    destruct (V1.autoClickApply V1.CONFIG); [unfold ui_count; simpl; lia|].
    rewrite V1_add_trace_trace, V1_add_trace_pc, ui_count_app, V1_after_update_count.
    unfold ui_count; simpl; lia.
  - destruct (fault w); [rewrite V1_on_error_count; unfold V1.on_error; simpl; lia|].
    pose proof (V1_apply_count (live w dialog)) as A.
    destruct (V1.updateIndicatorInput_apply _) as [updated tr]. cbn [snd] in A.
    rewrite V1_add_trace_trace, V1_add_trace_pc, ui_count_app, V1_after_update_count.
    unfold V1.after_update. simpl. lia.
Qed.

Lemma V1_continue_budget r ev :
  ui_count (snd (V1.continue r ev)) + v1_budget (snd (fst (V1.continue r ev))) <=
  ui_count (snd r) + v1_budget (snd (fst r)).
Proof.
  destruct r as [[c p] tr]. unfold V1.continue. cbn [fst snd].
  rewrite V1_add_trace_trace, V1_add_trace_pc, ui_count_app.
  pose proof (V1_resume_budget c p ev). lia.
Qed.

(** X11.  Whatever the page and the ledger, one cycle of v1.0 does at most
    five things to the page: a click on the settings action, a value and two
    events on one textarea, and a click on a confirm button. *)
Theorem V1_cycle_touches_page_at_most_5_times (c : V1.client) (s : V1.script) :
  ui_count (snd (V1.fetchAndUpdate c s)) <= 5.
Proof.
  unfold V1.fetchAndUpdate.
  set (r0 := V1.invoke c (V1.at_start s)).
  assert (H0 : ui_count (snd r0) + v1_budget (snd (fst r0)) <= 5).
  { subst r0. unfold V1.invoke. destruct (V1.isUpdating c); cbn [fst snd v1_budget].
    - unfold ui_count. simpl. lia.
    - rewrite ui_count_app, V1_updateStatus_count. unfold ui_count. simpl. lia. }
  pose proof (V1_continue_budget r0 (Settled (V1.reply s) (V1.at_reply s))) as H1.
  set (r1 := V1.continue r0 _) in *.
  pose proof (V1_continue_budget r1 (Woke (V1.at_dialog s))) as H2.
  set (r2 := V1.continue r1 _) in *.
  pose proof (V1_continue_budget r2 (Woke (V1.at_apply s))) as H3.
  lia.
Qed.

Lemma click_count_app tr1 tr2 : click_count (tr1 ++ tr2) = click_count tr1 + click_count tr2.
Proof. unfold click_count. rewrite filter_app, length_app. reflexivity. Qed.

Lemma V2_setStatus_clicks w txt isError : click_count (V2.setStatus w txt isError) = 0.
Proof.
  unfold V2.setStatus, V2.with_element. destruct (getElementById _ _); reflexivity.
Qed.

Lemma V2_updateStatusPanel_clicks c w : click_count (V2.updateStatusPanel c w) = 0.
Proof.
  unfold V2.updateStatusPanel, V2.with_element. rewrite !click_count_app.
  repeat destruct (getElementById _ _); reflexivity.
Qed.

Lemma V2_fill_inputs_clicks r s inputs : click_count (V2.fill_inputs r s inputs) = 0.
Proof.
  unfold V2.fill_inputs. induction inputs as [|input inputs IH]; [reflexivity|].
  simpl. rewrite click_count_app, IH.
  unfold V2.fill_input, V2.setInputValue. step_cases ltac:(reflexivity).
Qed.

Lemma V2_after_update_clicks c d updated :
  click_count (snd (V2.after_update c d updated)) = 0.
Proof.
  unfold V2.after_update. cbn [snd].
  destruct (V2.showNotifications V2.CONFIG && updated); reflexivity.
Qed.

Lemma V2_on_error_clicks c w e : click_count (snd (V2.on_error c w e)) = 0.
Proof.
  unfold V2.on_error. cbn [snd]. change (LogError ?m e :: ?l) with ([LogError m e] ++ l).
  rewrite click_count_app, V2_setStatus_clicks. reflexivity.
Qed.

Lemma V2_search_click_budget c d items :
  click_count (snd (V2.search c d items)) + v2_click_budget (snd (fst (V2.search c d items)))
  <= 2 * length items.
Proof.
  unfold V2.search, V2.driven, V2.updateIndicatorSettings_search.
  destruct (V2.legend_loop items) as [[tr rest]|] eqn:L.
  - pose proof (V2_legend_loop_rest _ _ _ L) as R.
    pose proof (V2_search_clicks_inside_options_entry items) as S.
    unfold V2.updateIndicatorSettings_search in S. rewrite L in S.
    destruct S as (? & ? & ? & btn & _ & -> & _).
    cbn [fst snd v2_click_budget]. unfold click_count. simpl. lia.
  - rewrite V2_add_trace_trace, V2_add_trace_pc, click_count_app, V2_after_update_clicks.
    unfold V2.after_update. cbn [fst snd v2_click_budget]. unfold click_count. simpl. lia.
Qed.

(** Each stretch of v2.0 past the reply spends its clicks from the budget. *)
Lemma V2_resume_click_budget c p ev :
  p <> V2.AwaitFetch ->
  click_count (snd (V2.resume c p ev)) + v2_click_budget (snd (fst (V2.resume c p ev)))
  <= v2_click_budget p.
Proof.
  intros NF.
  destruct p as [|d rest|d dialog rest|], ev as [r w|w]; try congruence;
    unfold V2.resume; cbv iota beta;
    try (cbn [fst snd v2_click_budget click_count filter length]; lia).
  - destruct (fault w);
      [rewrite V2_on_error_clicks; unfold V2.on_error; cbn [fst snd v2_click_budget]; lia|].
    unfold V2.dialog_step, V2.updateIndicatorSettings_dialog.
    destruct (docQuerySelector _ _).
    + cbn [V2.driven fst snd v2_click_budget]. rewrite V2_fill_inputs_clicks, length_map. lia.
    + pose proof (V2_search_click_budget c d (map (live w) rest)) as S.
      unfold V2.search in S. rewrite length_map in S. cbn [v2_click_budget]. lia.
  - destruct (fault w);
      [rewrite V2_on_error_clicks; unfold V2.on_error; cbn [fst snd v2_click_budget]; lia|].
    unfold V2.ok_step, V2.updateIndicatorSettings_ok.
    destruct (querySelector _ _).
    + cbn [V2.driven]. rewrite V2_add_trace_trace, V2_add_trace_pc, click_count_app,
        V2_after_update_clicks.
      unfold V2.after_update. cbn [fst snd v2_click_budget]. unfold click_count. simpl. lia.
    + pose proof (V2_search_click_budget c d (map (live w) rest)) as S.
      unfold V2.search in S. rewrite length_map in S. cbn [v2_click_budget]. lia.
Qed.

Lemma V2_run_click_budget evs : forall r,
  snd (fst r) <> V2.AwaitFetch ->
  click_count (snd (fold_left V2.continue evs r)) <=
  click_count (snd r) + v2_click_budget (snd (fst r)).
Proof.
  induction evs as [|ev evs IH]; intros [[c p] tr] NF; cbn [fold_left fst snd] in *; [lia|].
  assert (NF' : snd (fst (V2.continue (c, p, tr) ev)) <> V2.AwaitFetch).
  { unfold V2.continue. rewrite V2_add_trace_pc. intros E.
    apply V2_resume_not_fetch in E. contradiction. }
  specialize (IH _ NF').
  assert (T : snd (V2.continue (c, p, tr) ev) = tr ++ snd (V2.resume c p ev))
    by (unfold V2.continue; apply V2_add_trace_trace).
  assert (P : snd (fst (V2.continue (c, p, tr) ev)) = snd (fst (V2.resume c p ev)))
    by (unfold V2.continue; apply V2_add_trace_pc).
  rewrite T, P, click_count_app in IH.
  pose proof (V2_resume_click_budget c p ev NF). lia.
Qed.

(** X12.  One cycle of v2.0 clicks at most twice for every legend item that
    is on the chart when the reply arrives (its settings action and the
    submit button of the dialog), whatever the page does afterwards and
    whatever events reach the task. *)
Theorem V2_cycle_clicks_at_most_twice_per_legend_item
  (c : V2.client) (w w1 : wake) (r : response) (evs : list event) :
  click_count (snd (V2.fetchAndUpdate c w (Settled r w1 :: evs))) <=
  2 * length (docQuerySelectorAll (document w1) [[AttrIs "data-name" "legend-source-item"]]).
Proof.
  unfold V2.fetchAndUpdate, V2.invoke. destruct (V2.state.isUpdating c).
  - rewrite V2_finished_stays. unfold click_count. simpl. lia.
  - cbn [fold_left].
    set (r1 := V2.continue _ (Settled r w1)).
    assert (H : click_count (snd r1) + v2_click_budget (snd (fst r1)) <=
                2 * length (docQuerySelectorAll (document w1)
                              [[AttrIs "data-name" "legend-source-item"]]) /\
                snd (fst r1) <> V2.AwaitFetch).
    { subst r1. unfold V2.continue.
      rewrite V2_add_trace_trace, V2_add_trace_pc, click_count_app, click_count_app,
        V2_setStatus_clicks.
      split; [|apply V2_settled_not_fetch].
      unfold V2.resume. destruct (V2.fetchData r) as [d|e];
        [|rewrite V2_on_error_clicks; unfold V2.on_error, click_count; simpl; lia].
      unfold V2.fetched_step, V2.propagate. destruct (V2.changed d _);
        [|cbn [fst snd v2_click_budget]; rewrite V2_setStatus_clicks;
          unfold click_count; simpl; lia].
      rewrite V2_add_trace_trace, V2_add_trace_pc, click_count_app,
        V2_updateStatusPanel_clicks.
      destruct (fault w1);
        [rewrite V2_on_error_clicks; unfold V2.on_error, click_count; simpl; lia|].
      match goal with
      | |- context [V2.search ?c0 d ?l] => pose proof (V2_search_click_budget c0 d l) as S
      end.
      rewrite length_map in S. unfold click_count at 1. simpl. lia. }
    destruct H as [H NF]. pose proof (V2_run_click_budget evs r1 NF). lia.
Qed.

(** ** A record that parsed is applied once *)

Lemma strict_eq_refl x : x <> NaN -> strict_eq x x = true.
Proof.
  destruct x as [|b| |q]; intros N; [contradiction | destruct b; reflexivity | reflexivity|].
  simpl. apply Qeq_bool_iff. reflexivity.
Qed.

(** X13.  v2.0: when the levels of the fetched record are numbers, a second
    poll that fetches the same record after the first has returned finds no
    difference: it reports "No changes", leaves the state as the first poll
    left it and does not go near the page, whether or not the first poll
    managed to update the indicator. *)
Theorem V2_parsed_record_is_applied_once
  (c : V2.client) (w w1 w' w1' : wake) (r : response) (d : V2.data.t) (evs evs' : list event) :
  V2.state.isUpdating c = false ->
  V2.fetchData r = inl d ->
  V2.data.resistance d <> NaN ->
  V2.data.support d <> NaN ->
  snd (fst (V2.fetchAndUpdate c w (Settled r w1 :: evs))) = V2.Finished ->
  let c' := fst (fst (V2.fetchAndUpdate c w (Settled r w1 :: evs))) in
  V2.fetchAndUpdate c' w' (Settled r w1' :: evs') =
    (c', V2.Finished,
     V2.setStatus w' "Updating..." false ++ [V2.fetch_request w'] ++
     V2.setStatus w1' "No changes" false).
Proof.
  intros B F NR NS FIN c'.
  assert (B' : V2.state.isUpdating c' = false).
  { apply V2_fetchAndUpdate_guard; assumption. }
  assert (CH : V2.changed d c' = false).
  { unfold V2.changed, strict_ne.
    assert (L : V2.state.resistance c' = V2.data.resistance d /\
                V2.state.support c' = V2.data.support d \/
                V2.changed d c' = false).
    { subst c'. unfold V2.fetchAndUpdate. rewrite (V2_invoke_idle _ _ B). cbn [fold_left].
      set (x := V2.continue _ (Settled r w1)).
      assert (X : fst (fst x) = fst (fst (V2.fetched_step (V2.set_isUpdating c true) w1 d)) /\
                  snd (fst x) <> V2.AwaitFetch).
      { subst x. unfold V2.continue, V2.resume. rewrite F.
        rewrite V2_add_trace_client, V2_add_trace_pc. split; [reflexivity|].
        pose proof (V2_settled_not_fetch (V2.set_isUpdating c true) r w1) as N.
        unfold V2.resume in N. rewrite F in N. exact N. }
      destruct X as [X N]. destruct (V2_run_levels evs x N) as [R S].
      destruct (V2.changed d (V2.set_isUpdating c true)) eqn:C.
      - left. rewrite R, S, X. apply V2_fetched_levels. exact C.
      - right. unfold V2.changed. rewrite R, S, X.
        unfold V2.fetched_step. rewrite C. exact C. }
    destruct L as [[-> ->] | L]; [|exact L].
    rewrite (strict_eq_refl _ NR), (strict_eq_refl _ NS). reflexivity. }
  unfold V2.fetchAndUpdate. rewrite (V2_invoke_idle _ _ B'). cbn [fold_left].
  unfold V2.continue at 2. unfold V2.resume. rewrite F.
  unfold V2.fetched_step.
  replace (V2.changed d (V2.set_isUpdating c' true)) with false by (symmetry; exact CH).
  cbn [V2.add_trace]. rewrite V2_finished_stays.
  destruct c' as [rs sp lu b]. simpl in B'. subst b. unfold V2.set_isUpdating. simpl.
  rewrite <- !app_assoc. reflexivity.
Qed.

Lemma V2_parsed_record_is_applied_once_witness :
  let w := Sample.wake_at 1000 Sample.page_without_indicator in
  let r := Loaded 200 Sample.ledger1 in
  let c' := fst (fst (V2.fetchAndUpdate V2.initial w [Settled r w])) in
  V2.fetchAndUpdate c' w [Settled r w] =
    (c', V2.Finished,
     V2.setStatus w "Updating..." false ++ [V2.fetch_request w] ++
     V2.setStatus w "No changes" false).
Proof.
  intros w r.
  apply (V2_parsed_record_is_applied_once V2.initial w w w w r
           (V2.data.Make "18/12/2024" (Finite (inject_Z 98500)) (Finite (inject_Z 95200)))
           [] []).
  - reflexivity.
  - reflexivity.
  - discriminate.
  - discriminate.
  - reflexivity.
Defined.

(** ** A cycle that succeeds *)

(** X14.  v1.0, when everything is found: the ledger has new data, the
    indicator is in the legend, the dialog has opened after the first sleep
    and holds a textarea.  The cycle then does, in this order: shows
    "Updating...", sends the request, clicks the settings action, writes the
    data into the textarea and raises [input] and [change], runs the confirm
    step, shows "Updated" and sends the notification; it ends with the guard
    clear and the data remembered. *)
Theorem V1_successful_cycle
  (c : V1.client) (s : V1.script) (data : string) (tr1 : list effect) (dialog ta : loc) :
  V1.isUpdating c = false ->
  V1.fetchData (V1.reply s) = inl data ->
  data <> V1.lastData c ->
  fault (V1.at_reply s) = None ->
  fault (V1.at_dialog s) = None ->
  fault (V1.at_apply s) = None ->
  V1.findIndicatorSettings (document (V1.at_reply s)) = (true, tr1) ->
  V1.find_dialog (document (V1.at_dialog s)) = Some dialog ->
  V1.targetTextarea (querySelectorAll dialog [[ByTag "textarea"]]) = Some ta ->
  V1.fetchAndUpdate c s =
    (V1.Client data false, V1.Finished,
     V1.updateStatus (V1.at_start s) "Updating..." false ++
     [V1.fetch_request (V1.at_start s)] ++
     tr1 ++
     [SetValue (self ta) [Str data]; Dispatch (self ta) "input"; Dispatch (self ta) "change";
      Log "Options Levels: Data updated in textarea" []] ++
     snd (V1.updateIndicatorInput_apply (live (V1.at_apply s) (self dialog))) ++
     V1.updateStatus (V1.at_apply s) "Options Levels: Updated ✓" false ++
     [Notify "Options Levels Updated"
        [Str ("New data loaded: " ++ substring 0 50 (last_item (split LF data)))] 3000]).
Proof.
  intros B F D T1 T2 T3 L FD TT.
  unfold V1.fetchAndUpdate. rewrite (V1_invoke_idle _ _ B).
  unfold V1.continue at 3. unfold V1.resume at 1. rewrite F.
  unfold V1.fetched_step, V1.propagate.
  destruct (String.eqb_spec data (V1.lastData (V1.set_isUpdating c true))) as [E|_];
    [contradiction|].
  rewrite T1, L. cbn [V1.add_trace].
  unfold V1.continue at 2. unfold V1.resume at 1. rewrite T2.
  unfold V1.dialog_step, V1.updateIndicatorInput_dialog. rewrite FD, TT.
  change (V1.autoClickApply V1.CONFIG) with true. cbv iota. cbn [V1.add_trace].
  unfold V1.continue. unfold V1.resume. rewrite T3.
  pose proof (V1_updateIndicatorInput_apply_true (live (V1.at_apply s) (self dialog))) as A.
  destruct (V1.updateIndicatorInput_apply _) as [updated tr3]. cbn [fst snd] in *. subst updated.
  unfold V1.after_update. change (V1.showNotifications V1.CONFIG) with true. cbv iota.
  cbn [V1.add_trace]. unfold V1.set_isUpdating, V1.set_lastData. cbn [V1.lastData V1.isUpdating].
  rewrite <- !app_assoc. reflexivity.
Qed.

Lemma V1_successful_cycle_witness :
  let s := Sample.cycle Sample.ledger1 Sample.page_with_tracker Sample.page_dialog_open in
  fst (fst (V1.fetchAndUpdate V1.initial s)) = V1.Client Sample.day1 false /\
  filter is_ui (snd (V1.fetchAndUpdate V1.initial s)) =
    [Click Sample.settings_button;
     SetValue Sample.data_textarea [Str Sample.day1];
     Dispatch Sample.data_textarea "input";
     Dispatch Sample.data_textarea "change";
     Click Sample.submit_button].
Proof.
  intros s.
  pose proof (V1_successful_cycle V1.initial s Sample.day1 [Click Sample.settings_button]
    (Loc (Sample.paste_dialog [Sample.submit_button])
       [Elem "body" [] [Sample.legend "Options Levels Tracker";
                        Sample.paste_dialog [Sample.submit_button];
                        Sample.status_indicator; Sample.status_panel];
        Sample.page_dialog_open])
    (Loc Sample.data_textarea
       [Elem "div" [("class", "cell-tBgV1m0B")] [Text "PASTE DATA"; Sample.data_textarea];
        Sample.paste_dialog [Sample.submit_button];
        Elem "body" [] [Sample.legend "Options Levels Tracker";
                        Sample.paste_dialog [Sample.submit_button];
                        Sample.status_indicator; Sample.status_panel];
        Sample.page_dialog_open])
    eq_refl eq_refl ltac:(discriminate) eq_refl eq_refl eq_refl eq_refl eq_refl eq_refl) as E.
  rewrite E. split; reflexivity.
Defined.

(** X15.  v2.0, when everything is found: the record has changed, the search
    clicks a settings action, the dialog is there after the first sleep and
    its submit button after the second.  The cycle then does, in this order:
    shows "Updating...", sends the request, stores the levels and the time and
    shows them on the panel, clicks the settings action, fills the inputs,
    clicks the submit button, sends the notification and logs the record; it
    ends with the guard clear. *)
Theorem V2_successful_cycle
  (c : V2.client) (w w1 w2 w3 : wake) (r : response) (d : V2.data.t)
  (rest : list node) (tr1 : list effect) (dialog okBtn : loc) :
  V2.state.isUpdating c = false ->
  V2.fetchData r = inl d ->
  V2.changed d c = true ->
  fault w1 = None -> fault w2 = None -> fault w3 = None ->
  V2.updateIndicatorSettings_search
    (map self (docQuerySelectorAll (document w1) [[AttrIs "data-name" "legend-source-item"]]))
    = (V2.SleepingForDialog rest, tr1) ->
  docQuerySelector (document w2) [[AttrIs "data-dialog-name" "indicator-properties-dialog"]]
    = Some dialog ->
  querySelector (at_root (live w3 (self dialog))) [[AttrIs "data-name" "submit-button"]]
    = Some okBtn ->
  V2.fetchAndUpdate c w [Settled r w1; Woke w2; Woke w3] =
    (V2.state.Make (V2.data.resistance d) (V2.data.support d) (Some (now w1)) false,
     V2.Finished,
     V2.setStatus w "Updating..." false ++ [V2.fetch_request w] ++
     V2.updateStatusPanel (V2.store c d (now w1)) w1 ++
     tr1 ++
     V2.fill_inputs (V2.data.resistance d) (V2.data.support d)
       (querySelectorAll dialog V2.input_selector) ++
     [Click (self okBtn);
      Notify "Options Levels Updated"
        [Str "R: $"; NumLocale (V2.data.resistance d); Str " | S: $";
         NumLocale (V2.data.support d)] 3000;
      Log "Options Levels updated:"
        [Str (V2.data.date d); NumString (V2.data.resistance d);
         NumString (V2.data.support d)]]).
Proof.
  intros B F C T1 T2 T3 S FD OK.
  unfold V2.fetchAndUpdate. rewrite (V2_invoke_idle _ _ B). cbn [fold_left].
  unfold V2.continue at 3. unfold V2.resume at 1. rewrite F.
  unfold V2.fetched_step.
  replace (V2.changed d (V2.set_isUpdating c true)) with true by (symmetry; exact C).
  unfold V2.propagate. rewrite T1. unfold V2.search. rewrite S.
  cbn [V2.driven V2.add_trace].
  unfold V2.continue at 2. unfold V2.resume at 1. rewrite T2.
  unfold V2.dialog_step, V2.updateIndicatorSettings_dialog. rewrite FD.
  cbn [V2.driven V2.add_trace].
  unfold V2.continue. unfold V2.resume. rewrite T3.
  unfold V2.ok_step, V2.updateIndicatorSettings_ok. rewrite OK.
  cbn [V2.driven]. unfold V2.after_update.
  change (V2.showNotifications V2.CONFIG) with true. cbn [andb V2.add_trace].
  unfold V2.set_isUpdating, V2.store. cbn [V2.state.resistance V2.state.support
    V2.state.lastUpdate V2.state.isUpdating].
  rewrite <- !app_assoc. reflexivity.
Qed.

Lemma V2_successful_cycle_witness :
  let w := Sample.wake_at 1200 Sample.page_levels_open in
  let run := V2.fetchAndUpdate V2.initial w
               [Settled (Loaded 200 Sample.ledger1) w; Woke w; Woke w] in
  fst (fst run) =
    V2.state.Make (Finite (inject_Z 98500)) (Finite (inject_Z 95200)) (Some 1200%N) false /\
  filter is_ui (snd run) =
    [Click Sample.settings_button;
     SetValue Sample.number_input [NumString (Finite (inject_Z 98500))];
     Dispatch Sample.number_input "input";
     Dispatch Sample.number_input "change";
     SetValue Sample.number_input [NumString (Finite (inject_Z 95200))];
     Dispatch Sample.number_input "input";
     Dispatch Sample.number_input "change";
     Click Sample.submit_button].
Proof.
  intros w run.
  set (dlg := Sample.levels_dialog
                [Sample.row "Resistance" Sample.number_input;
                 Sample.row "Support" Sample.number_input] [Sample.submit_button]).
  set (body := Elem "body" [] [Sample.legend "Options Levels"; dlg;
                               Sample.status_indicator; Sample.status_panel]).
  pose proof (V2_successful_cycle V2.initial w w w w (Loaded 200 Sample.ledger1)
    (V2.data.Make "18/12/2024" (Finite (inject_Z 98500)) (Finite (inject_Z 95200)))
    [] [Click Sample.settings_button]
    (Loc dlg [body; Sample.page_levels_open])
    (Loc Sample.submit_button [dlg])
    eq_refl eq_refl eq_refl eq_refl eq_refl eq_refl eq_refl eq_refl eq_refl) as E.
  unfold run. rewrite E. split; reflexivity.
Defined.

(** ** The status display on the page *)

Lemma matches1_shell a b s : shell a = shell b -> matches1 a s = matches1 b s.
Proof.
  destruct a as [x | t at1 cs], b as [y | t' at2 cs']; simpl; intros E;
    try discriminate; [reflexivity|].
  injection E as <- <-. destruct s; reflexivity.
Qed.

Lemma matches_shell sel a b : shell a = shell b -> matches sel a = matches sel b.
Proof.
  intros E. unfold matches. induction sel as [|c sel IH]; [reflexivity|].
  simpl. rewrite IH. f_equal.
  induction c as [|s c IHc]; [reflexivity|].
  simpl. rewrite IHc, (matches1_shell a b s E). reflexivity.
Qed.

Lemma filter_shells sel pre pre' :
  map shell pre' = map shell pre ->
  length (filter (matches sel) pre') = length (filter (matches sel) pre).
Proof.
  revert pre. induction pre' as [|a pre' IH]; intros [|b pre] E; try discriminate;
    [reflexivity|].
  simpl in E. injection E as Eab E. simpl.
  rewrite (matches_shell sel a b Eab). destruct (matches sel b); simpl; rewrite (IH _ E);
    reflexivity.
Qed.

Lemma filter_shells_id id pre pre' :
  map shell pre' = map shell pre ->
  length (filter (Build.has_id id) pre') = length (filter (Build.has_id id) pre).
Proof.
  intros E. pose proof (filter_shells [[AttrIs "id" id]] pre pre' E) as L.
  rewrite (filter_ext (Build.has_id id) (matches [[AttrIs "id" id]])) by reflexivity.
  rewrite (filter_ext (Build.has_id id) (matches [[AttrIs "id" id]]) (fun _ => eq_refl) pre).
  exact L.
Qed.

Lemma elements_app_child t a cs child :
  elements (Build.appendChild (Elem t a cs) child) =
  Elem t a (cs ++ [child]) :: flat_map elements cs ++ elements child.
Proof.
  simpl. rewrite elements_Elem, flat_map_app. simpl. rewrite app_nil_r. reflexivity.
Qed.

(** Appending puts the new elements after everything that stood before the
    end of the parent, and changes nothing a selector can see of the rest. *)
Lemma append_to_first_elements p cs child : forall cs',
  (forall s, p (Text s) = false) ->
  Build.append_to_first p cs child = Some cs' ->
  exists pre pre' post,
    flat_map elements cs = pre ++ post /\
    flat_map elements cs' = pre' ++ elements child ++ post /\
    map shell pre' = map shell pre.
Proof.
  induction cs as [|c cs IH]; intros cs' PT H; simpl in H; [discriminate|].
  destruct (p c) eqn:PC.
  - injection H as <-. destruct c as [x | t a bcs]; [rewrite PT in PC; discriminate|].
    exists (Elem t a bcs :: flat_map elements bcs),
           (Elem t a (bcs ++ [child]) :: flat_map elements bcs),
           (flat_map elements cs).
    cbn [flat_map]. rewrite elements_app_child, elements_Elem.
    split; [reflexivity|]. split; [|reflexivity].
    cbn [app]. rewrite <- !app_assoc. reflexivity.
  - destruct (Build.append_to_first p cs child) as [cs0|] eqn:A; [|discriminate].
    injection H as <-. destruct (IH cs0 PT eq_refl) as (pre & pre' & post & E1 & E2 & E3).
    exists (elements c ++ pre), (elements c ++ pre'), post.
    cbn [flat_map]. rewrite E1, E2, !map_app, E3.
    split; [apply app_assoc|]. split; [apply app_assoc | reflexivity].
Qed.

Lemma append_under_elements p doc child doc' :
  (forall s, p (Text s) = false) ->
  Build.append_under p doc child = Some doc' ->
  exists pre pre' post,
    elements doc = pre ++ post /\
    elements doc' = pre' ++ elements child ++ post /\
    map shell pre' = map shell pre.
Proof.
  intros PT H. destruct doc as [x | t a cs]; [discriminate|].
  unfold Build.append_under in H. destruct (String.eqb t "html"); [|discriminate].
  destruct (Build.append_to_first p cs child) as [cs'|] eqn:A; [|discriminate].
  injection H as <-.
  destruct (append_to_first_elements p cs child cs' PT A) as (pre & pre' & post & E1 & E2 & E3).
  exists (Elem t a cs :: pre), (Elem t a cs' :: pre'), post.
  rewrite !elements_Elem, E1, E2. cbn [map app shell]. rewrite E3.
  split; [reflexivity|]. split; reflexivity.
Qed.

Lemma is_body_text s : Build.is_body (Text s) = false.
Proof. reflexivity. Qed.

Lemma is_head_text s : Build.is_head (Text s) = false.
Proof. reflexivity. Qed.

Lemma count_after_append p doc child doc' id :
  (forall s, p (Text s) = false) ->
  Build.append_under p doc child = Some doc' ->
  count_id id doc' = count_id id doc + count_id id child.
Proof.
  intros PT H.
  destruct (append_under_elements p doc child doc' PT H) as (pre & pre' & post & E1 & E2 & E3).
  unfold count_id. rewrite E1, E2, !filter_app, !length_app.
  pose proof (filter_shells_id id _ _ E3). lia.
Qed.

Lemma selfs_filter sel l :
  map self (filter (fun d => matches sel (self d)) l) = filter (matches sel) (map self l).
Proof.
  induction l as [|d l IH]; [reflexivity|].
  simpl. destruct (matches sel (self d)); simpl; rewrite IH; reflexivity.
Qed.

Lemma getElementById_self doc id :
  option_map self (getElementById doc id) = hd_error (filter (Build.has_id id) (elements doc)).
Proof.
  unfold getElementById, docQuerySelector, docQuerySelectorAll, elements, Build.has_id.
  rewrite <- selfs_filter. destruct (filter _ (subtree [] doc)); reflexivity.
Qed.

(** On a page where no element has the id yet, the element with that id in
    what was appended is the one [getElementById] returns afterwards. *)
Lemma getElementById_appended p doc child doc' id :
  (forall s, p (Text s) = false) ->
  Build.append_under p doc child = Some doc' ->
  count_id id doc = 0 ->
  option_map self (getElementById doc' id) =
  hd_error (filter (Build.has_id id) (elements child)).
Proof.
  intros PT H Z.
  destruct (append_under_elements p doc child doc' PT H) as (pre & pre' & post & E1 & E2 & E3).
  rewrite getElementById_self, E2, !filter_app.
  unfold count_id in Z. rewrite E1, filter_app, length_app in Z.
  pose proof (filter_shells_id id _ _ E3) as L.
  assert (P' : filter (Build.has_id id) pre' = []).
  { destruct (filter (Build.has_id id) pre'); [reflexivity | simpl in L; lia]. }
  assert (PO : filter (Build.has_id id) post = []).
  { destruct (filter (Build.has_id id) post); [reflexivity | simpl in Z; lia]. }
  rewrite P', PO, app_nil_r. reflexivity.
Qed.

Lemma V1_with_element_self o k :
  V1.with_element o k = match option_map self o with Some n => k n | None => [] end.
Proof. destruct o; reflexivity. Qed.

(** X16.  v1.0: once [createStatusIndicator] has run on a page that has a
    body and held no element with the ids [status-dot], [status-text] and
    [status-details], every [updateStatus] reaches the indicator: it sets the
    colour of its dot, its text and its time. *)
Theorem V1_created_indicator_is_reached
  (style : string) (doc doc' : node) (w : wake) (txt : string) (isError : bool) :
  V1Build.createStatusIndicator style doc = Some doc' ->
  document w = doc' ->
  count_id "status-dot" doc = 0 ->
  count_id "status-text" doc = 0 ->
  count_id "status-details" doc = 0 ->
  V1.updateStatus w txt isError =
    [SetBackground V1Build.status_dot (if isError then "#f44336" else "#4caf50");
     SetText V1Build.status_text [Str txt];
     SetText V1Build.status_details [Str "Last update: "; TimeLocale (now w)]].
Proof.
  intros C D Z1 Z2 Z3. unfold V1.updateStatus. rewrite !V1_with_element_self, D.
  unfold V1Build.createStatusIndicator, Build.body_appendChild in C.
  rewrite (getElementById_appended _ _ _ _ "status-dot" is_body_text C Z1).
  rewrite (getElementById_appended _ _ _ _ "status-text" is_body_text C Z2).
  rewrite (getElementById_appended _ _ _ _ "status-details" is_body_text C Z3).
  reflexivity.
Qed.

Lemma V1_created_indicator_witness :
  let doc := Elem "html" [] [Elem "head" [] []; Elem "body" [] [Sample.legend "Vol 20"]] in
  let doc' := Elem "html" []
                [Elem "head" [] [];
                 Elem "body" [] [Sample.legend "Vol 20"; V1Build.indicator "position: fixed;"]] in
  V1Build.createStatusIndicator "position: fixed;" doc = Some doc' /\
  V1.updateStatus (Sample.wake_at 1000 doc') "Updating..." false =
    [SetBackground V1Build.status_dot "#4caf50";
     SetText V1Build.status_text [Str "Updating..."];
     SetText V1Build.status_details [Str "Last update: "; TimeLocale 1000]].
Proof.
  intros doc doc'. split; [reflexivity|].
  apply (V1_created_indicator_is_reached "position: fixed;" doc doc'
           (Sample.wake_at 1000 doc') "Updating..." false); reflexivity.
Defined.

Lemma has_id_counts id c :
  Build.has_id id c = true -> 1 <= length (filter (Build.has_id id) (elements c)).
Proof.
  intros H. destruct c as [x | t a cs]; [discriminate|].
  rewrite elements_Elem. cbn [filter]. rewrite H. simpl. lia.
Qed.

Lemma remove_among_count id cs :
  Forall (fun c => forall c', Build.remove_by_id id c = Some c' ->
                              count_id id c' < count_id id c) cs ->
  forall cs', Build.remove_among id (Build.remove_by_id id) cs = Some cs' ->
  length (filter (Build.has_id id) (flat_map elements cs')) <
  length (filter (Build.has_id id) (flat_map elements cs)).
Proof.
  induction 1 as [|c cs Hc _ IH]; intros cs' R; simpl in R; [discriminate|].
  destruct (Build.has_id id c) eqn:HC.
  - injection R as <-. cbn [flat_map]. rewrite filter_app, length_app.
    pose proof (has_id_counts id c HC). lia.
  - destruct (Build.remove_by_id id c) as [c'|] eqn:RC.
    + injection R as <-. cbn [flat_map]. rewrite !filter_app, !length_app.
      specialize (Hc c' eq_refl). unfold count_id in Hc. lia.
    + destruct (Build.remove_among id (Build.remove_by_id id) cs) as [cs0|]; [|discriminate].
      injection R as <-. cbn [flat_map]. rewrite !filter_app, !length_app.
      specialize (IH cs0 eq_refl). lia.
Qed.

(** Removing an element by its id leaves fewer elements with that id. *)
Lemma remove_by_id_count id n : forall n',
  Build.remove_by_id id n = Some n' -> count_id id n' < count_id id n.
Proof.
  induction n as [x | t a cs IH] using node_ind'; intros n' R; [discriminate|].
  simpl in R.
  destruct (Build.remove_among id (Build.remove_by_id id) cs) as [cs'|] eqn:A; [|discriminate].
  injection R as <-. pose proof (remove_among_count id cs IH cs' A) as L.
  unfold count_id. rewrite !elements_Elem. cbn [filter].
  replace (Build.has_id id (Elem t a cs')) with (Build.has_id id (Elem t a cs))
    by (apply matches_shell; reflexivity).
  destruct (Build.has_id id (Elem t a cs)); simpl; lia.
Qed.

Lemma getElementById_none_count doc id :
  getElementById doc id = None -> count_id id doc = 0.
Proof.
  intros H. pose proof (getElementById_self doc id) as S. rewrite H in S. simpl in S.
  unfold count_id. destruct (filter _ _); [reflexivity | discriminate].
Qed.

(** X17.  v2.0: [createStatusPanel] removes the panel it finds before it
    adds the new one, so the page never gains a panel by it: afterwards there
    is at least one element with the id [options-levels-panel] and no more
    than there were before, or one; on a page that held at most one panel
    there is exactly one. *)
Theorem V2_createStatusPanel_replaces_the_panel (doc doc' : node) :
  V2Build.createStatusPanel doc = Some doc' ->
  1 <= count_id "options-levels-panel" doc' /\
  count_id "options-levels-panel" doc' <= Nat.max 1 (count_id "options-levels-panel" doc) /\
  (count_id "options-levels-panel" doc <= 1 -> count_id "options-levels-panel" doc' = 1).
Proof.
  unfold V2Build.createStatusPanel. intros C.
  assert (H : exists doc1,
             count_id "options-levels-panel" doc1 + 1 <=
               Nat.max 1 (count_id "options-levels-panel" doc) /\
             match Build.head_appendChild doc1 V2Build.style with
             | Some doc2 => Build.body_appendChild doc2 V2Build.panel
             | None => None
             end = Some doc').
  { destruct (getElementById doc "options-levels-panel") as [existing|] eqn:G.
    - destruct (Build.has_id "options-levels-panel" doc); [discriminate|].
      destruct (Build.remove_by_id "options-levels-panel" doc) as [doc1|] eqn:R;
        [|discriminate].
      exists doc1. split; [|exact C].
      pose proof (remove_by_id_count _ _ _ R). lia.
    - exists doc. split; [|exact C].
      rewrite (getElementById_none_count _ _ G). simpl. lia. }
  destruct H as (doc1 & L & A).
  destruct (Build.head_appendChild doc1 V2Build.style) as [doc2|] eqn:HA; [|discriminate].
  pose proof (count_after_append _ _ _ _ "options-levels-panel" is_head_text HA) as C2.
  pose proof (count_after_append _ _ _ _ "options-levels-panel" is_body_text A) as C3.
  change (count_id "options-levels-panel" V2Build.style) with 0 in C2.
  assert (P1 : count_id "options-levels-panel" V2Build.panel = 1) by (vm_compute; reflexivity).
  rewrite P1 in C3. lia.
Qed.

Lemma V2_createStatusPanel_twice_witness :
  let doc := Elem "html" [] [Elem "head" [] []; Elem "body" [] [Sample.legend "Vol 20"]] in
  let doc1 := Elem "html" []
                [Elem "head" [] [V2Build.style];
                 Elem "body" [] [Sample.legend "Vol 20"; V2Build.panel]] in
  let doc2 := Elem "html" []
                [Elem "head" [] [V2Build.style; V2Build.style];
                 Elem "body" [] [Sample.legend "Vol 20"; V2Build.panel]] in
  V2Build.createStatusPanel doc = Some doc1 /\
  V2Build.createStatusPanel doc1 = Some doc2 /\
  count_id "options-levels-panel" doc2 = 1.
Proof.
  intros doc doc1 doc2.
  assert (C1 : V2Build.createStatusPanel doc = Some doc1) by (vm_compute; reflexivity).
  assert (C2 : V2Build.createStatusPanel doc1 = Some doc2) by (vm_compute; reflexivity).
  split; [exact C1|]. split; [exact C2|].
  destruct (V2_createStatusPanel_replaces_the_panel doc1 doc2 C2) as (_ & _ & H2).
  apply H2. vm_compute. lia.
Defined.

Lemma V2_with_element_self o k :
  V2.with_element o k = match option_map self o with Some n => k n | None => [] end.
Proof. destruct o; reflexivity. Qed.

(** X18.  v2.0: once [createStatusPanel] has run on a page that has a head
    and a body and held no element with the ids of the panel, the status
    writes reach the panel: [updateStatusPanel] shows the two levels and the
    time on its elements, [setStatus] the text on its status line. *)
Theorem V2_created_panel_is_reached
  (doc doc' : node) (w : wake) (c : V2.client) (txt : string) (isError : bool) :
  V2Build.createStatusPanel doc = Some doc' ->
  document w = doc' ->
  count_id "options-levels-panel" doc = 0 ->
  count_id "ol-resistance" doc = 0 ->
  count_id "ol-support" doc = 0 ->
  count_id "ol-status" doc = 0 ->
  V2.updateStatusPanel c w =
    [SetText V2Build.ol_resistance [Str "$"; NumLocale (V2.state.resistance c)];
     SetText V2Build.ol_support [Str "$"; NumLocale (V2.state.support c)];
     SetText V2Build.ol_status [Str "Updated: "; TimeLocale (now w)];
     SetClass V2Build.ol_status "ol-status success"] /\
  V2.setStatus w txt isError =
    [SetText V2Build.ol_status [Str txt];
     SetClass V2Build.ol_status ("ol-status " ++ (if isError then "error" else EmptyString))].
Proof.
  intros C D ZP ZR ZS ZT. unfold V2Build.createStatusPanel in C.
  assert (G : getElementById doc "options-levels-panel" = None).
  { pose proof (getElementById_self doc "options-levels-panel") as S.
    unfold count_id in ZP. destruct (filter _ _); [|discriminate].
    destruct (getElementById doc "options-levels-panel"); [discriminate | reflexivity]. }
  rewrite G in C.
  destruct (Build.head_appendChild doc V2Build.style) as [doc2|] eqn:HA; [|discriminate].
  assert (Z2 : forall id, count_id id doc = 0 -> count_id id doc2 = 0).
  { intros id Z. rewrite (count_after_append _ _ _ _ id is_head_text HA), Z.
    unfold count_id, V2Build.style. rewrite elements_Elem. cbn [flat_map filter elements].
    reflexivity. }
  unfold V2.updateStatusPanel, V2.setStatus. rewrite !V2_with_element_self, D.
  rewrite (getElementById_appended _ _ _ _ "ol-resistance" is_body_text C (Z2 _ ZR)).
  rewrite (getElementById_appended _ _ _ _ "ol-support" is_body_text C (Z2 _ ZS)).
  rewrite (getElementById_appended _ _ _ _ "ol-status" is_body_text C (Z2 _ ZT)).
  split; reflexivity.
Qed.

Lemma V2_created_panel_witness :
  let doc := Elem "html" [] [Elem "head" [] []; Elem "body" [] [Sample.legend "Vol 20"]] in
  let doc' := Elem "html" []
                [Elem "head" [] [V2Build.style];
                 Elem "body" [] [Sample.legend "Vol 20"; V2Build.panel]] in
  V2Build.createStatusPanel doc = Some doc' /\
  V2.setStatus (Sample.wake_at 1000 doc') "No changes" false =
    [SetText V2Build.ol_status [Str "No changes"]; SetClass V2Build.ol_status "ol-status "].
Proof.
  intros doc doc'. split; [reflexivity|].
  apply (V2_created_panel_is_reached doc doc' (Sample.wake_at 1000 doc') V2.initial
           "No changes" false); reflexivity.
Defined.

(* ================================================================== *)
(** * Whole cycles: what is compared, what is shown, what is written *)
(* ================================================================== *)

(** ** The comparison decides whether the driver runs *)

Lemma V2_continue_trace c p tr ev :
  snd (V2.continue (c, p, tr) ev) = tr ++ snd (V2.resume c p ev).
Proof. unfold V2.continue. apply V2_add_trace_trace. Qed.


Lemma V1_continue_trace c p tr ev :
  snd (V1.continue (c, p, tr) ev) = tr ++ snd (V1.resume c p ev).
Proof. unfold V1.continue. apply V1_add_trace_trace. Qed.

(** What a task has done stays done: later events only add to the trace. *)
Lemma V2_run_extends evs : forall r,
  exists rest, snd (fold_left V2.continue evs r) = snd r ++ rest.
Proof.
  induction evs as [|ev evs IH]; intros r; [exists []; rewrite app_nil_r; reflexivity|].
  cbn [fold_left]. destruct (IH (V2.continue r ev)) as (rest & E).
  destruct r as [[c p] tr]. rewrite V2_continue_trace in E.
  exists (snd (V2.resume c p ev) ++ rest). rewrite E, <- app_assoc. reflexivity.
Qed.

(** When [findIndicatorSettings] returns [true] it has clicked. *)
Lemma V1_locate_clicks doc :
  fst (V1.findIndicatorSettings doc) = true ->
  exists b, snd (V1.findIndicatorSettings doc) = [Click b].
Proof.
  unfold V1.findIndicatorSettings.
  destruct (V1.legend_loop _) as [tr|] eqn:L.
  - intros _. destruct (V1_legend_loop_sound _ _ L) as (_ & _ & b & _ & _ & _ & _ & ->).
    exists (self b). reflexivity.
  - destruct (V1.item_loop _) as [tr|] eqn:I; [|discriminate].
    intros _. destruct (V1_item_loop_sound _ _ I) as (_ & b & _ & _ & _ & ->).
    exists (self b). reflexivity.
Qed.

Lemma V2_search_clicks items rest :
  fst (V2.updateIndicatorSettings_search items) = V2.SleepingForDialog rest ->
  exists b, snd (V2.updateIndicatorSettings_search items) = [Click b].
Proof.
  unfold V2.updateIndicatorSettings_search.
  destruct (V2.legend_loop items) as [[tr rest']|] eqn:L; [|discriminate].
  intros _. cbn [snd]. revert L.
  induction items as [|item items IH]; cbn [V2.legend_loop]; [discriminate|].
  intros L. repeat (break_match_in L); try (apply IH; exact L).
  injection L as <- _. eexists. reflexivity.
Qed.

Lemma ui_touched_by_click pre b post : ~ ui_untouched (pre ++ [Click b] ++ post).
Proof.
  unfold ui_untouched. rewrite !forallb_app. cbn [forallb is_ui negb andb].
  rewrite andb_false_r. discriminate.
Qed.

(** v1.0: a call on an idle client, up to the end of the stretch that the
    reply starts. *)
Lemma V1_reply_stretch c s :
  V1.isUpdating c = false ->
  V1.continue (V1.invoke c (V1.at_start s)) (Settled (V1.reply s) (V1.at_reply s)) =
  V1.add_trace (V1.updateStatus (V1.at_start s) "Updating..." false ++
                [V1.fetch_request (V1.at_start s)])
    (V1.resume (V1.set_isUpdating c true) V1.AwaitFetch (Settled (V1.reply s) (V1.at_reply s))).
Proof.
  intros B. rewrite (V1_invoke_idle _ _ B). reflexivity.
Qed.

Lemma V2_reply_stretch c w r w1 :
  V2.state.isUpdating c = false ->
  V2.continue (V2.invoke c w) (Settled r w1) =
  V2.add_trace (V2.setStatus w "Updating..." false ++ [V2.fetch_request w])
    (V2.resume (V2.set_isUpdating c true) V2.AwaitFetch (Settled r w1)).
Proof.
  intros B. rewrite (V2_invoke_idle _ _ B). reflexivity.
Qed.

(** v1.0: a changed cycle that meets no throwing page runs the driver, first
    the search for the indicator and, when that has clicked, the dialog. *)
Lemma V1_changed_cycle_trace c s data :
  V1.isUpdating c = false ->
  V1.fetchData (V1.reply s) = inl data ->
  data <> V1.lastData c ->
  fault (V1.at_reply s) = None ->
  fault (V1.at_dialog s) = None ->
  fault (V1.at_apply s) = None ->
  exists rest,
    snd (V1.fetchAndUpdate c s) =
      V1.updateStatus (V1.at_start s) "Updating..." false ++
      [V1.fetch_request (V1.at_start s)] ++
      snd (V1.findIndicatorSettings (document (V1.at_reply s))) ++
      (if fst (V1.findIndicatorSettings (document (V1.at_reply s)))
       then snd (V1.updateIndicatorInput data (V1.at_dialog s) (V1.at_apply s))
       else []) ++
      rest.
Proof.
  intros B F D T1 T2 T3.
  unfold V1.fetchAndUpdate. rewrite (V1_reply_stretch _ _ B).
  unfold V1.resume at 1. rewrite F. unfold V1.fetched_step, V1.propagate.
  destruct (String.eqb_spec data (V1.lastData (V1.set_isUpdating c true))) as [E|_];
    [contradiction|].
  rewrite T1. unfold V1.updateIndicatorInput.
  destruct (V1.findIndicatorSettings (document (V1.at_reply s))) as [[|] tr]; cbn [fst snd V1.add_trace].
  - unfold V1.continue at 2. unfold V1.resume at 1. rewrite T2. unfold V1.dialog_step.
    destruct (V1.updateIndicatorInput_dialog (V1.at_dialog s) data) as [[updated|dialog] tr2].
    + unfold V1.after_update. cbn [V1.add_trace]. unfold V1.continue.
      rewrite V1_resume_finished. cbn [V1.add_trace snd].
      match goal with
      | |- context [tr2 ++ ?x] => exists x
      end.
      rewrite app_nil_r, <- !app_assoc. reflexivity.
    + cbn [V1.add_trace]. unfold V1.continue, V1.resume. rewrite T3.
      destruct (V1.updateIndicatorInput_apply (live (V1.at_apply s) dialog)) as [updated tr3].
      unfold V1.after_update. cbn [V1.add_trace snd].
      match goal with
      | |- context [tr3 ++ ?x] => exists x
      end.
      rewrite <- !app_assoc. reflexivity.
  - unfold V1.continue at 2. cbv beta iota. rewrite V1_resume_finished. cbn [V1.add_trace].
    unfold V1.continue. rewrite V1_resume_finished. cbn [V1.add_trace snd].
    match goal with
    | |- context [tr ++ ?x ++ ?y] => exists (x ++ y)
    end.
    rewrite !app_nil_r, <- !app_assoc. reflexivity.
Qed.

Lemma V2_panel_ignores_guard c d t w b :
  V2.updateStatusPanel (V2.store (V2.set_isUpdating c b) d t) w =
  V2.updateStatusPanel (V2.store c d t) w.
Proof. reflexivity. Qed.

Lemma V2_changed_ignores_guard d c b :
  V2.changed d (V2.set_isUpdating c b) = V2.changed d c.
Proof. reflexivity. Qed.

(** v2.0: the stretch the reply starts, when the record has changed and the
    page does not throw: the panel, then the search of the driver. *)
Lemma V2_changed_reply_stretch c w r w1 d :
  V2.state.isUpdating c = false ->
  V2.fetchData r = inl d ->
  V2.changed d c = true ->
  fault w1 = None ->
  snd (V2.continue (V2.invoke c w) (Settled r w1)) =
    V2.setStatus w "Updating..." false ++ [V2.fetch_request w] ++
    V2.updateStatusPanel (V2.store c d (now w1)) w1 ++
    snd (V2.updateIndicatorSettings_search
           (map self (docQuerySelectorAll (document w1)
                        [[AttrIs "data-name" "legend-source-item"]]))) ++
    match fst (V2.updateIndicatorSettings_search
                 (map self (docQuerySelectorAll (document w1)
                              [[AttrIs "data-name" "legend-source-item"]]))) with
    | V2.Returned updated => snd (V2.after_update c d updated)
    | _ => []
    end.
Proof.
  intros B F C T.
  rewrite (V2_reply_stretch _ _ _ _ B). unfold V2.resume. rewrite F.
  unfold V2.fetched_step. rewrite V2_changed_ignores_guard, C.
  unfold V2.propagate. rewrite T, V2_panel_ignores_guard.
  rewrite !V2_add_trace_trace. unfold V2.search, V2.driven.
  destruct (V2.updateIndicatorSettings_search _) as [[updated|rest|dialog rest] tr];
    cbn [fst snd]; rewrite ?V2_add_trace_trace, ?app_nil_r, <- ?app_assoc; reflexivity.
Qed.

Lemma V2_unchanged_cycle c w r w1 d evs :
  V2.state.isUpdating c = false ->
  V2.fetchData r = inl d ->
  V2.changed d c = false ->
  V2.fetchAndUpdate c w (Settled r w1 :: evs) =
    (c, V2.Finished,
     V2.setStatus w "Updating..." false ++ [V2.fetch_request w] ++
     V2.setStatus w1 "No changes" false).
Proof.
  intros B F C. unfold V2.fetchAndUpdate. cbn [fold_left].
  rewrite (V2_reply_stretch _ _ _ _ B). unfold V2.resume. rewrite F.
  unfold V2.fetched_step. rewrite V2_changed_ignores_guard, C. cbn [V2.add_trace].
  rewrite V2_finished_stays.
  destruct c as [rs sp lu b]. simpl in B. subst b. unfold V2.set_isUpdating. simpl.
  rewrite <- !app_assoc. reflexivity.
Qed.

Lemma V1_continue_extends r ev : exists rest, snd (V1.continue r ev) = snd r ++ rest.
Proof.
  destruct r as [[c p] tr]. rewrite V1_continue_trace. eexists. reflexivity.
Qed.

(** v1.0: in a changed cycle the search of the driver runs on the page the
    reply finds, whatever happens later. *)
Lemma V1_changed_cycle_prefix c s data :
  V1.isUpdating c = false ->
  V1.fetchData (V1.reply s) = inl data ->
  data <> V1.lastData c ->
  fault (V1.at_reply s) = None ->
  exists rest,
    snd (V1.fetchAndUpdate c s) =
      V1.updateStatus (V1.at_start s) "Updating..." false ++
      [V1.fetch_request (V1.at_start s)] ++
      snd (V1.findIndicatorSettings (document (V1.at_reply s))) ++ rest.
Proof.
  intros B F D T1. unfold V1.fetchAndUpdate.
  destruct (V1_continue_extends
              (V1.continue (V1.continue (V1.invoke c (V1.at_start s))
                              (Settled (V1.reply s) (V1.at_reply s))) (Woke (V1.at_dialog s)))
              (Woke (V1.at_apply s))) as (r3 & E3).
  destruct (V1_continue_extends
              (V1.continue (V1.invoke c (V1.at_start s))
                 (Settled (V1.reply s) (V1.at_reply s))) (Woke (V1.at_dialog s))) as (r2 & E2).
  rewrite E3, E2, (V1_reply_stretch _ _ B), V1_add_trace_trace.
  unfold V1.resume. rewrite F. unfold V1.fetched_step, V1.propagate.
  destruct (String.eqb_spec data (V1.lastData (V1.set_isUpdating c true))) as [E|_];
    [contradiction|].
  rewrite T1.
  destruct (V1.findIndicatorSettings (document (V1.at_reply s))) as [[|] tr]; cbn [snd].
  - exists (r2 ++ r3). rewrite <- !app_assoc. reflexivity.
  - match goal with
    | |- context [tr ++ ?x ++ ?y] => exists ((x ++ y) ++ r2 ++ r3)
    end.
    rewrite <- !app_assoc. reflexivity.
Qed.

(** C4, as the code has it.  v1.0 compares the whole fetched body with
    [lastData] as strings; v2.0 compares the fetched resistance and support
    with the stored ones by [!==] and looks at no other field.  When the
    comparison finds no difference, the cycle reports no change, leaves the
    client as it was with the guard clear, and does nothing to the page,
    whatever the page is.  When it finds one and the page does not throw, the
    driver runs on the page the reply finds: in v1.0 the search for the
    indicator and, when that has clicked, the work on the dialog are in the
    trace at their place; in v2.0 the panel is updated and the search
    follows.  On a page where the search finds the indicator, the cycle
    touches the page exactly when the comparison found a difference. *)
Theorem C4_change_detection
  (c1 : V1.client) (s : V1.script) (data : string)
  (c2 : V2.client) (w w1 : wake) (r : response) (d d' : V2.data.t) (evs : list event) :
  V1.isUpdating c1 = false ->
  V1.fetchData (V1.reply s) = inl data ->
  V2.state.isUpdating c2 = false ->
  V2.fetchData r = inl d ->
  let located := V1.findIndicatorSettings (document (V1.at_reply s)) in
  let searched :=
    V2.updateIndicatorSettings_search
      (map self (docQuerySelectorAll (document w1) [[AttrIs "data-name" "legend-source-item"]])) in
  let tr1 := snd (V1.fetchAndUpdate c1 s) in
  let tr2 := snd (V2.fetchAndUpdate c2 w (Settled r w1 :: evs)) in
  (data = V1.lastData c1 ->
   V1.fetchAndUpdate c1 s =
     (c1, V1.Finished,
      V1.updateStatus (V1.at_start s) "Updating..." false ++
      [V1.fetch_request (V1.at_start s)] ++
      V1.updateStatus (V1.at_reply s) "Options Levels: No changes" false) /\
   ui_untouched tr1) /\
  (data <> V1.lastData c1 ->
   fault (V1.at_reply s) = None -> fault (V1.at_dialog s) = None ->
   fault (V1.at_apply s) = None ->
   exists rest,
     tr1 = V1.updateStatus (V1.at_start s) "Updating..." false ++
           [V1.fetch_request (V1.at_start s)] ++
           snd located ++
           (if fst located
            then snd (V1.updateIndicatorInput data (V1.at_dialog s) (V1.at_apply s))
            else []) ++
           rest) /\
  (fault (V1.at_reply s) = None -> fst located = true ->
   (ui_untouched tr1 <-> data = V1.lastData c1)) /\
  (V2.changed d c2 = false ->
   V2.fetchAndUpdate c2 w (Settled r w1 :: evs) =
     (c2, V2.Finished,
      V2.setStatus w "Updating..." false ++ [V2.fetch_request w] ++
      V2.setStatus w1 "No changes" false) /\
   ui_untouched tr2) /\
  (V2.changed d c2 = true -> fault w1 = None ->
   exists rest,
     tr2 = V2.setStatus w "Updating..." false ++ [V2.fetch_request w] ++
           V2.updateStatusPanel (V2.store c2 d (now w1)) w1 ++
           snd searched ++ rest) /\
  (fault w1 = None ->
   (exists rest, fst searched = V2.SleepingForDialog rest) ->
   (ui_untouched tr2 <-> V2.changed d c2 = false)) /\
  (V2.changed d c2 = true <->
   strict_ne (V2.data.resistance d) (V2.state.resistance c2) = true \/
   strict_ne (V2.data.support d) (V2.state.support c2) = true) /\
  (V2.data.resistance d = V2.data.resistance d' ->
   V2.data.support d = V2.data.support d' ->
   V2.changed d c2 = V2.changed d' c2).
Proof.
  intros B1 F1 B2 F2 located searched tr1 tr2.
  assert (U1 : data = V1.lastData c1 ->
               V1.fetchAndUpdate c1 s =
                 (c1, V1.Finished,
                  V1.updateStatus (V1.at_start s) "Updating..." false ++
                  [V1.fetch_request (V1.at_start s)] ++
                  V1.updateStatus (V1.at_reply s) "Options Levels: No changes" false) /\
               ui_untouched tr1).
  { intros E. subst data. pose proof (V1_unchanged_cycle c1 s B1 F1) as U.
    split; [exact U|]. unfold tr1. rewrite U. cbn [snd].
    apply ui_untouched_app; [apply V1_updateStatus_ui|].
    apply (ui_untouched_app [_]); [reflexivity | apply V1_updateStatus_ui]. }
  assert (U2 : V2.changed d c2 = false ->
               V2.fetchAndUpdate c2 w (Settled r w1 :: evs) =
                 (c2, V2.Finished,
                  V2.setStatus w "Updating..." false ++ [V2.fetch_request w] ++
                  V2.setStatus w1 "No changes" false) /\
               ui_untouched tr2).
  { intros C. pose proof (V2_unchanged_cycle c2 w r w1 d evs B2 F2 C) as U.
    split; [exact U|]. unfold tr2. rewrite U. cbn [snd].
    apply ui_untouched_app; [apply V2_setStatus_ui|].
    apply (ui_untouched_app [_]); [reflexivity | apply V2_setStatus_ui]. }
  assert (P2 : V2.changed d c2 = true -> fault w1 = None ->
               exists rest,
                 tr2 = V2.setStatus w "Updating..." false ++ [V2.fetch_request w] ++
                       V2.updateStatusPanel (V2.store c2 d (now w1)) w1 ++
                       snd searched ++ rest).
  { intros C T. unfold tr2, V2.fetchAndUpdate. cbn [fold_left].
    destruct (V2_run_extends evs (V2.continue (V2.invoke c2 w) (Settled r w1))) as (rest & E).
    rewrite E, (V2_changed_reply_stretch c2 w r w1 d B2 F2 C T).
    eexists. rewrite <- !app_assoc. reflexivity. }
  split; [exact U1|].
  split; [intros D T1 T2 T3; apply (V1_changed_cycle_trace c1 s data B1 F1 D T1 T2 T3)|].
  split.
  { intros T1 L. split; [|intros E; apply U1, E].
    intros UI. destruct (string_dec data (V1.lastData c1)) as [E|D]; [exact E|]. exfalso.
    destruct (V1_changed_cycle_prefix c1 s data B1 F1 D T1) as (rest & E).
    destruct (V1_locate_clicks _ L) as (b & K).
    fold tr1 in E. rewrite E, K in UI. revert UI.
    rewrite app_assoc. apply ui_touched_by_click. }
  split; [exact U2|].
  split; [exact P2|].
  split.
  { intros T (rest0 & S). split; [|intros C; apply U2, C].
    intros UI. destruct (V2.changed d c2) eqn:C; [|reflexivity]. exfalso.
    destruct (P2 eq_refl T) as (rest & E).
    destruct (V2_search_clicks _ _ S) as (b & K).
    fold searched in K. rewrite E, K in UI. revert UI.
    rewrite !app_assoc, <- (app_assoc _ [Click b] rest). apply ui_touched_by_click. }
  split.
  { unfold V2.changed. apply orb_true_iff. }
  unfold V2.changed. intros -> ->. reflexivity.
Qed.

Lemma C4_witness :
  let s := Sample.cycle Sample.ledger2 Sample.page_with_tracker Sample.page_dialog_open in
  let c1 := V1.Client Sample.day1 false in
  let c2 := V2.state.Make (Finite (inject_Z 98500)) (Finite (inject_Z 95200)) (Some 7%N) false in
  let w := Sample.wake_at 1000 Sample.page_levels_open in
  (ui_untouched (snd (V1.fetchAndUpdate c1 s)) <->
   (Sample.day1 ++ LFs ++ Sample.day2)%string = Sample.day1) /\
  V2.fetchAndUpdate c2 w [Settled (Loaded 200 Sample.ledger_same_walls) w] =
    (c2, V2.Finished,
     V2.setStatus w "Updating..." false ++ [V2.fetch_request w] ++
     V2.setStatus w "No changes" false).
Proof.
  intros s c1 c2 w.
  destruct (C4_change_detection c1 s (Sample.day1 ++ LFs ++ Sample.day2)%string
              c2 w w (Loaded 200 Sample.ledger_same_walls)
              (V2.data.Make "19/12/2024" (Finite (inject_Z 98500)) (Finite (inject_Z 95200)))
              (V2.data.Make "19/12/2024" (Finite (inject_Z 98500)) (Finite (inject_Z 95200)))
              [] eq_refl eq_refl eq_refl eq_refl)
    as (_ & _ & H3 & H4 & _).
  split.
  - apply H3; reflexivity.
  - apply H4. reflexivity.
Defined.

(** C4 as the specification words it fails in v2.0: the ledger's latest
    record differs from the one applied before (a new date, new gamma
    strikes), and the cycle reports no change and does not try the page. *)
Lemma C4_counterexample :
  let w := Sample.wake_at 1000 Sample.page_levels_open in
  let applied :=
    fst (fst (V2.fetchAndUpdate V2.initial w
                [Settled (Loaded 200 Sample.ledger1) w; Woke w; Woke w])) in
  V2.fetchData (Loaded 200 Sample.ledger1) =
    inl (V2.data.Make "18/12/2024" (Finite (inject_Z 98500)) (Finite (inject_Z 95200))) /\
  V2.fetchData (Loaded 200 Sample.ledger_same_walls) =
    inl (V2.data.Make "19/12/2024" (Finite (inject_Z 98500)) (Finite (inject_Z 95200))) /\
  Sample.day1 <> Sample.day2_same_walls /\
  V2.fetchAndUpdate applied w [Settled (Loaded 200 Sample.ledger_same_walls) w] =
    (applied, V2.Finished,
     V2.setStatus w "Updating..." false ++ [V2.fetch_request w] ++
     V2.setStatus w "No changes" false).
Proof.
  repeat split. discriminate.
Qed.

(** ** What the status display is told *)

























(** ** Which fields are written *)

Lemma find_first {A} (f : A -> bool) before x after :
  (forall t, In t before -> f t = false) -> f x = true ->
  find f (before ++ x :: after) = Some x.
Proof.
  intros NB M. induction before as [|b before IH]; cbn [app find].
  - rewrite M. reflexivity.
  - rewrite (NB b (or_introl eq_refl)). apply IH. intros t I. apply NB. right. exact I.
Qed.

Lemma find_none {A} (f : A -> bool) l :
  (forall t, In t l -> f t = false) -> find f l = None.
Proof.
  intros N. induction l as [|t l IH]; [reflexivity|].
  cbn [find]. rewrite (N t (or_introl eq_refl)). apply IH.
  intros x I. apply N. right. exact I.
Qed.

Lemma flat_map_nil {A B} (f : A -> list B) l :
  (forall x, In x l -> f x = []) -> flat_map f l = [].
Proof.
  intros N. induction l as [|x l IH]; [reflexivity|].
  cbn [flat_map]. rewrite (N x (or_introl eq_refl)). apply IH.
  intros y I. apply N. right. exact I.
Qed.

(** C9, as the code has it.  v1.0 has one field, the data textarea.  It
    writes to the first textarea of the dialog whose cell shows "PASTE DATA"
    or "data", or whose placeholder says "data"; when no textarea is
    labelled so, to the first textarea of the dialog; and it gives up only in
    a dialog without textareas.  v2.0 goes through the text and number inputs
    of the dialog one by one: an input whose label, in lower case, contains
    "resistance" or "high" gets the resistance, otherwise one whose label
    contains "support" or "low" gets the support, and any other input is
    passed over without effect on the rest.  There is no fallback: when no
    label names a level, nothing is written. *)
Theorem C9_locate_fields
  (w1 w2 : wake) (data : string) (r s : number) (rest : list node) (dialog1 dialog2 : loc) :
  V1.find_dialog (document w1) = Some dialog1 ->
  docQuerySelector (document w2) [[AttrIs "data-dialog-name" "indicator-properties-dialog"]]
    = Some dialog2 ->
  let textareas := querySelectorAll dialog1 [[ByTag "textarea"]] in
  let inputs :=
    querySelectorAll dialog2
      [[ByTag "input"; AttrIs "type" "text"]; [ByTag "input"; AttrIs "type" "number"]] in
  let near (x : loc) := or_else (closest x [[AttrHas "class" "cell"]]) (parentElement x) in
  let mentions_data (ta : loc) :=
    match near ta with
    | Some parent =>
        includes (textContent parent) "PASTE DATA" ||
        includes (textContent parent) "data" ||
        includes (placeholder (self ta)) "data"
    | None => false
    end in
  let label (x : loc) :=
    match near x with
    | Some row => toLowerCase (textContent row)
    | None => EmptyString
    end in
  let written (ta : loc) :=
    [SetValue (self ta) [Str data]; Dispatch (self ta) "input"; Dispatch (self ta) "change";
     Log "Options Levels: Data updated in textarea" []] in
  let set (x : loc) (v : number) :=
    [SetValue (self x) [NumString v]; Dispatch (self x) "input"; Dispatch (self x) "change"] in
  (forall before ta after,
     textareas = before ++ ta :: after ->
     (forall t, In t before -> mentions_data t = false) ->
     mentions_data ta = true ->
     snd (V1.updateIndicatorInput_dialog w1 data) = written ta) /\
  (forall ta others,
     textareas = ta :: others ->
     (forall t, In t textareas -> mentions_data t = false) ->
     snd (V1.updateIndicatorInput_dialog w1 data) = written ta) /\
  (textareas = [] ->
   V1.updateIndicatorInput_dialog w1 data =
     (V1.Returned false, [Log "Options Levels: Textarea not found in dialog" []])) /\
  snd (V2.updateIndicatorSettings_dialog w2 r s rest) =
    flat_map
      (fun x =>
         if includes (label x) "resistance" || includes (label x) "high" then set x r
         else if includes (label x) "support" || includes (label x) "low" then set x s
         else [])
      inputs /\
  ((forall x, In x inputs ->
      includes (label x) "resistance" = false /\ includes (label x) "high" = false /\
      includes (label x) "support" = false /\ includes (label x) "low" = false) ->
   snd (V2.updateIndicatorSettings_dialog w2 r s rest) = []).
Proof.
  intros D1 D2 textareas inputs near mentions_data label written set.
  assert (FL : forall l, find V1.labelled l = find mentions_data l).
  { intros l. reflexivity. }
  assert (W : forall ta, V1.targetTextarea textareas = Some ta ->
                         snd (V1.updateIndicatorInput_dialog w1 data) = written ta).
  { intros ta T. unfold V1.updateIndicatorInput_dialog. rewrite D1.
    fold textareas. rewrite T. reflexivity. }
  assert (V : snd (V2.updateIndicatorSettings_dialog w2 r s rest) =
              flat_map
                (fun x =>
                   if includes (label x) "resistance" || includes (label x) "high" then set x r
                   else if includes (label x) "support" || includes (label x) "low" then set x s
                   else [])
                inputs).
  { unfold V2.updateIndicatorSettings_dialog. rewrite D2. reflexivity. }
  split.
  { intros before ta after E NB M. apply W. unfold V1.targetTextarea.
    rewrite FL, E, (find_first mentions_data before ta after NB M). reflexivity. }
  split.
  { intros ta others E N. apply W. unfold V1.targetTextarea.
    rewrite FL, (find_none mentions_data textareas N), E. reflexivity. }
  split.
  { intros E. unfold V1.updateIndicatorInput_dialog. rewrite D1. fold textareas.
    rewrite E. reflexivity. }
  split; [exact V|].
  intros N. rewrite V. apply flat_map_nil. intros x I.
  destruct (N x I) as (-> & -> & -> & ->). reflexivity.
Qed.

Lemma C9_witness :
  let w1 := Sample.wake_at 1700 Sample.page_two_fields in
  let w2 := Sample.wake_at 1800 Sample.page_mixed_open in
  let r := Finite (inject_Z 98500) in
  let s := Finite (inject_Z 95200) in
  snd (V1.updateIndicatorInput_dialog w1 Sample.day1) =
    [SetValue Sample.data_textarea [Str Sample.day1];
     Dispatch Sample.data_textarea "input"; Dispatch Sample.data_textarea "change";
     Log "Options Levels: Data updated in textarea" []] /\
  snd (V2.updateIndicatorSettings_dialog w2 r s []) =
    [SetValue Sample.number_input [NumString r];
     Dispatch Sample.number_input "input"; Dispatch Sample.number_input "change";
     SetValue Sample.number_input [NumString s];
     Dispatch Sample.number_input "input"; Dispatch Sample.number_input "change"].
Proof.
  intros w1 w2 r s.
  pose (body1 := Elem "body" []
                   [Sample.legend "Options Levels Tracker"; Sample.two_field_dialog;
                    Sample.status_indicator; Sample.status_panel]).
  pose (body2 := Elem "body" []
                   [Sample.legend "Options Levels"; Sample.mixed_dialog;
                    Sample.status_indicator; Sample.status_panel]).
  pose (dialog1 := Loc Sample.two_field_dialog [body1; Sample.page_two_fields]).
  pose (dialog2 := Loc Sample.mixed_dialog [body2; Sample.page_mixed_open]).
  pose (cell1 := Elem "div" [("class", "cell-tBgV1m0B")] [Text "Comment"; Sample.notes_textarea]).
  pose (cell2 := Elem "div" [("class", "cell-tBgV1m0B")] [Text "PASTE DATA"; Sample.data_textarea]).
  pose (notes := Loc Sample.notes_textarea
                   [cell1; Sample.two_field_dialog; body1; Sample.page_two_fields]).
  pose (ta := Loc Sample.data_textarea
                [cell2; Sample.two_field_dialog; body1; Sample.page_two_fields]).
  destruct (C9_locate_fields w1 w2 Sample.day1 r s [] dialog1 dialog2 eq_refl eq_refl)
    as (H1 & _ & _ & H4 & _).
  split.
  - apply (H1 [notes] ta []); [reflexivity | | reflexivity].
    intros t [<- | []]. reflexivity.
  - exact H4.
Defined.

(** C9 as the specification words it fails in v2.0: the open dialog has a
    text input, no label names a level, and instead of falling back to that
    first input the step writes nothing. *)
Lemma C9_counterexample :
  let w := Sample.wake_at 1800 Sample.page_unlabelled_open in
  let d := V2.data.Make "18/12/2024" (Finite (inject_Z 98500)) (Finite (inject_Z 95200)) in
  let dialog := Sample.levels_dialog [Sample.row "Length" Sample.text_input] [Sample.submit_button] in
  option_map self
    (docQuerySelector (document w) [[AttrIs "data-dialog-name" "indicator-properties-dialog"]])
    = Some dialog /\
  map self (querySelectorAll (at_root dialog) V2.input_selector) = [Sample.text_input] /\
  V2.updateIndicatorSettings_dialog w (V2.data.resistance d) (V2.data.support d) [] =
    (V2.SleepingForOk dialog [], []).
Proof.
  split; [vm_compute; reflexivity | split; vm_compute; reflexivity].
Qed.
